(** * Permissioned herb-traceability ledger: a shallow embedding

    The development follows [Blockchain.js] (class [PermissionedBlockchain])
    and [SmartContract.js] (class [AyurvedicHerbContract]).  Every JavaScript
    function that the properties below talk about is transcribed as a Rocq
    function of the same name; the mutable fields [chain],
    [pendingTransactions] and [nodes] become a record that is threaded
    through a small state-and-exception monad. *)

From Stdlib Require Import ZArith NArith List String Ascii Bool Lia.
From stdpp Require Import gmap strings list.

Local Open Scope string_scope.
Set Warnings "-register-all".

(** ** SHA-256 (node's [crypto.createHash('sha256')])

    Words are 32-bit values kept in [N]; every operation that can overflow
    is followed by an explicit truncation. *)
Module Sha256.

Local Open Scope N_scope.

Definition mask32 : N := 0xFFFFFFFF.
Definition w32 (x : N) : N := N.land x mask32.
Definition add32 (x y : N) : N := w32 (x + y).
Definition rotr (n x : N) : N := N.lor (N.shiftr x n) (w32 (N.shiftl x (32 - n))).
Definition not32 (x : N) : N := N.lxor x mask32.

Definition Ch (x y z : N) : N := N.lxor (N.land x y) (N.land (not32 x) z).
Definition Maj (x y z : N) : N :=
  N.lxor (N.lxor (N.land x y) (N.land x z)) (N.land y z).
Definition bsig0 (x : N) : N := N.lxor (N.lxor (rotr 2 x) (rotr 13 x)) (rotr 22 x).
Definition bsig1 (x : N) : N := N.lxor (N.lxor (rotr 6 x) (rotr 11 x)) (rotr 25 x).
Definition ssig0 (x : N) : N := N.lxor (N.lxor (rotr 7 x) (rotr 18 x)) (N.shiftr x 3).
Definition ssig1 (x : N) : N := N.lxor (N.lxor (rotr 17 x) (rotr 19 x)) (N.shiftr x 10).

(** The constants are defined the way FIPS 180-4 introduces them: the
    first 32 bits of the fractional parts of the cube roots (round
    constants) and of the square roots (initial state) of the first
    primes. *)
Definition is_prime (n : N) : bool :=
  (2 <=? n)
  && List.forallb (fun d => negb (n mod d =? 0))
       (List.map N.of_nat (List.seq 2 (N.to_nat (N.sqrt n) - 1))).

Definition first_primes : list N :=
  List.filter is_prime (List.map N.of_nat (List.seq 2 310)).

(** Integer cube root by bisection on the bits of the result. *)
Fixpoint cube_root_bits (bits : nat) (x acc : N) : N :=
  match bits with
  | O => acc
  | S bits' =>
      let candidate := acc + N.shiftl 1 (N.of_nat bits') in
      cube_root_bits bits' x
        (if candidate * candidate * candidate <=? x then candidate else acc)
  end.

Definition fraction_of_cube_root (p : N) : N :=
  w32 (cube_root_bits 36 (N.shiftl p 96) 0).

Definition fraction_of_square_root (p : N) : N :=
  w32 (N.sqrt (N.shiftl p 64)).

Definition K256 : list N :=
  Eval vm_compute in List.map fraction_of_cube_root first_primes.

Definition H0 : list N :=
  Eval vm_compute in List.map fraction_of_square_root (List.firstn 8 first_primes).

(** Big-endian packing of bytes into 32-bit words. *)
Fixpoint words_of_bytes (bs : list N) : list N :=
  match bs with
  | b0 :: b1 :: b2 :: b3 :: rest =>
      (N.shiftl b0 24 + N.shiftl b1 16 + N.shiftl b2 8 + b3) :: words_of_bytes rest
  | _ => []
  end.

Definition be_bytes (count : nat) (x : N) : list N :=
  List.map (fun i => N.land (N.shiftr x (8 * N.of_nat i)) 0xFF) (List.rev (List.seq 0 count)).

(** Padding: a single 1 bit, zeros up to 56 mod 64, then the bit length on
    eight bytes. *)
Definition pad (msg : list N) : list N :=
  let len := N.of_nat (List.length msg) in
  let zeros := N.to_nat ((119 - len mod 64) mod 64) in
  msg ++ 0x80 :: List.repeat 0 zeros ++ be_bytes 8 (8 * len).

(** The message schedule is kept newest-first, so that W(t-2), W(t-7),
    W(t-15) and W(t-16) sit at positions 1, 6, 14 and 15. *)
Fixpoint schedule (n : nat) (rev_ws : list N) : list N :=
  match n with
  | O => rev_ws
  | S n' =>
      let w := add32 (add32 (ssig1 (List.nth 1 rev_ws 0)) (List.nth 6 rev_ws 0))
                     (add32 (ssig0 (List.nth 14 rev_ws 0)) (List.nth 15 rev_ws 0)) in
      schedule n' (w :: rev_ws)
  end.

Record regs := Regs { ra : N; rb : N; rc : N; rd : N; re : N; rf : N; rg : N; rh : N }.

Definition round (s : regs) (kw : N * N) : regs :=
  let t1 := add32 (add32 (add32 (rh s) (bsig1 (re s))) (Ch (re s) (rf s) (rg s)))
                  (add32 (fst kw) (snd kw)) in
  let t2 := add32 (bsig0 (ra s)) (Maj (ra s) (rb s) (rc s)) in
  Regs (add32 t1 t2) (ra s) (rb s) (rc s) (add32 (rd s) t1) (re s) (rf s) (rg s).

Definition regs_of (h : list N) : regs :=
  Regs (List.nth 0 h 0) (List.nth 1 h 0) (List.nth 2 h 0) (List.nth 3 h 0)
       (List.nth 4 h 0) (List.nth 5 h 0) (List.nth 6 h 0) (List.nth 7 h 0).

Definition list_of (s : regs) : list N :=
  [ra s; rb s; rc s; rd s; re s; rf s; rg s; rh s].

Definition compress (h : list N) (block : list N) : list N :=
  let ws := List.rev (schedule 48 (List.rev block)) in
  let s := List.fold_left round (List.combine K256 ws) (regs_of h) in
  List.map (fun p => add32 (fst p) (snd p)) (List.combine h (list_of s)).

Fixpoint blocks (n : nat) (h : list N) (ws : list N) : list N :=
  match n with
  | O => h
  | S n' =>
      match ws with
      | [] => h
      | _ => blocks n' (compress h (List.firstn 16 ws)) (List.skipn 16 ws)
      end
  end.

Definition digest (msg : list N) : list N :=
  let ws := words_of_bytes (pad msg) in
  blocks (List.length ws) H0 ws.

Definition hex_digit (d : N) : ascii :=
  ascii_of_N (if d <? 10 then 48 + d else 87 + d).

Fixpoint hex_of_bytes (bs : list N) : string :=
  match bs with
  | [] => EmptyString
  | b :: rest =>
      String (hex_digit (N.shiftr b 4)) (String (hex_digit (N.land b 0xF)) (hex_of_bytes rest))
  end.

Fixpoint bytes_of_string (s : string) : list N :=
  match s with
  | EmptyString => []
  | String c rest => N_of_ascii c :: bytes_of_string rest
  end.

(** [crypto.createHash('sha256').update(s).digest('hex')]; a Rocq string
    is a sequence of bytes and stands for the UTF-8 encoding that [update]
    hashes. *)
Definition sha256_hex (s : string) : string :=
  hex_of_bytes (List.concat (List.map (be_bytes 4) (digest (bytes_of_string s)))).

End Sha256.

(** ** JavaScript values

    Payloads, metadata and validation records are free-form JSON-like
    data.  [JsVal] is the tree of such a value.  Property order is kept
    (it shows in [JSON.stringify], hence in every digest). *)

(** A JavaScript number, restricted to finite decimals:
    [num_digits * 10 ^ (- num_places)].  Arithmetic and comparison are
    exact; this coincides with IEEE-754 doubles on integers below 2^53,
    which is where the ledger's counters, timestamps and the examples
    live.  NaN is handled apart ([NumV]). *)
Record Num := mkNum { num_digits : Z; num_places : nat }.

Definition num_of_Z (z : Z) : Num := mkNum z 0.

Definition num_scaled (a : Num) (places : nat) : Z :=
  (num_digits a * 10 ^ Z.of_nat (places - num_places a))%Z.

Definition num_leb (a b : Num) : bool :=
  let p := Nat.max (num_places a) (num_places b) in
  (num_scaled a p <=? num_scaled b p)%Z.

Definition num_ltb (a b : Num) : bool :=
  let p := Nat.max (num_places a) (num_places b) in
  (num_scaled a p <? num_scaled b p)%Z.

Definition num_eqb (a b : Num) : bool :=
  let p := Nat.max (num_places a) (num_places b) in
  (num_scaled a p =? num_scaled b p)%Z.

Definition num_add (a b : Num) : Num :=
  let p := Nat.max (num_places a) (num_places b) in
  mkNum (num_scaled a p + num_scaled b p) p.

Inductive JsVal : Type :=
| JUndefined
| JNull
| JBool (b : bool)
| JNum (n : Num)
| JStr (s : string)
| JArr (items : list JsVal)
| JObj (fields : list (string * JsVal)).

Definition JInt (z : Z) : JsVal := JNum (num_of_Z z).

(** Own properties of an object, in insertion order. *)
Definition Fields := list (string * JsVal).

Fixpoint assoc {A : Type} (k : string) (l : list (string * A)) : option A :=
  match l with
  | [] => None
  | (k', v) :: rest => if String.eqb k k' then Some v else assoc k rest
  end.

(** [o.k] on a plain data object: the own property or [undefined]. *)
Definition field (k : string) (fs : Fields) : JsVal :=
  match assoc k fs with Some v => v | None => JUndefined end.

(** [o.k = v]: an existing key keeps its position, a new key goes last. *)
Fixpoint set_field (k : string) (v : JsVal) (fs : Fields) : Fields :=
  match fs with
  | [] => [(k, v)]
  | (k', v') :: rest =>
      if String.eqb k k' then (k, v) :: rest else (k', v') :: set_field k v rest
  end.

(** Truthiness, as [if (v)], [v && ...] and [v || ...] see it. *)
Definition truthy (v : JsVal) : bool :=
  match v with
  | JUndefined | JNull => false
  | JBool b => b
  | JNum n => negb (num_digits n =? 0)%Z
  | JStr s => negb (String.eqb s "")
  | JArr _ | JObj _ => true
  end.

(** [a === b].  Primitives compare by value.  Two objects (or arrays) are
    equal only when they are the same reference; the values met here come
    from separately built payloads, so they never are. *)
Definition strict_eq (a b : JsVal) : bool :=
  match a, b with
  | JUndefined, JUndefined => true
  | JNull, JNull => true
  | JBool x, JBool y => Bool.eqb x y
  | JNum x, JNum y => num_eqb x y
  | JStr x, JStr y => String.eqb x y
  | _, _ => false
  end.

(** *** Names every object literal inherits

    [table[key]] on an object literal also finds the properties of
    [Object.prototype].  They are all functions, except [__proto__],
    which is the prototype object itself: truthy values that are neither
    strings, numbers nor arrays. *)
Definition object_prototype_keys : list string :=
  [ "constructor"; "hasOwnProperty"; "isPrototypeOf"; "propertyIsEnumerable";
    "toLocaleString"; "toString"; "valueOf"; "__proto__";
    "__defineGetter__"; "__defineSetter__"; "__lookupGetter__"; "__lookupSetter__" ].

Inductive Lookup (A : Type) : Type :=
| Own (a : A)
| Inherited (key : string)
| Missing.
Arguments Own {A} a.
Arguments Inherited {A} key.
Arguments Missing {A}.

Definition literal_get {A : Type} (table : list (string * A)) (key : string) : Lookup A :=
  match assoc key table with
  | Some v => Own v
  | None =>
      if existsb (String.eqb key) object_prototype_keys then Inherited key else Missing
  end.

(** ** JSON.stringify *)
Module Json.

Definition digit_char (d : N) : ascii := ascii_of_N (48 + d).

Fixpoint digits_go (fuel : nat) (n : N) (acc : string) : string :=
  match fuel with
  | O => acc
  | S fuel' =>
      let acc' := String (digit_char (n mod 10)) acc in
      if (n <? 10)%N then acc' else digits_go fuel' (n / 10) acc'
  end.

Definition string_of_N (n : N) : string := digits_go (S (N.size_nat n)) n "".

Definition string_of_Z (z : Z) : string :=
  match z with
  | Zneg p => String "-" (string_of_N (Npos p))
  | _ => string_of_N (Z.to_N z)
  end.

(** Trailing zeros of the fraction are dropped: 12.50 prints as 12.5. *)
Fixpoint trim (places : nat) (d : Z) : Num :=
  match places with
  | O => mkNum d 0
  | S p => if (d mod 10 =? 0)%Z then trim p (d / 10) else mkNum d places
  end.

Fixpoint zeros (n : nat) : string :=
  match n with O => "" | S n' => String "0" (zeros n') end.

(** [String(x)] for a number: plain decimal notation, which is what
    JavaScript prints for magnitudes from 1e-6 up to 1e21. *)
Definition string_of_num (x : Num) : string :=
  let t := trim (num_places x) (num_digits x) in
  let d := num_digits t in
  let p := num_places t in
  match p with
  | O => string_of_Z d
  | _ =>
      let scale := (10 ^ Z.of_nat p)%Z in
      let whole := string_of_N (Z.to_N (Z.abs d / scale)) in
      let frac := string_of_N (Z.to_N (Z.abs d mod scale)) in
      (if (d <? 0)%Z then "-" else "") +:+ whole +:+ "." +:+
      zeros (p - String.length frac) +:+ frac
  end.

Definition hex4 (n : N) : string :=
  String (Sha256.hex_digit (N.shiftr n 12 mod 16))
    (String (Sha256.hex_digit (N.shiftr n 8 mod 16))
       (String (Sha256.hex_digit (N.shiftr n 4 mod 16))
          (String (Sha256.hex_digit (n mod 16)) ""))).

Definition escape_char (c : ascii) : string :=
  let n := N_of_ascii c in
  if (n =? 34)%N then "\" +:+ String c ""
  else if (n =? 92)%N then "\\"
  else if (n =? 8)%N then "\b"
  else if (n =? 9)%N then "\t"
  else if (n =? 10)%N then "\n"
  else if (n =? 12)%N then "\f"
  else if (n =? 13)%N then "\r"
  else if (n <? 32)%N then "\u" +:+ hex4 n
  else String c "".

Fixpoint escape (s : string) : string :=
  match s with
  | EmptyString => ""
  | String c rest => escape_char c +:+ escape rest
  end.

Definition quote (s : string) : string :=
  String (ascii_of_N 34) (escape s) +:+ String (ascii_of_N 34) "".

Fixpoint join (sep : string) (parts : list string) : string :=
  match parts with
  | [] => ""
  | [p] => p
  | p :: rest => p +:+ sep +:+ join sep rest
  end.

(** [None] is the [undefined] that [JSON.stringify(undefined)] returns;
    an undefined array item prints as null and an undefined property is
    left out. *)
Fixpoint stringify (v : JsVal) : option string :=
  match v with
  | JUndefined => None
  | JNull => Some "null"
  | JBool true => Some "true"
  | JBool false => Some "false"
  | JNum n => Some (string_of_num n)
  | JStr s => Some (quote s)
  | JArr items =>
      let item x := match stringify x with Some s => s | None => "null" end in
      Some ("[" +:+ join "," (List.map item items) +:+ "]")
  | JObj fields =>
      let fix members (fs : list (string * JsVal)) : list string :=
        match fs with
        | [] => []
        | (k, x) :: rest =>
            match stringify x with
            | Some s => (quote k +:+ ":" +:+ s) :: members rest
            | None => members rest
            end
        end in
      Some ("{" +:+ join "," (members fields) +:+ "}")
  end.

(** [JSON.stringify] of a value that is an object or an array. *)
Definition stringify_object (v : JsVal) : string :=
  match stringify v with Some s => s | None => "" end.

End Json.

(** ** Outcomes of a call

    A JavaScript call returns, throws, or (the proof-of-work loop) keeps
    running.  [Unmodelled] marks the coercions this development does not
    follow (a string or an object used as a number or as a property key):
    no theorem below gives a verdict on such an input. *)
Inductive Outcome (E A : Type) : Type :=
| Returned (a : A)
| Thrown (e : E)
| Unmodelled
| OutOfFuel.
Arguments Returned {E A} a.
Arguments Thrown {E A} e.
Arguments Unmodelled {E A}.
Arguments OutOfFuel {E A}.

Definition obind {E A B : Type} (c : Outcome E A) (k : A -> Outcome E B) : Outcome E B :=
  match c with
  | Returned a => k a
  | Thrown e => Thrown e
  | Unmodelled => Unmodelled
  | OutOfFuel => OutOfFuel
  end.

Notation "'let*' x ':=' c 'in' k" := (obind c (fun x => k))
  (at level 10, x pattern, c at level 100, k at level 200).

(** What the smart contract throws.  The comment on each constructor is
    the start of the message in the source. *)
Inductive Exn : Type :=
| GeoFenceViolation        (* Collection not allowed: GPS location ... *)
| SeasonViolation          (* Collection not allowed: ... current season *)
| DailyLimitExceeded       (* Collection not allowed: Daily limit exceeded ... *)
| QualityFailed (reason : string)  (* Quality validation failed: reason *)
| ProcessingBatchNotFound  (* Processing not allowed: Batch ... not found in blockchain *)
| DryingTooHot             (* Drying temperature too high ... *)
| MeshTooCoarse            (* Mesh size too coarse ... *)
| QualityBatchNotFound     (* Quality test not allowed: Batch ... not found *)
| LabNotCertified          (* Lab ... is not certified for testing *)
| TypeError (what : string). (* raised by the engine itself *)

Definition Pure (A : Type) : Type := Outcome Exn A.

(** *** Numeric coercion *)
Inductive NumV : Type := Fin (n : Num) | NaN.

(** [ToNumber] on the primitives whose conversion is immediate. *)
Definition to_numv (v : JsVal) : Pure NumV :=
  match v with
  | JUndefined => Returned NaN
  | JNull => Returned (Fin (num_of_Z 0))
  | JBool b => Returned (Fin (num_of_Z (if b then 1 else 0)))
  | JNum n => Returned (Fin n)
  | JStr _ | JArr _ | JObj _ => Unmodelled
  end.

Definition numv_add (a b : NumV) : NumV :=
  match a, b with
  | Fin x, Fin y => Fin (num_add x y)
  | _, _ => NaN
  end.

(** Relational operators: false as soon as one side is NaN. *)
Definition numv_leb (a b : NumV) : bool :=
  match a, b with Fin x, Fin y => num_leb x y | _, _ => false end.
Definition numv_ltb (a b : NumV) : bool :=
  match a, b with Fin x, Fin y => num_ltb x y | _, _ => false end.

Definition js_le (a : JsVal) (b : Num) : Pure bool :=
  let* x := to_numv a in Returned (numv_leb x (Fin b)).
Definition js_ge (a : JsVal) (b : Num) : Pure bool :=
  let* x := to_numv a in Returned (numv_leb (Fin b) x).
Definition js_lt (a : JsVal) (b : Num) : Pure bool :=
  let* x := to_numv a in Returned (numv_ltb x (Fin b)).
Definition js_gt (a : JsVal) (b : Num) : Pure bool :=
  let* x := to_numv a in Returned (numv_ltb (Fin b) x).

(** [v.k] for one of the data property names the contract reads
    (latitude, moisture, temperature, ...; none is inherited from a
    prototype): a TypeError on undefined and null, the own property on
    an object, undefined on every other value. *)
Definition get_prop (v : JsVal) (k : string) : Pure JsVal :=
  match v with
  | JUndefined | JNull => Thrown (TypeError ("Cannot read properties: " +:+ k))
  | JObj fs => Returned (field k fs)
  | _ => Returned JUndefined
  end.

(** [ToPropertyKey] on primitives. *)
Definition to_key (v : JsVal) : Pure string :=
  match v with
  | JStr s => Returned s
  | JUndefined => Returned "undefined"
  | JNull => Returned "null"
  | JBool true => Returned "true"
  | JBool false => Returned "false"
  | JNum n => Returned (Json.string_of_num n)
  | JArr _ | JObj _ => Unmodelled
  end.

(** ** Dates

    [Date] works in the host's local time.  [utc_offset t] is the number
    of minutes local time is ahead of UTC at the instant [t] (the opposite
    of [getTimezoneOffset]). *)
Module JsDate.
Section Zone.
Variable utc_offset : Z -> Z.
Local Open Scope Z_scope.

Definition local_day (t : Z) : Z := (t + utc_offset t * 60000) / 86400000.

(** Year, month (1-12) and day of the month of a day count from
    1970-01-01, in the proleptic Gregorian calendar. *)
Definition civil_of_days (days : Z) : Z * Z * Z :=
  let z := days + 719468 in
  let era := z / 146097 in
  let doe := z - era * 146097 in
  let yoe := (doe - doe / 1460 + doe / 36524 - doe / 146096) / 365 in
  let doy := doe - (365 * yoe + yoe / 4 - yoe / 100) in
  let mp := (5 * doy + 2) / 153 in
  let d := doy - (153 * mp + 2) / 5 + 1 in
  let m := if mp <? 10 then mp + 3 else mp - 9 in
  let y := yoe + era * 400 + (if m <=? 2 then 1 else 0) in
  (y, m, d).

(** [new Date(t).getMonth()], 0-11. *)
Definition getMonth (t : Z) : Z :=
  let '(_, m, _) := civil_of_days (local_day t) in m - 1.

Definition day_names : list string := ["Thu"; "Fri"; "Sat"; "Sun"; "Mon"; "Tue"; "Wed"].
Definition month_names : list string :=
  ["Jan"; "Feb"; "Mar"; "Apr"; "May"; "Jun"; "Jul"; "Aug"; "Sep"; "Oct"; "Nov"; "Dec"].

Definition pad_left (width : nat) (s : string) : string :=
  Json.zeros (width - String.length s) +:+ s.

(** [new Date(t).toDateString()], such as [Mon Nov 02 2026]. *)
Definition toDateString (t : Z) : string :=
  let days := local_day t in
  let '(y, m, d) := civil_of_days days in
  List.nth (Z.to_nat (days mod 7)) day_names "" +:+ " " +:+
  List.nth (Z.to_nat (m - 1)) month_names "" +:+ " " +:+
  pad_left 2 (Json.string_of_Z d) +:+ " " +:+
  (if y <? 0 then "-" +:+ pad_left 6 (Json.string_of_Z (- y))
   else pad_left 4 (Json.string_of_Z y)).

End Zone.
End JsDate.

(** ** Transactions *)

(** A transaction object.  The genesis transaction has no
    [contractValidation] property. *)
Record Transaction := mkTransaction {
  tx_id : string;
  tx_type : string;
  tx_data : Fields;
  tx_nodeId : string;
  tx_timestamp : Z;
  tx_signature : string;
  tx_contractValidation : option JsVal
}.

(** The object as [JSON.stringify] walks it, in property order. *)
Definition transaction_json (tx : Transaction) : JsVal :=
  JObj ([ ("id", JStr (tx_id tx)); ("type", JStr (tx_type tx));
          ("data", JObj (tx_data tx)); ("nodeId", JStr (tx_nodeId tx));
          ("timestamp", JInt (tx_timestamp tx));
          ("signature", JStr (tx_signature tx)) ]
        ++ match tx_contractValidation tx with
           | Some cv => [("contractValidation", cv)]
           | None => []
           end).

(** [tx => tx.data.batchId === batchId || tx.id === batchId], the callback
    shared by the contract's batch checks and the ledger's batch query. *)
Definition mentions_batch (batchId : JsVal) (tx : Transaction) : bool :=
  strict_eq (field "batchId" (tx_data tx)) batchId || strict_eq (JStr (tx_id tx)) batchId.

(** ** The smart contract ([AyurvedicHerbContract]) *)
Module SmartContract.
Section Contract.
Variable utc_offset : Z -> Z.

Record GeoRule := mkGeoRule {
  region : string;
  lat_lo : Num; lat_hi : Num;
  lng_lo : Num; lng_hi : Num
}.

Record Thresholds := mkThresholds {
  moistureMax : Num;
  withanolideMin : Num;
  pesticideMax : Num;
  heavyMetalsMax : Num
}.

(** [this.rules], set once by the constructor. *)
Definition geoFencing : list (string * list GeoRule) :=
  [ ("ashwagandha",
     [ mkGeoRule "Rajasthan" (num_of_Z 24) (num_of_Z 30) (num_of_Z 69) (num_of_Z 78);
       mkGeoRule "Madhya Pradesh" (num_of_Z 21) (num_of_Z 26) (num_of_Z 74) (num_of_Z 82);
       mkGeoRule "Gujarat" (num_of_Z 20) (num_of_Z 25) (num_of_Z 68) (num_of_Z 75) ]) ].

Definition seasonalRestrictions : list (string * list Z) :=
  [ ("ashwagandha", [10; 11; 12; 1; 2]%Z);
    ("tulsi", [3; 4; 5; 6; 7; 8]%Z);
    ("neem", [1; 2; 3; 4; 5; 6; 7; 8; 9; 10; 11; 12]%Z) ].

Definition qualityThresholds : list (string * Thresholds) :=
  [ ("ashwagandha",
     mkThresholds (num_of_Z 12) (mkNum 3 1) (mkNum 1 2) (num_of_Z 10)) ].

Definition dailyLimits : list (string * Num) :=
  [ ("ashwagandha", num_of_Z 50); ("tulsi", num_of_Z 25); ("neem", num_of_Z 100) ].

(** [a && b] on computations: [b] runs only when [a] returned true. *)
Definition and_then (a b : Pure bool) : Pure bool :=
  let* x := a in if x then b else Returned false.

(** [Array.prototype.some] with a callback that may throw. *)
Fixpoint js_some {A : Type} (f : A -> Pure bool) (l : list A) : Pure bool :=
  match l with
  | [] => Returned false
  | x :: rest => let* hit := f x in if hit then Returned true else js_some f rest
  end.

Definition in_bounds (gps : JsVal) (rule : GeoRule) : Pure bool :=
  and_then (let* lat := get_prop gps "latitude" in js_ge lat (lat_lo rule))
    (and_then (let* lat := get_prop gps "latitude" in js_le lat (lat_hi rule))
       (and_then (let* lng := get_prop gps "longitude" in js_ge lng (lng_lo rule))
          (let* lng := get_prop gps "longitude" in js_le lng (lng_hi rule)))).

Definition validateGeoFencing (species gps : JsVal) : Pure bool :=
  let* key := to_key species in
  match literal_get geoFencing key with
  | Missing => Returned false
  | Inherited _ => Thrown (TypeError "speciesRules.some is not a function")
  | Own speciesRules => js_some (in_bounds gps) speciesRules
  end.

Definition validateSeason (species : JsVal) (timestamp : Z) : Pure bool :=
  let* key := to_key species in
  match literal_get seasonalRestrictions key with
  | Missing => Returned false
  | Inherited _ => Thrown (TypeError "allowedMonths.includes is not a function")
  | Own allowedMonths =>
      let month := (JsDate.getMonth utc_offset timestamp + 1)%Z in
      Returned (existsb (Z.eqb month) allowedMonths)
  end.

(** The filter of [validateDailyLimit]. *)
Definition same_day_collection (today : string) (farmerId species : JsVal)
    (tx : Transaction) : bool :=
  String.eqb (tx_type tx) "CollectionEvent"
  && strict_eq (field "farmerId" (tx_data tx)) farmerId
  && strict_eq (field "species" (tx_data tx)) species
  && String.eqb (JsDate.toDateString utc_offset (tx_timestamp tx)) today.

(** [reduce((sum, tx) => sum + tx.data.quantity, 0)]. *)
Fixpoint sum_quantities (sum : NumV) (txs : list Transaction) : Pure NumV :=
  match txs with
  | [] => Returned sum
  | tx :: rest =>
      let* q := to_numv (field "quantity" (tx_data tx)) in
      sum_quantities (numv_add sum q) rest
  end.

(** [now] is the clock that [new Date()] reads inside the function. *)
Definition validateDailyLimit (now : Z) (farmerId species quantity : JsVal)
    (existingTransactions : list Transaction) : Pure bool :=
  let* key := to_key species in
  let limit := literal_get dailyLimits key in
  match limit with
  | Missing => Returned false
  | Own (mkNum 0 _) => Returned false
  | _ =>
      let today := JsDate.toDateString utc_offset now in
      let todaysCollections :=
        List.filter (same_day_collection today farmerId species) existingTransactions in
      let* totalToday := sum_quantities (Fin (num_of_Z 0)) todaysCollections in
      let* q := to_numv quantity in
      match limit with
      | Own l => Returned (numv_leb (numv_add totalToday q) (Fin l))
      | _ => Returned false   (* a number is never <= a function *)
      end
  end.

Record QualityCheck := mkQualityCheck { valid : bool; reason : option string }.

(** Comparison with a threshold that may be [undefined] (a table found
    through the prototype has none of the four properties). *)
Definition exceeds (v : JsVal) (bound : option Num) : Pure bool :=
  match bound with Some b => js_gt v b | None => Returned false end.
Definition falls_below (v : JsVal) (bound : option Num) : Pure bool :=
  match bound with Some b => js_lt v b | None => Returned false end.

Definition validateQuality (species qualityMetrics : JsVal) : Pure QualityCheck :=
  let* key := to_key species in
  match literal_get qualityThresholds key with
  | Missing => Returned (mkQualityCheck false (Some "No quality rules defined for species"))
  | thresholds =>
      let th (f : Thresholds -> Num) : option Num :=
        match thresholds with Own t => Some (f t) | _ => None end in
      let* moisture := get_prop qualityMetrics "moisture" in
      let* wet := exceeds moisture (th moistureMax) in
      if wet then Returned (mkQualityCheck false (Some "Moisture content exceeds maximum allowed"))
      else
      let* withanolide := get_prop qualityMetrics "withanolide" in
      let* weak :=
        (if truthy withanolide then falls_below withanolide (th withanolideMin)
         else Returned false) in
      if weak then Returned (mkQualityCheck false (Some "Withanolide content below minimum required"))
      else
      let* pesticide := get_prop qualityMetrics "pesticide" in
      let* sprayed := exceeds pesticide (th pesticideMax) in
      if sprayed then Returned (mkQualityCheck false (Some "Pesticide residue exceeds maximum allowed"))
      else
      let* heavyMetals := get_prop qualityMetrics "heavyMetals" in
      let* heavy := exceeds heavyMetals (th heavyMetalsMax) in
      if heavy then Returned (mkQualityCheck false (Some "Heavy metals exceed maximum allowed"))
      else Returned (mkQualityCheck true None)
  end.

Definition generateContractHash (transaction : Transaction) : string :=
  Sha256.sha256_hex
    (Json.stringify_object
       (JObj [ ("transactionId", JStr (tx_id transaction));
               ("timestamp", JInt (tx_timestamp transaction));
               ("type", JStr (tx_type transaction));
               ("nodeId", JStr (tx_nodeId transaction)) ])).

Definition executeCollectionEvent (now : Z) (transaction : Transaction)
    (existingTransactions : list Transaction) : Pure JsVal :=
  let data := tx_data transaction in
  let farmerId := field "farmerId" data in
  let species := field "species" data in
  let gps := field "gps" data in
  let quantity := field "quantity" data in
  let qualityMetrics := field "qualityMetrics" data in
  let* inside := validateGeoFencing species gps in
  if negb inside then
    (* the message interpolates gps.latitude and gps.longitude *)
    let* _ := get_prop gps "latitude" in
    let* _ := get_prop gps "longitude" in
    Thrown GeoFenceViolation
  else
  let* in_season := validateSeason species (tx_timestamp transaction) in
  if negb in_season then Thrown SeasonViolation
  else
  let* within := validateDailyLimit now farmerId species quantity existingTransactions in
  if negb within then Thrown DailyLimitExceeded
  else
  let* _ :=
    (if truthy qualityMetrics then
       let* qualityCheck := validateQuality species qualityMetrics in
       if negb (valid qualityCheck) then
         Thrown (QualityFailed (match reason qualityCheck with Some r => r | None => "undefined" end))
       else Returned tt
     else Returned tt) in
  Returned
    (JObj [ ("valid", JBool true);
            ("contractHash", JStr (generateContractHash transaction));
            ("validationRules",
             JObj [ ("geoFencing", JStr "PASSED");
                    ("seasonalRestriction", JStr "PASSED");
                    ("dailyLimit", JStr "PASSED");
                    ("quality", JStr (if truthy qualityMetrics then "PASSED" else "NOT_TESTED")) ]) ]).

Definition executeProcessingStep (transaction : Transaction)
    (existingTransactions : list Transaction) : Pure JsVal :=
  let data := tx_data transaction in
  let batchId := field "batchId" data in
  let processingType := field "processingType" data in
  let conditions := field "conditions" data in
  let batchExists := existsb (mentions_batch batchId) existingTransactions in
  if negb batchExists then Thrown ProcessingBatchNotFound
  else
  let* hot :=
    and_then (Returned (strict_eq processingType (JStr "drying")))
      (let* temperature := get_prop conditions "temperature" in js_gt temperature (num_of_Z 60)) in
  if hot then Thrown DryingTooHot
  else
  let* coarse :=
    and_then (Returned (strict_eq processingType (JStr "grinding")))
      (let* meshSize := get_prop conditions "meshSize" in js_lt meshSize (num_of_Z 80)) in
  if coarse then Thrown MeshTooCoarse
  else
  Returned
    (JObj [ ("valid", JBool true);
            ("contractHash", JStr (generateContractHash transaction));
            ("validationRules",
             JObj [ ("batchTraceability", JStr "PASSED");
                    ("processingConditions", JStr "PASSED") ]) ]).

Definition certifiedLabs : list string := ["LAB001"; "LAB002"; "LAB003"].

Definition executeQualityTest (transaction : Transaction)
    (existingTransactions : list Transaction) : Pure JsVal :=
  let data := tx_data transaction in
  let batchId := field "batchId" data in
  let labId := field "labId" data in
  let batchExists := existsb (mentions_batch batchId) existingTransactions in
  if negb batchExists then Thrown QualityBatchNotFound
  else if negb (existsb (fun lab => strict_eq (JStr lab) labId) certifiedLabs)
  then Thrown LabNotCertified
  else
  Returned
    (JObj [ ("valid", JBool true);
            ("contractHash", JStr (generateContractHash transaction));
            ("validationRules",
             JObj [ ("batchTraceability", JStr "PASSED");
                    ("labCertification", JStr "PASSED");
                    ("testValidity", JStr "PASSED") ]) ]).

End Contract.
End SmartContract.

(** ** The ledger ([PermissionedBlockchain]) *)
Module Blockchain.

(** What [getNodePermissions] hands back: an array of capability names,
    or a member of [Object.prototype] when the type names one. *)
Inductive PermissionsValue : Type :=
| PermArray (names : list string)
| PermInherited (key : string).

Record Node := mkNode {
  node_id : string;
  node_type : string;
  node_publicKey : JsVal;
  node_metadata : JsVal;
  node_registeredAt : Z;
  node_active : bool;
  node_permissions : PermissionsValue
}.

(** The genesis block has no [minerId]. *)
Record Block := mkBlock {
  block_index : Z;
  block_timestamp : Z;
  block_transactions : list Transaction;
  block_previousHash : string;
  block_hash : string;
  block_minerId : option string;
  block_nonce : Z
}.

(** The three mutable fields of the object. *)
Record Ledger := mkLedger {
  chain : list Block;
  pendingTransactions : list Transaction;
  nodes : gmap string Node
}.

(** [this.difficulty], assigned once in the constructor. *)
Definition difficulty : nat := 2.

(** What the ledger throws. *)
Inductive Error : Type :=
| InvalidNodeType (nodeType : string)          (* Invalid node type: ... *)
| NodeNotFoundOrInactive (nodeId : string)     (* Node ... not found or inactive *)
| PermissionDenied (nodeId type : string)      (* Node ... does not have permission for ... *)
| ContractValidationFailed (cause : Exn)       (* Smart contract validation failed: ... *)
| NoPendingTransactions                        (* No pending transactions to mine *)
| EngineTypeError (what : string).

(** A method: it reads and updates the ledger, and when it throws the
    ledger is left as it was at the throw. *)
Definition M (A : Type) : Type := Ledger -> Outcome Error A * Ledger.

Definition ret {A : Type} (a : A) : M A := fun st => (Returned a, st).
Definition throw {A : Type} (e : Error) : M A := fun st => (Thrown e, st).
Definition bind {A B : Type} (c : M A) (k : A -> M B) : M B :=
  fun st =>
    match c st with
    | (Returned a, st') => k a st'
    | (Thrown e, st') => (Thrown e, st')
    | (Unmodelled, st') => (Unmodelled, st')
    | (OutOfFuel, st') => (OutOfFuel, st')
    end.
Definition get : M Ledger := fun st => (Returned st, st).
Definition put (st : Ledger) : M unit := fun _ => (Returned tt, st).

Notation "'do' x '<-' c ';' k" := (bind c (fun x => k))
  (at level 10, x pattern, c at level 100, k at level 200).

(** [try { ... } catch (error) { throw new Error(...) }] around a
    contract call. *)
Definition try_contract {A : Type} (c : Pure A) : M A :=
  fun st =>
    match c with
    | Returned a => (Returned a, st)
    | Thrown e => (Thrown (ContractValidationFailed e), st)
    | Unmodelled => (Unmodelled, st)
    | OutOfFuel => (OutOfFuel, st)
    end.

Definition transactions_json (txs : list Transaction) : JsVal :=
  JArr (List.map transaction_json txs).

(** [calculateHash(block)] reads five properties of its argument, each
    with a default: [(block.index || 0) + (block.timestamp || 0)] is a sum
    of two numbers, then the serialised transactions, the previous hash
    and the nonce are appended as text. *)
Definition calculateHash_of (index timestamp : Z) (transactions : list Transaction)
    (previousHash : string) (nonce : Z) : string :=
  Sha256.sha256_hex
    (Json.string_of_Z (index + timestamp) +:+
     Json.stringify_object (transactions_json transactions) +:+
     previousHash +:+
     Json.string_of_Z nonce).

Definition calculateHash (block : Block) : string :=
  calculateHash_of (block_index block) (block_timestamp block)
    (block_transactions block) (block_previousHash block) (block_nonce block).

(** [calculateHash([])]: an empty array has none of the five properties,
    so every default applies. *)
Definition calculateHash_empty_array : string := calculateHash_of 0 0 [] "" 0.

Definition genesisBlock (uuid : string) (blockTime txTime : Z) : Block :=
  mkBlock 0 blockTime
    [ mkTransaction uuid "Genesis"
        [("message", JStr "Ayurvedic Herb Traceability Blockchain Genesis")]
        "SYSTEM" txTime "GENESIS_SIGNATURE" None ]
    "0" calculateHash_empty_array None 0.

(** [uuid] is what [uuidv4()] returns, [blockTime] and [txTime] the two
    readings of [Date.now()]. *)
Definition createGenesisBlock (uuid : string) (blockTime txTime : Z) : M unit :=
  do st <- get;
  put (mkLedger (chain st ++ [genesisBlock uuid blockTime txTime])
                (pendingTransactions st) (nodes st)).

Definition empty_ledger : Ledger := mkLedger [] [] ∅.

(** [new PermissionedBlockchain()]. *)
Definition new_ledger (uuid : string) (blockTime txTime : Z) : Ledger :=
  snd (createGenesisBlock uuid blockTime txTime empty_ledger).

Definition allowedTypes : list string :=
  ["farmer"; "processor"; "lab"; "manufacturer"; "regulator"].

Definition permissions_table : list (string * list string) :=
  [ ("farmer", ["create_collection_event"; "read_own_data"]);
    ("processor", ["create_processing_step"; "read_batch_data"]);
    ("lab", ["create_quality_test"; "read_test_data"]);
    ("manufacturer", ["create_manufacturing_record"; "generate_qr"]);
    ("regulator", ["read_all_data"; "create_compliance_report"; "flag_violations"]) ].

(** [permissions[nodeType] || []]. *)
Definition getNodePermissions (nodeType : string) : PermissionsValue :=
  match literal_get permissions_table nodeType with
  | Own names => PermArray names
  | Inherited key => PermInherited key
  | Missing => PermArray []
  end.

Record Registered := mkRegistered {
  reg_success : bool; reg_nodeId : string; reg_registeredAt : Z
}.

(** [registeredAt] and [returnedAt] are the two readings of [Date.now()]. *)
Definition registerNode (registeredAt returnedAt : Z)
    (nodeId nodeType : string) (publicKey metadata : JsVal) : M Registered :=
  if negb (existsb (String.eqb nodeType) allowedTypes) then throw (InvalidNodeType nodeType)
  else
    do st <- get;
    do _ <- put (mkLedger (chain st) (pendingTransactions st)
                   (<[nodeId := mkNode nodeId nodeType publicKey metadata registeredAt true
                                  (getNodePermissions nodeType)]> (nodes st)));
    ret (mkRegistered true nodeId returnedAt).

(** What [getRequiredPermission] hands back: a capability name, or a
    member of [Object.prototype] when the kind names one. *)
Inductive RequiredPermission : Type :=
| PermissionName (name : string)
| InheritedMember (key : string).

Definition permissionMap : list (string * string) :=
  [ ("CollectionEvent", "create_collection_event");
    ("ProcessingStep", "create_processing_step");
    ("QualityTest", "create_quality_test");
    ("ManufacturingRecord", "create_manufacturing_record");
    ("ComplianceReport", "create_compliance_report") ].

(** [permissionMap[type] || 'read_own_data']. *)
Definition getRequiredPermission (type : string) : RequiredPermission :=
  match literal_get permissionMap type with
  | Own name => PermissionName name
  | Inherited key => InheritedMember key
  | Missing => PermissionName "read_own_data"
  end.

(** [node.permissions.includes(requiredPermission)]. *)
Definition permissions_include (p : PermissionsValue) (required : RequiredPermission)
  : Outcome Error bool :=
  match p with
  | PermInherited _ => Thrown (EngineTypeError "node.permissions.includes is not a function")
  | PermArray names =>
      match required with
      | PermissionName name => Returned (existsb (String.eqb name) names)
      | InheritedMember _ => Returned false
      end
  end.

Definition lift {A : Type} (o : Outcome Error A) : M A := fun st => (o, st).

Definition signTransaction (id type : string) (data : Fields) (timestamp : Z)
    (nodeId : string) : string :=
  Sha256.sha256_hex
    (Json.stringify_object
       (JObj [ ("id", JStr id); ("type", JStr type); ("data", JObj data);
               ("timestamp", JInt timestamp) ]) +:+ nodeId).

Definition getAllTransactions (st : Ledger) : list Transaction :=
  List.concat (List.map block_transactions (chain st)).

Section Zone.
Variable utc_offset : Z -> Z.

(** [uuid] is what [uuidv4()] returns, [timestamp] the reading of
    [Date.now()] stored in the transaction, [now] the clock read by the
    daily-limit rule; [data] holds the own properties of the payload. *)
Definition createTransaction (uuid : string) (timestamp now : Z)
    (nodeId type : string) (data : Fields) : M Transaction :=
  do st <- get;
  match nodes st !! nodeId with
  | None => throw (NodeNotFoundOrInactive nodeId)
  | Some node =>
      if negb (node_active node) then throw (NodeNotFoundOrInactive nodeId)
      else
      let requiredPermission := getRequiredPermission type in
      do allowed <- lift (permissions_include (node_permissions node) requiredPermission);
      if negb allowed then throw (PermissionDenied nodeId type)
      else
      let data' := set_field "nodeType" (JStr (node_type node))
                     (set_field "nodeId" (JStr nodeId) data) in
      let signature := signTransaction uuid type data' timestamp nodeId in
      let transaction := mkTransaction uuid type data' nodeId timestamp signature None in
      do contractResult <-
        try_contract
          (if String.eqb type "CollectionEvent" then
             SmartContract.executeCollectionEvent utc_offset now transaction (getAllTransactions st)
           else if String.eqb type "ProcessingStep" then
             SmartContract.executeProcessingStep transaction (getAllTransactions st)
           else if String.eqb type "QualityTest" then
             SmartContract.executeQualityTest transaction (getAllTransactions st)
           else
             Returned (JObj [("valid", JBool true); ("contractHash", JStr "SYSTEM_APPROVED")]));
      let transaction' :=
        mkTransaction uuid type data' nodeId timestamp signature (Some contractResult) in
      do st' <- get;
      do _ <- put (mkLedger (chain st') (pendingTransactions st' ++ [transaction']) (nodes st'));
      ret transaction'
  end.

End Zone.

(** [this.chain[this.chain.length - 1]]; [None] is [undefined]. *)
Definition getLatestBlock (st : Ledger) : option Block := list.last (chain st).

(** [block.hash?.substring(0, this.difficulty) !== Array(this.difficulty + 1).join('0')];
    [None] is the [undefined] hash of a block not yet hashed. *)
Definition needs_more_work (hash : option string) : bool :=
  match hash with
  | None => true
  | Some h => negb (String.eqb (String.substring 0 difficulty h) (Json.zeros difficulty))
  end.

(** The proof-of-work loop; one unit of fuel per test of the loop
    condition. *)
Fixpoint proof_of_work (fuel : nat) (hash_at : Z -> string) (nonce : Z) (hash : option string)
  : Outcome Error (Z * string) :=
  match fuel with
  | O => OutOfFuel
  | S fuel' =>
      match hash with
      | Some h =>
          if needs_more_work hash
          then proof_of_work fuel' hash_at (nonce + 1) (Some (hash_at (nonce + 1)%Z))
          else Returned (nonce, h)
      | None => proof_of_work fuel' hash_at (nonce + 1) (Some (hash_at (nonce + 1)%Z))
      end
  end.

(** [now] is the reading of [Date.now()]. *)
Definition mineBlock (now : Z) (fuel : nat) (minerId : string) : M Block :=
  do st <- get;
  if Nat.eqb (List.length (pendingTransactions st)) 0 then throw NoPendingTransactions
  else
  match getLatestBlock st with
  | None => throw (EngineTypeError "Cannot read properties of undefined (reading 'hash')")
  | Some latest =>
      let index := Z.of_nat (List.length (chain st)) in
      let transactions := pendingTransactions st in
      let previousHash := block_hash latest in
      do mined <- lift (proof_of_work fuel
                          (calculateHash_of index now transactions previousHash) 0 None);
      let block := mkBlock index now transactions previousHash (snd mined) (Some minerId)
                     (fst mined) in
      do _ <- put (mkLedger (chain st ++ [block]) (pendingTransactions st) (nodes st));
      do st' <- get;
      do _ <- put (mkLedger (chain st') [] (nodes st'));
      ret block
  end.

Definition getTransactionById (st : Ledger) (transactionId : string) : option Transaction :=
  List.find (fun tx => String.eqb (tx_id tx) transactionId) (getAllTransactions st).

Definition getTransactionsByBatchId (st : Ledger) (batchId : JsVal) : list Transaction :=
  List.filter (mentions_batch batchId) (getAllTransactions st).

(** The body of the loop of [isChainValid], from block [i] on;
    [previousBlock] is block [i - 1]. *)
Fixpoint links_valid (previousBlock : Block) (rest : list Block) : bool :=
  match rest with
  | [] => true
  | currentBlock :: rest' =>
      if negb (String.eqb (block_hash currentBlock) (calculateHash currentBlock)) then false
      else if negb (String.eqb (block_previousHash currentBlock) (block_hash previousBlock))
      then false
      else links_valid currentBlock rest'
  end.

Definition isChainValid (st : Ledger) : bool :=
  match chain st with
  | [] => true
  | first :: rest => links_valid first rest
  end.

End Blockchain.

(** * Vocabulary of the properties *)

Import Blockchain.

Definition with_pool (st : Ledger) (pool : list Transaction) : Ledger :=
  mkLedger (chain st) pool (nodes st).

Definition with_chain (st : Ledger) (blocks : list Block) : Ledger :=
  mkLedger blocks (pendingTransactions st) (nodes st).

(** ** Ledgers the methods can produce *)
Section Reach.
Variable utc_offset : Z -> Z.

(** A ledger is reachable when it is a fresh ledger or the ledger left by
    a call of one of the three mutating methods on a reachable ledger,
    whatever the call's outcome. *)
Inductive reachable : Ledger -> Prop :=
| reach_new uuid blockTime txTime :
    reachable (new_ledger uuid blockTime txTime)
| reach_register st registeredAt returnedAt nodeId nodeType publicKey metadata :
    reachable st ->
    reachable (snd (registerNode registeredAt returnedAt nodeId nodeType publicKey metadata st))
| reach_submit st uuid timestamp now nodeId type data :
    reachable st ->
    reachable (snd (createTransaction utc_offset uuid timestamp now nodeId type data st))
| reach_mine st now fuel minerId :
    reachable st ->
    reachable (snd (mineBlock now fuel minerId st)).

End Reach.

(** [n] leading zero characters. *)
Definition leading_zeros (n : nat) (h : string) : bool :=
  String.eqb (String.substring 0 n h) (Json.zeros n).

(** One pass of the body of the validation loop. *)
Definition link_ok (previousBlock currentBlock : Block) : bool :=
  String.eqb (block_hash currentBlock) (calculateHash currentBlock)
  && String.eqb (block_previousHash currentBlock) (block_hash previousBlock).

(** Every block after the first was sealed on top of its predecessor. *)
Fixpoint sealed_chain (previousBlock : Block) (rest : list Block) : Prop :=
  match rest with
  | [] => True
  | b :: rest' =>
      leading_zeros difficulty (block_hash b) = true
      /\ block_hash b = calculateHash b
      /\ block_previousHash b = block_hash previousBlock
      /\ sealed_chain b rest'
  end.

Definition indexed (blocks : list Block) : Prop :=
  forall i b, blocks !! i = Some b -> block_index b = Z.of_nat i.

Record invariant (st : Ledger) : Prop := {
  inv_genesis : exists g rest, chain st = g :: rest /\ sealed_chain g rest;
  inv_indexed : indexed (chain st);
  inv_nodes : forall nodeId node, nodes st !! nodeId = Some node ->
                exists names, node_permissions node = PermArray names
}.


(** The record attached to an event of a kind that has no rules. *)
Definition system_approved : JsVal :=
  JObj [("valid", JBool true); ("contractHash", JStr "SYSTEM_APPROVED")].

(** ** Changes made to a chain from outside the methods *)

Definition set_hash (b : Block) (h : string) : Block :=
  mkBlock (block_index b) (block_timestamp b) (block_transactions b)
    (block_previousHash b) h (block_minerId b) (block_nonce b).

Definition set_previousHash (b : Block) (p : string) : Block :=
  mkBlock (block_index b) (block_timestamp b) (block_transactions b)
    p (block_hash b) (block_minerId b) (block_nonce b).

Definition set_transactions (b : Block) (txs : list Transaction) : Block :=
  mkBlock (block_index b) (block_timestamp b) txs
    (block_previousHash b) (block_hash b) (block_minerId b) (block_nonce b).

(** [block.hash = calculateHash(block)], outside the ledger's methods. *)
Definition recompute (b : Block) : Block := set_hash b (calculateHash b).

(** [chain[i] = b], outside the ledger's methods. *)
Definition tamper (st : Ledger) (i : nat) (b : Block) : Ledger :=
  with_chain st (<[i := b]> (chain st)).

Definition set_data (tx : Transaction) (data : Fields) : Transaction :=
  mkTransaction (tx_id tx) (tx_type tx) data (tx_nodeId tx) (tx_timestamp tx)
    (tx_signature tx) (tx_contractValidation tx).

(** ** The quality rule in the words of its description *)

(** A metric that is a number, or that is absent. *)
Definition metric (m : option Num) : JsVal :=
  match m with Some n => JNum n | None => JUndefined end.

Definition quality_metrics (moisture withanolide pesticide heavyMetals : option Num) : JsVal :=
  JObj [ ("moisture", metric moisture); ("withanolide", metric withanolide);
         ("pesticide", metric pesticide); ("heavyMetals", metric heavyMetals) ].

Definition above (m : option Num) (bound : Num) : bool :=
  match m with Some n => num_ltb bound n | None => false end.
Definition below (m : option Num) (bound : Num) : bool :=
  match m with Some n => num_ltb n bound | None => false end.

(** The rule in the words of the claim, for ashwagandha: every metric
    that is present is compared with its bound, and the first one out of
    bound gives the reason. *)
Definition quality_rule_as_claimed (moisture withanolide pesticide heavyMetals : option Num)
  : SmartContract.QualityCheck :=
  if above moisture (num_of_Z 12) then
    SmartContract.mkQualityCheck false (Some "Moisture content exceeds maximum allowed")
  else if below withanolide (mkNum 3 1) then
    SmartContract.mkQualityCheck false (Some "Withanolide content below minimum required")
  else if above pesticide (mkNum 1 2) then
    SmartContract.mkQualityCheck false (Some "Pesticide residue exceeds maximum allowed")
  else if above heavyMetals (num_of_Z 10) then
    SmartContract.mkQualityCheck false (Some "Heavy metals exceed maximum allowed")
  else SmartContract.mkQualityCheck true None.

Definition is_zero (m : option Num) : bool :=
  match m with Some n => (num_digits n =? 0)%Z | None => false end.

(** ** Concrete runs

    The runs below fix every reading of the clock and every identifier,
    in a host whose local time is UTC+05:30. *)
Module Scenario.
Local Open Scope Z_scope.

Definition ist : Z -> Z := fun _ => 330.

Definition outcome_of {A : Type} (r : Outcome Error A * Ledger) : Outcome Error A := fst r.
Definition ledger_of {A : Type} (r : Outcome Error A * Ledger) : Ledger := snd r.

Definition fresh : Ledger :=
  new_ledger "6f1c2a9e-3b7d-4c58-9a41-0d2e8b5f7c13" 1793600000000 1793600000000.

(** *** A manufacturer records two batches, each sealed in its own block *)
Definition with_maker : Ledger :=
  ledger_of (registerNode 1793600001000 1793600001000 "MFR001" "manufacturer"
               (JStr "pk-mfr-001") (JObj []) fresh).

Definition submit_batch1 :=
  createTransaction ist "a3d94c1e-52b7-4f0a-8e66-1c9b7d2f4a05" 1793600002000 1793600002000
    "MFR001" "ManufacturingRecord" [("batchId", JStr "B1")] with_maker.

Definition seal_batch1 := mineBlock 1793600005022 4 "SYSTEM_MINER" (ledger_of submit_batch1).

Definition submit_batch2 :=
  createTransaction ist "c47e1b90-8d23-4a6f-9b05-3f6a1d8e2c71" 1793600006000 1793600006000
    "MFR001" "ManufacturingRecord" [("batchId", JStr "B2")] (ledger_of seal_batch1).

(** *** A farmer delivers ashwagandha from Rajasthan on 2 November 2026 *)
Definition with_farmer : Ledger :=
  ledger_of (registerNode 1793600001000 1793600001000 "FARMER001" "farmer"
               (JStr "pk-farmer-001") (JObj []) fresh).

Definition harvest (kg : Z) : Fields :=
  [ ("farmerId", JStr "FARMER001"); ("species", JStr "ashwagandha");
    ("quantity", JInt kg);
    ("gps", JObj [ ("latitude", JNum (mkNum 271952 4));
                   ("longitude", JNum (mkNum 733119 4)) ]) ].

Definition submit_30kg :=
  createTransaction ist "0b8e6d42-7a15-4c93-b1f8-5e2a9c7d3046" 1793600002000 1793600002001
    "FARMER001" "CollectionEvent" (harvest 30) with_farmer.



Definition seal_batch2 := mineBlock 1793600008168 4 "SYSTEM_MINER" (ledger_of submit_batch2).

(** The values these runs return. *)
Definition returned {A : Type} (default : A) (o : Outcome Error A) : A :=
  match o with Returned a => a | _ => default end.

Definition no_transaction : Transaction := mkTransaction "" "" [] "" 0 "" None.
Definition no_block : Block := mkBlock 0 0 [] "" "" None 0.

Definition batch1 : Transaction :=
  Eval vm_compute in returned no_transaction (outcome_of submit_batch1).
Definition block1 : Block :=
  Eval vm_compute in returned no_block (outcome_of seal_batch1).
Definition batch2 : Transaction :=
  Eval vm_compute in returned no_transaction (outcome_of submit_batch2).
Definition block2 : Block :=
  Eval vm_compute in returned no_block (outcome_of seal_batch2).

End Scenario.

(** The sealed block of the first run, with the batch of its event
    renamed and its digest recomputed. *)
Definition forged_block1 : Block :=
  recompute
    (set_transactions Scenario.block1
       [set_data Scenario.batch1
          (set_field "batchId" (JStr "B9") (tx_data Scenario.batch1))]).

(** The delivery of the farmer's run, with laboratory readings. *)
Definition harvest_with_quality (qualityMetrics : JsVal) : Fields :=
  (Scenario.harvest 30 ++ [("qualityMetrics", qualityMetrics)])%list.

(** * The rest of the ledger and its callers *)

(** ** [getStats] *)
Record Stats := mkStats {
  totalBlocks : nat;
  totalTransactions : nat;
  totalNodes : nat;
  stats_pendingTransactions : nat;
  isValid : bool;
  lastBlockTime : Z
}.

(** [getStats()]; the last property reads [this.getLatestBlock().timestamp],
    a TypeError on an empty chain. *)
Definition getStats (st : Ledger) : Outcome Error Stats :=
  match getLatestBlock st with
  | None =>
      Thrown (EngineTypeError "Cannot read properties of undefined (reading 'timestamp')")
  | Some latest =>
      Returned
        (mkStats (List.length (chain st)) (List.length (getAllTransactions st))
           (size (nodes st)) (List.length (pendingTransactions st)) (isChainValid st)
           (block_timestamp latest))
  end.

(** ** One call, and any number of calls *)
Section Steps.
Variable utc_offset : Z -> Z.

(** [step st st']: a call of one of the three mutating methods on [st]
    leaves [st'], whatever it returns or throws. *)
Inductive step : Ledger -> Ledger -> Prop :=
| step_register st registeredAt returnedAt nodeId nodeType publicKey metadata :
    step st (snd (registerNode registeredAt returnedAt nodeId nodeType publicKey metadata st))
| step_submit st uuid timestamp now nodeId type data :
    step st (snd (createTransaction utc_offset uuid timestamp now nodeId type data st))
| step_mine st now fuel minerId :
    step st (snd (mineBlock now fuel minerId st)).

Inductive later : Ledger -> Ledger -> Prop :=
| later_now st : later st st
| later_step st st' st'' : later st st' -> step st' st'' -> later st st''.

End Steps.

(** ** What holds of every ledger the methods produce, besides [invariant] *)

(** A validation record that says [valid: true]. *)
Definition approves (cv : JsVal) : Prop :=
  exists record, cv = JObj record /\ field "valid" record = JBool true.

(** [{ ...data, nodeId, nodeType: node.type }]. *)
Definition stamped (nodeId : string) (node : Node) (data : Fields) : Fields :=
  set_field "nodeType" (JStr (node_type node)) (set_field "nodeId" (JStr nodeId) data).

(** An event that went through [createTransaction]. *)
Definition admitted (st : Ledger) (tx : Transaction) : Prop :=
  is_Some (nodes st !! tx_nodeId tx)
  /\ field "nodeId" (tx_data tx) = JStr (tx_nodeId tx)
  /\ exists cv, tx_contractValidation tx = Some cv /\ approves cv.

(** Every identifier registered in [st] is registered in [st']. *)
Definition registry_kept (st st' : Ledger) : Prop :=
  forall nodeId, is_Some (nodes st !! nodeId) -> is_Some (nodes st' !! nodeId).

Definition sealed_block (st : Ledger) (b : Block) : Prop :=
  block_transactions b <> []
  /\ (1 <= block_nonce b)%Z
  /\ is_Some (block_minerId b)
  /\ Forall (admitted st) (block_transactions b).

Definition registered_node (nodeId : string) (node : Node) : Prop :=
  node_id node = nodeId
  /\ node_active node = true
  /\ In (node_type node) allowedTypes
  /\ node_permissions node = getNodePermissions (node_type node).

Record well_formed (st : Ledger) : Prop := {
  wf_genesis : exists uuid blockTime txTime rest,
      chain st = genesisBlock uuid blockTime txTime :: rest
      /\ Forall (sealed_block st) rest;
  wf_pool : Forall (admitted st) (pendingTransactions st);
  wf_nodes : forall nodeId node, nodes st !! nodeId = Some node -> registered_node nodeId node
}.

(** ** The role each kind of event asks for *)

(** The one role whose capability array holds the capability that
    [getRequiredPermission] returns for the kind; no role for a kind that
    names a member of [Object.prototype]. *)
Definition role_for_kind (type : string) : option string :=
  if String.eqb type "CollectionEvent" then Some "farmer"
  else if String.eqb type "ProcessingStep" then Some "processor"
  else if String.eqb type "QualityTest" then Some "lab"
  else if String.eqb type "ManufacturingRecord" then Some "manufacturer"
  else if String.eqb type "ComplianceReport" then Some "regulator"
  else if existsb (String.eqb type) object_prototype_keys then None
  else Some "farmer".

(** ** More changes made to a block from outside the methods *)

Definition set_minerId (b : Block) (minerId : option string) : Block :=
  mkBlock (block_index b) (block_timestamp b) (block_transactions b)
    (block_previousHash b) (block_hash b) minerId (block_nonce b).

Definition set_nonce (b : Block) (nonce : Z) : Block :=
  mkBlock (block_index b) (block_timestamp b) (block_transactions b)
    (block_previousHash b) (block_hash b) (block_minerId b) nonce.


(** The three values of a block that [isChainValid] reads. *)
Definition validated_view (b : Block) : string * string * string :=
  (block_hash b, block_previousHash b, calculateHash b).
Definition is_returned_pure {A : Type} (o : Pure A) : bool :=
  match o with Returned _ => true | _ => false end.

(** ** Zones *)

(** The point lies in the box of the rule, bounds included. *)
Definition inside_box (lat lng : Num) (rule : SmartContract.GeoRule) : bool :=
  num_leb (SmartContract.lat_lo rule) lat && num_leb lat (SmartContract.lat_hi rule)
  && num_leb (SmartContract.lng_lo rule) lng && num_leb lng (SmartContract.lng_hi rule).

(** ** More values of the concrete runs *)

(** The event that the farmer's first delivery returns. *)
Definition delivery_30kg : Transaction :=
  Scenario.returned Scenario.no_transaction (Scenario.outcome_of Scenario.submit_30kg).

(** The first batch of the manufacturer's run sealed at another time, at
    which the search needs three nonces. *)
Definition seal_batch1_late :=
  mineBlock 1793600005378 6 "SYSTEM_MINER" (Scenario.ledger_of Scenario.submit_batch1).

Definition block1_late : Block :=
  Eval vm_compute in Scenario.returned Scenario.no_block (Scenario.outcome_of seal_batch1_late).

(** A processing step of a kind without condition that refers to a
    batch. *)
Definition washing_of (batchId : JsVal) : Transaction :=
  mkTransaction "e81f4c26-3a97-4d50-b2c8-9f07d6a1e35b" "ProcessingStep"
    [("batchId", batchId); ("processingType", JStr "washing")] "PROC001" 1793600020000 ""
    None.

(** ** The rate limiter of the request layer ([rateLimit] in auth.js) *)
Module RateLimit.

(** [rateLimits], a [Map] from a key to the array of the times of the
    requests let through. *)
Abbreviation Limits := (gmap string (list Z)).

(** A request, as far as the limiter reads it: [req.ip], the [nodeId] of
    [req.user] when there is one, and the reading of [Date.now()]. *)
Record Request := mkRequest {
  req_ip : string;
  req_user : option string;
  req_now : Z
}.

(** [req.ip + (req.user?.nodeId || 'anonymous')]. *)
Definition key_of (req : Request) : string :=
  req_ip req +:+
  match req_user req with
  | Some nodeId => if String.eqb nodeId "" then "anonymous" else nodeId
  | None => "anonymous"
  end.

Inductive Verdict : Type :=
| Next               (* next() *)
| TooManyRequests.   (* status 429 *)

(** The stored array of a key, [[]] when the key is absent. *)
Definition requests_of (limits : Limits) (key : string) : list Z :=
  match limits !! key with Some requests => requests | None => [] end.

(** The middleware that [rateLimit(maxRequests, windowMs)] returns. *)
Definition rateLimit (maxRequests windowMs : Z) (req : Request) (limits : Limits)
  : Verdict * Limits :=
  let key := key_of req in
  let now := req_now req in
  let windowStart := (now - windowMs)%Z in
  let limits1 :=
    match limits !! key with
    | Some _ => limits
    | None => <[key := []]> limits
    end in
  let requests := requests_of limits1 key in
  let validRequests := List.filter (fun timestamp => (windowStart <? timestamp)%Z) requests in
  let limits2 := <[key := validRequests]> limits1 in
  if (maxRequests <=? Z.of_nat (List.length validRequests))%Z
  then (TooManyRequests, limits2)
  else (Next, <[key := (validRequests ++ [now])%list]> limits2).

(** One middleware, on a table of its own, serving a sequence of
    requests, oldest first; each request is returned with its verdict. *)
Fixpoint serve (maxRequests windowMs : Z) (reqs : list Request) (limits : Limits)
  : list (Request * Verdict) * Limits :=
  match reqs with
  | [] => ([], limits)
  | req :: rest =>
      let (verdict, limits') := rateLimit maxRequests windowMs req limits in
      let (log, limits'') := serve maxRequests windowMs rest limits' in
      ((req, verdict) :: log, limits'')
  end.

(** The times of the requests of a key that were let through. *)
Definition admitted_times (key : string) (log : list (Request * Verdict)) : list Z :=
  List.map (fun entry => req_now (fst entry))
    (List.filter
       (fun entry =>
          String.eqb (key_of (fst entry)) key
          && match snd entry with Next => true | TooManyRequests => false end)
       log).

(** The clock never goes back from one request to the next. *)
Fixpoint clock_ordered (last : Z) (reqs : list Request) : Prop :=
  match reqs with
  | [] => True
  | req :: rest => (last <= req_now req)%Z /\ clock_ordered (req_now req) rest
  end.

(** The clock after the requests: the time of the last one. *)
Fixpoint last_clock (clock : Z) (reqs : list Request) : Z :=
  match reqs with
  | [] => clock
  | req :: rest => last_clock (req_now req) rest
  end.

(** The [filter] that cleans an array at time [now]. *)
Definition still_valid (windowMs now : Z) (requests : list Z) : list Z :=
  List.filter (fun timestamp => (now - windowMs <? timestamp)%Z) requests.

(** What the stored arrays are, after the requests of [log] and with the
    clock at [clock]: no array is longer than the limit, and above any
    time not older than the window each array holds exactly the times
    of the requests of its key that were let through. *)
Definition tracks (maxRequests windowMs : Z) (limits : Limits)
    (log : list (Request * Verdict)) (clock : Z) : Prop :=
  forall key,
    (Z.of_nat (List.length (requests_of limits key)) <= Z.max 0 maxRequests)%Z
    /\ forall c, (clock - windowMs <= c)%Z ->
         List.filter (fun t => (c <? t)%Z) (requests_of limits key)
         = List.filter (fun t => (c <? t)%Z) (admitted_times key log).

End RateLimit.

(** ** The route [GET /blocks/:index] *)

(** What the handler sends: [res.json] with the block read, which is
    absent when [chain[index]] is undefined, or status 404. *)
Inductive BlockResponse : Type :=
| SendBlock (data : option Block)
| BlockNotFound.

(** [index] is what [parseInt(req.params.index)] returned: an integer,
    or [None] for NaN. *)
Definition get_block_by_index (index : option Z) (st : Ledger) : BlockResponse :=
  match index with
  | Some i =>
      if ((i <? 0) || (Z.of_nat (List.length (chain st)) <=? i))%Z then BlockNotFound
      else SendBlock (chain st !! Z.to_nat i)
  | None => SendBlock None
  end.

(** * Properties *)

(** ** Checks of the building blocks *)

Example sha256_of_empty_block :
  Sha256.sha256_hex "0[]0" = "32369d15916932bd1ade51c0cae9f32f5ded2cccd29d81d7eec27066c813e39d".
Proof. vm_compute. reflexivity. Qed.

Example sha256_round_constants :
  List.length Sha256.K256 = 64%nat
  /\ List.nth 0 Sha256.K256 0%N = 0x428a2f98%N
  /\ List.nth 63 Sha256.K256 0%N = 0xc67178f2%N
  /\ List.nth 7 Sha256.H0 0%N = 0x5be0cd19%N.
Proof. vm_compute. repeat split; reflexivity. Qed.

Example date_demo_utc : JsDate.toDateString (fun _ => 0%Z) 1793641600000 = "Mon Nov 02 2026".
Proof. vm_compute. reflexivity. Qed.
Example date_demo_ist : JsDate.toDateString (fun _ => 330%Z) 1709231400000 = "Fri Mar 01 2024".
Proof. vm_compute. reflexivity. Qed.
Example month_demo : JsDate.getMonth (fun _ => 0%Z) 1709251199000 = 1%Z.
Proof. vm_compute. reflexivity. Qed.

(** ** What each method does to the ledger *)
Section Methods.
Variable utc_offset : Z -> Z.

Lemma ledger_eta (st : Ledger) :
  mkLedger (chain st) (pendingTransactions st) (nodes st) = st.
Proof. destruct st; reflexivity. Qed.

(** [createTransaction] either returns a transaction that it has just
    pushed on the pool, or leaves the ledger alone. *)
Lemma createTransaction_cases uuid timestamp now nodeId type data st :
  (exists tx,
      createTransaction utc_offset uuid timestamp now nodeId type data st
      = (Returned tx, with_pool st (pendingTransactions st ++ [tx]))
      /\ tx_id tx = uuid /\ tx_type tx = type /\ tx_nodeId tx = nodeId
      /\ tx_timestamp tx = timestamp)
  \/ (snd (createTransaction utc_offset uuid timestamp now nodeId type data st) = st
      /\ forall tx,
          fst (createTransaction utc_offset uuid timestamp now nodeId type data st)
          <> Returned tx).
Proof.
  unfold createTransaction, bind, get, put, ret, throw, lift, try_contract, with_pool.
  destruct (nodes st !! nodeId) as [node|]; [|right; split; [reflexivity|discriminate]].
  destruct (node_active node); cbn [negb];
    [|right; split; [reflexivity|discriminate]].
  destruct (permissions_include _ _) as [[|]| | |]; cbn [negb];
    try (right; split; [reflexivity|discriminate]).
  match goal with
  | |- context [match ?c with Returned _ => _ | Thrown _ => _ | Unmodelled => _ | OutOfFuel => _ end] =>
      destruct c
  end; try (right; split; [reflexivity|discriminate]).
  left. eexists. split; [reflexivity|]. cbn. auto.
Qed.

(** A failed submission changes nothing. *)
Lemma createTransaction_failure uuid timestamp now nodeId type data st o st' :
  createTransaction utc_offset uuid timestamp now nodeId type data st = (o, st') ->
  (forall tx, o <> Returned tx) ->
  st' = st.
Proof.
  intros Hrun Hfail.
  destruct (createTransaction_cases uuid timestamp now nodeId type data st)
    as [(tx & Heq & _) | (Hst & _)].
  - rewrite Heq in Hrun. inversion Hrun; subst. now destruct (Hfail tx).
  - rewrite Hrun in Hst. exact Hst.
Qed.

Lemma createTransaction_success uuid timestamp now nodeId type data st tx st' :
  createTransaction utc_offset uuid timestamp now nodeId type data st = (Returned tx, st') ->
  st' = with_pool st (pendingTransactions st ++ [tx]) /\ tx_id tx = uuid.
Proof.
  intros Hrun.
  destruct (createTransaction_cases uuid timestamp now nodeId type data st)
    as [(tx' & Heq & Hid & _) | (_ & Hne)].
  - rewrite Heq in Hrun. inversion Hrun; subst. auto.
  - rewrite Hrun in Hne. now destruct (Hne tx).
Qed.


(** *** Registration *)
Lemma registerNode_cases registeredAt returnedAt nodeId nodeType publicKey metadata st :
  registerNode registeredAt returnedAt nodeId nodeType publicKey metadata st
  = if existsb (String.eqb nodeType) allowedTypes
    then (Returned (mkRegistered true nodeId returnedAt),
          mkLedger (chain st) (pendingTransactions st)
            (<[nodeId := mkNode nodeId nodeType publicKey metadata registeredAt true
                           (getNodePermissions nodeType)]> (nodes st)))
    else (Thrown (InvalidNodeType nodeType), st).
Proof.
  unfold registerNode. destruct (existsb _ allowedTypes); reflexivity.
Qed.

(** *** Sealing *)
Lemma proof_of_work_returns fuel hash_at nonce hash nonce' h :
  proof_of_work fuel hash_at nonce hash = Returned (nonce', h) ->
  needs_more_work (Some h) = false /\ (hash = None -> h = hash_at nonce').
Proof.
  revert nonce hash. induction fuel as [|fuel IH]; intros nonce hash; cbn [proof_of_work].
  - discriminate.
  - destruct hash as [h0|].
    + destruct (needs_more_work (Some h0)) eqn:Hwork.
      * intros Hrun. apply IH in Hrun. split; [apply Hrun|discriminate].
      * intros Hrun. inversion Hrun; subst. split; [exact Hwork|discriminate].
    + intros Hrun. split; [apply (IH _ _ Hrun)|]. intros _.
      clear IH. revert Hrun. generalize (nonce + 1)%Z. clear nonce.
      revert nonce' h. induction fuel as [|fuel IH]; intros nonce' h n; cbn [proof_of_work].
      * discriminate.
      * destruct (needs_more_work (Some (hash_at n))).
        -- apply IH.
        -- intros Hrun. inversion Hrun; subst. reflexivity.
Qed.

Lemma proof_of_work_never_throws fuel hash_at nonce hash e :
  proof_of_work fuel hash_at nonce hash <> Thrown e.
Proof.
  revert nonce hash. induction fuel as [|fuel IH]; intros nonce hash; cbn [proof_of_work].
  - discriminate.
  - destruct hash as [h0|]; [destruct (needs_more_work (Some h0))|]; try apply IH.
    discriminate.
Qed.

Lemma proof_of_work_modelled fuel hash_at nonce hash :
  proof_of_work fuel hash_at nonce hash <> Unmodelled.
Proof.
  revert nonce hash. induction fuel as [|fuel IH]; intros nonce hash; cbn [proof_of_work].
  - discriminate.
  - destruct hash as [h0|]; [destruct (needs_more_work (Some h0))|]; try apply IH.
    discriminate.
Qed.

(** More fuel never changes a result already obtained. *)
Lemma proof_of_work_more_fuel fuel fuel' hash_at nonce hash r :
  proof_of_work fuel hash_at nonce hash = Returned r ->
  fuel <= fuel' ->
  proof_of_work fuel' hash_at nonce hash = Returned r.
Proof.
  revert fuel' nonce hash. induction fuel as [|fuel IH]; intros fuel' nonce hash; cbn [proof_of_work].
  - discriminate.
  - intros Hrun Hle. destruct fuel' as [|fuel']; [lia|]. cbn [proof_of_work].
    destruct hash as [h0|]; [destruct (needs_more_work (Some h0))|];
      try (apply IH; [exact Hrun|lia]).
    exact Hrun.
Qed.

Lemma mineBlock_cases now fuel minerId st :
  mineBlock now fuel minerId st =
  match pendingTransactions st with
  | [] => (Thrown NoPendingTransactions, st)
  | _ :: _ =>
      match getLatestBlock st with
      | None =>
          (Thrown (EngineTypeError "Cannot read properties of undefined (reading 'hash')"), st)
      | Some latest =>
          match proof_of_work fuel
                  (calculateHash_of (Z.of_nat (List.length (chain st))) now
                     (pendingTransactions st) (block_hash latest)) 0 None with
          | Returned mined =>
              let block := mkBlock (Z.of_nat (List.length (chain st))) now
                             (pendingTransactions st) (block_hash latest) (snd mined)
                             (Some minerId) (fst mined) in
              (Returned block, mkLedger (chain st ++ [block]) [] (nodes st))
          | Thrown e => (Thrown e, st)
          | Unmodelled => (Unmodelled, st)
          | OutOfFuel => (OutOfFuel, st)
          end
      end
  end.
Proof.
  unfold mineBlock, bind, get, put, ret, throw, lift.
  destruct (pendingTransactions st) as [|tx pool] eqn:Hpool; [reflexivity|].
  cbn [List.length Nat.eqb].
  destruct (getLatestBlock st) as [latest|]; [|reflexivity].
  destruct (proof_of_work _ _ _ _); reflexivity.
Qed.

End Methods.

(** ** Ledgers the methods can produce *)
Section Reachable.
Variable utc_offset : Z -> Z.

Lemma links_valid_cons previousBlock currentBlock rest :
  links_valid previousBlock (currentBlock :: rest)
  = link_ok previousBlock currentBlock && links_valid currentBlock rest.
Proof.
  cbn [links_valid]. unfold link_ok.
  destruct (String.eqb (block_hash currentBlock) _); cbn; [|reflexivity].
  destruct (String.eqb (block_previousHash currentBlock) _); reflexivity.
Qed.

Lemma links_valid_spec g rest :
  links_valid g rest = true <->
  forall i p c, (g :: rest) !! i = Some p -> (g :: rest) !! S i = Some c -> link_ok p c = true.
Proof.
  revert g. induction rest as [|b rest IH]; intros g.
  - split; [|reflexivity]. intros _ [|i] p c Hp Hc; cbn in Hc; discriminate.
  - rewrite links_valid_cons, andb_true_iff, IH. split.
    + intros [Hhead Htail] [|i] p c Hp Hc.
      * cbn in Hp, Hc. inversion Hp; inversion Hc; subst. exact Hhead.
      * apply (Htail i); assumption.
    + intros Hall. split.
      * apply (Hall 0%nat); reflexivity.
      * intros i p c Hp Hc. apply (Hall (S i)); assumption.
Qed.

(** [isChainValid] holds exactly when every block after the first
    stores the hash recomputed from its fields and the stored hash of the
    block before it. *)
Lemma isChainValid_spec st :
  isChainValid st = true <->
  forall i p c, chain st !! i = Some p -> chain st !! S i = Some c -> link_ok p c = true.
Proof.
  unfold isChainValid. destruct (chain st) as [|g rest].
  - split; [|reflexivity]. intros _ i p c Hp. destruct i; discriminate.
  - apply links_valid_spec.
Qed.

Lemma sealed_chain_snoc g rest b latest :
  sealed_chain g rest ->
  list.last (g :: rest) = Some latest ->
  leading_zeros difficulty (block_hash b) = true ->
  block_hash b = calculateHash b ->
  block_previousHash b = block_hash latest ->
  sealed_chain g (rest ++ [b]).
Proof.
  revert g. induction rest as [|c rest IH]; intros g Hs Hlast Hz Hh Hp.
  - cbn in Hlast. inversion Hlast; subst. cbn. auto.
  - destruct Hs as (Hz' & Hh' & Hp' & Hs). cbn. repeat split; try assumption.
    apply IH; assumption.
Qed.

Lemma sealed_chain_lookup g rest i b :
  sealed_chain g rest ->
  (g :: rest) !! S i = Some b ->
  leading_zeros difficulty (block_hash b) = true
  /\ block_hash b = calculateHash b
  /\ exists p, (g :: rest) !! i = Some p /\ block_previousHash b = block_hash p.
Proof.
  revert g i. induction rest as [|c rest IH]; intros g i Hs Hb.
  - cbn in Hb. discriminate.
  - destruct Hs as (Hz & Hh & Hp & Hs). destruct i as [|i].
    + cbn in Hb. inversion Hb; subst. repeat split; try assumption.
      exists g. split; [reflexivity|assumption].
    + apply (IH c i Hs Hb).
Qed.

Lemma sealed_chain_valid g rest : sealed_chain g rest -> links_valid g rest = true.
Proof.
  revert g. induction rest as [|c rest IH]; intros g Hs; [reflexivity|].
  destruct Hs as (_ & Hh & Hp & Hs). rewrite links_valid_cons, (IH c Hs), andb_true_r.
  unfold link_ok. rewrite <- Hh, Hp, !String.eqb_refl. reflexivity.
Qed.

Lemma indexed_snoc blocks b :
  indexed blocks -> block_index b = Z.of_nat (List.length blocks) -> indexed (blocks ++ [b]).
Proof.
  intros Hidx Hb i c Hc.
  destruct (decide (i < List.length blocks)) as [Hlt|Hge].
  - rewrite lookup_app_l in Hc by exact Hlt. apply Hidx, Hc.
  - rewrite lookup_app_r in Hc by lia.
    destruct (i - List.length blocks) as [|k] eqn:Hk; cbn in Hc; [|destruct k; discriminate].
    inversion Hc; subst. rewrite Hb. f_equal. lia.
Qed.

Lemma getNodePermissions_array nodeType :
  existsb (String.eqb nodeType) allowedTypes = true ->
  exists names, getNodePermissions nodeType = PermArray names.
Proof.
  cbn [existsb allowedTypes]. rewrite !orb_true_iff, !String.eqb_eq.
  intros [H|[H|[H|[H|[H|H]]]]]; try discriminate; subst; eexists; reflexivity.
Qed.

Lemma invariant_new uuid blockTime txTime : invariant (new_ledger uuid blockTime txTime).
Proof.
  split.
  - eexists _, []. split; [reflexivity|exact I].
  - intros [|i] b Hb; cbn in Hb; [|discriminate]. inversion Hb; reflexivity.
  - intros nodeId node Hn. cbn in Hn. rewrite lookup_empty in Hn. discriminate.
Qed.

Lemma invariant_register st registeredAt returnedAt nodeId nodeType publicKey metadata :
  invariant st ->
  invariant (snd (registerNode registeredAt returnedAt nodeId nodeType publicKey metadata st)).
Proof.
  intros [Hg Hi Hn]. rewrite registerNode_cases.
  destruct (existsb _ allowedTypes) eqn:Hallowed; cbn [snd]; [|split; assumption].
  split; cbn [chain nodes]; try assumption.
  intros k node. rewrite lookup_insert. case_decide.
  - intros Hnode. inversion Hnode; subst. cbn. now apply getNodePermissions_array.
  - apply Hn.
Qed.

Lemma invariant_submit st uuid timestamp now nodeId type data :
  invariant st ->
  invariant (snd (createTransaction utc_offset uuid timestamp now nodeId type data st)).
Proof.
  intros Hinv.
  destruct (createTransaction_cases utc_offset uuid timestamp now nodeId type data st)
    as [(tx & Heq & _) | (Hst & _)].
  - rewrite Heq. destruct Hinv as [Hg Hi Hn]. split; assumption.
  - rewrite Hst. exact Hinv.
Qed.

Lemma last_cons_some {A : Type} (x : A) (l : list A) : exists y, list.last (x :: l) = Some y.
Proof.
  revert x. induction l as [|z l IH]; intros x; [eexists; reflexivity|].
  destruct (IH z) as [y Hy]. exists y. exact Hy.
Qed.

Lemma invariant_mine st now fuel minerId :
  invariant st -> invariant (snd (mineBlock now fuel minerId st)).
Proof.
  intros Hinv. rewrite mineBlock_cases.
  destruct (pendingTransactions st) as [|tx pool] eqn:Hpool; [exact Hinv|].
  unfold getLatestBlock.
  destruct (list.last (chain st)) as [latest|] eqn:Hlast; [|exact Hinv].
  destruct (proof_of_work _ _ _ _) as [[nonce h]| | |] eqn:Hpow; try exact Hinv.
  destruct Hinv as [(g & rest & Hchain & Hsealed) Hi Hn].
  apply proof_of_work_returns in Hpow. destruct Hpow as [Hwork Hhash].
  specialize (Hhash eq_refl).
  split; cbn [snd fst chain nodes]; [| |assumption].
  - exists g, (rest ++ [mkBlock (Z.of_nat (List.length (chain st))) now (tx :: pool)
                          (block_hash latest) h (Some minerId) nonce])%list.
    split; [rewrite Hchain; reflexivity|].
    rewrite Hchain in Hlast.
    apply sealed_chain_snoc with (latest := latest).
    + exact Hsealed.
    + exact Hlast.
    + unfold needs_more_work in Hwork. unfold leading_zeros. cbn [block_hash].
      now destruct (String.eqb _ _).
    + exact Hhash.
    + reflexivity.
  - apply indexed_snoc; [assumption|reflexivity].
Qed.

Lemma reachable_invariant st : reachable utc_offset st -> invariant st.
Proof.
  induction 1.
  - apply invariant_new.
  - now apply invariant_register.
  - now apply invariant_submit.
  - now apply invariant_mine.
Qed.

End Reachable.

(** ** The concrete runs are reachable *)

Lemma reachable_seal_batch1 : reachable Scenario.ist (Scenario.ledger_of Scenario.seal_batch1).
Proof.
  unfold Scenario.seal_batch1, Scenario.submit_batch1, Scenario.with_maker, Scenario.fresh,
    Scenario.ledger_of.
  apply reach_mine, reach_submit, reach_register, reach_new.
Qed.

Lemma reachable_seal_batch2 : reachable Scenario.ist (Scenario.ledger_of Scenario.seal_batch2).
Proof.
  unfold Scenario.seal_batch2, Scenario.submit_batch2, Scenario.ledger_of.
  apply reach_mine, reach_submit, reachable_seal_batch1.
Qed.

(** The two blocks sealed in the manufacturer's run: the first nonce
    tried already gives a digest with two leading zeros. *)
Example sealed_blocks_of_the_run :
  block_nonce Scenario.block1 = 1%Z
  /\ block_hash Scenario.block1
     = "00db2e8e9806e3725dd851bd8e60f3d60d6ce7c9eaf14e44a65719f5d91a0f72"
  /\ block_nonce Scenario.block2 = 1%Z
  /\ block_hash Scenario.block2
     = "000b7588c5f37800411ada29204fe08511329f1b0d7282ce3907720e56721ccd"
  /\ block_previousHash Scenario.block2 = block_hash Scenario.block1.
Proof. vm_compute. repeat split; reflexivity. Qed.

(** * The claims *)

(** ** C1: which events the rules see *)



(** ** C2: what validation detects *)

(** C2, as stated, fails on the last block: the chain holds the genesis
    block and one sealed block; the payload of the sealed block's event is
    changed and the block's stored digest recomputed; validation still
    returns true. *)
Lemma C2_rewritten_last_block_passes_validation :
  chain (Scenario.ledger_of Scenario.seal_batch1) !! 1%nat = Some Scenario.block1
  /\ List.length (chain (Scenario.ledger_of Scenario.seal_batch1)) = 2%nat
  /\ block_transactions forged_block1 <> block_transactions Scenario.block1
  /\ block_hash forged_block1 = calculateHash forged_block1
  /\ block_hash forged_block1 <> block_hash Scenario.block1
  /\ isChainValid (Scenario.ledger_of Scenario.seal_batch1) = true
  /\ isChainValid (tamper (Scenario.ledger_of Scenario.seal_batch1) 1 forged_block1) = true.
Proof.
  vm_compute. repeat split; try reflexivity; discriminate.
Qed.

Lemma tampered_pair_detected st i p c :
  chain st !! i = Some p -> chain st !! S i = Some c -> link_ok p c = false ->
  isChainValid st = false.
Proof.
  intros Hp Hc Hbad. destruct (isChainValid st) eqn:Hvalid; [|reflexivity].
  rewrite isChainValid_spec in Hvalid. rewrite (Hvalid i p c Hp Hc) in Hbad. discriminate.
Qed.

Lemma replaced_block_detected st i p b b' :
  chain st !! i = Some p -> chain st !! S i = Some b -> link_ok p b' = false ->
  isChainValid (tamper st (S i) b') = false.
Proof.
  intros Hp Hb Hbad. apply (tampered_pair_detected _ i p b'); [| |exact Hbad].
  - cbn. rewrite list_lookup_insert_ne by lia. exact Hp.
  - cbn. apply list_lookup_insert_eq. apply (lookup_lt_Some _ _ _ Hb).
Qed.

(** C2, amended: validation returns true on every ledger the methods
    produce.  From such a ledger, it returns false after the stored
    digest of a sealed block (any block after genesis, the last
    included) is replaced by another value, after the previous-digest
    field of a sealed block is replaced by another value, and after the
    events of a block that has a successor are replaced and its digest
    recomputed to a value other than the stored one.  The same rewrite of
    the last block is not detected. *)
Theorem C2_validation_detects_tampering (utc_offset : Z -> Z) (st : Ledger) :
  reachable utc_offset st ->
  isChainValid st = true
  /\ (forall i b h, chain st !! S i = Some b -> h <> block_hash b ->
         isChainValid (tamper st (S i) (set_hash b h)) = false)
  /\ (forall i b p, chain st !! S i = Some b -> p <> block_previousHash b ->
         isChainValid (tamper st (S i) (set_previousHash b p)) = false)
  /\ (forall i b c txs, chain st !! i = Some b -> chain st !! S i = Some c ->
         calculateHash (set_transactions b txs) <> block_hash b ->
         isChainValid (tamper st i (recompute (set_transactions b txs))) = false).
Proof.
  intros Hreach.
  destruct (reachable_invariant utc_offset st Hreach) as [(g & rest & Hchain & Hsealed) _ _].
  split; [|split; [|split]].
  - unfold isChainValid. rewrite Hchain. now apply sealed_chain_valid.
  - intros i b h Hb Hh.
    assert (Hb' := Hb). rewrite Hchain in Hb'.
    destruct (sealed_chain_lookup g rest i b Hsealed Hb') as (_ & Hhash & p & Hp & _).
    rewrite <- Hchain in Hp.
    apply (replaced_block_detected st i p b _ Hp Hb).
    unfold link_ok. apply andb_false_iff. left. apply String.eqb_neq.
    cbn [block_hash set_hash]. change (calculateHash (set_hash b h)) with (calculateHash b).
    congruence.
  - intros i b p' Hb Hp'.
    assert (Hb' := Hb). rewrite Hchain in Hb'.
    destruct (sealed_chain_lookup g rest i b Hsealed Hb') as (_ & _ & p & Hp & Hlink).
    rewrite <- Hchain in Hp.
    apply (replaced_block_detected st i p b _ Hp Hb).
    unfold link_ok. apply andb_false_iff. right. apply String.eqb_neq.
    cbn [block_previousHash set_previousHash]. congruence.
  - intros i b c txs Hb Hc Hnew.
    assert (Hc' := Hc). rewrite Hchain in Hc'.
    destruct (sealed_chain_lookup g rest i c Hsealed Hc') as (_ & _ & p & Hp & Hlink).
    rewrite <- Hchain in Hp. rewrite Hb in Hp. inversion Hp; subst p.
    apply (tampered_pair_detected _ i (recompute (set_transactions b txs)) c).
    + cbn. apply list_lookup_insert_eq. apply (lookup_lt_Some _ _ _ Hb).
    + cbn. rewrite list_lookup_insert_ne by lia. exact Hc.
    + unfold link_ok. apply andb_false_iff. right. apply String.eqb_neq.
      rewrite Hlink. cbn [block_hash recompute set_hash]. congruence.
Qed.

Lemma C2_validation_witness :
  isChainValid (Scenario.ledger_of Scenario.seal_batch2) = true
  /\ isChainValid
       (tamper (Scenario.ledger_of Scenario.seal_batch2) 2
          (set_hash Scenario.block2 "00ff")) = false
  /\ isChainValid
       (tamper (Scenario.ledger_of Scenario.seal_batch2) 1
          (set_previousHash Scenario.block1 "0")) = false
  /\ isChainValid
       (tamper (Scenario.ledger_of Scenario.seal_batch2) 1
          (recompute
             (set_transactions Scenario.block1
                [set_data Scenario.batch1
                   (set_field "batchId" (JStr "B9") (tx_data Scenario.batch1))]))) = false.
Proof.
  destruct (C2_validation_detects_tampering Scenario.ist
              (Scenario.ledger_of Scenario.seal_batch2) reachable_seal_batch2)
    as (Hvalid & Hdigest & Hprevious & Hpayload).
  split; [exact Hvalid|]. split; [|split].
  - apply Hdigest; [vm_compute; reflexivity|vm_compute; discriminate].
  - apply Hprevious; [vm_compute; reflexivity|vm_compute; discriminate].
  - apply (Hpayload 1%nat Scenario.block1 Scenario.block2).
    + vm_compute. reflexivity.
    + vm_compute. reflexivity.
    + vm_compute. discriminate.
Defined.

(** ** C3: proof of work and linkage *)

(** C3, as stated, fails on the genesis block: its stored digest is
    [calculateHash([])], the SHA-256 of the four characters [0[]0], which
    was never mined and does not start with two zero characters. *)
Lemma C3_genesis_digest_not_mined :
  chain Scenario.fresh !! 0%nat
  = Some (genesisBlock "6f1c2a9e-3b7d-4c58-9a41-0d2e8b5f7c13" 1793600000000 1793600000000)
  /\ block_hash (genesisBlock "6f1c2a9e-3b7d-4c58-9a41-0d2e8b5f7c13" 1793600000000 1793600000000)
     = "32369d15916932bd1ade51c0cae9f32f5ded2cccd29d81d7eec27066c813e39d"
  /\ leading_zeros difficulty
       (block_hash (genesisBlock "6f1c2a9e-3b7d-4c58-9a41-0d2e8b5f7c13"
                      1793600000000 1793600000000)) = false.
Proof. vm_compute. repeat split; reflexivity. Qed.

(** C3, amended: in every ledger the methods can produce, every block
    after the genesis block has a stored digest that starts with
    [difficulty] (two) zero characters, and its previous-digest field
    equals the stored digest of the block before it. *)
Theorem C3_sealed_blocks_mined_and_linked (utc_offset : Z -> Z) (st : Ledger)
    (i : nat) (b : Block) :
  reachable utc_offset st ->
  chain st !! S i = Some b ->
  leading_zeros difficulty (block_hash b) = true
  /\ exists p, chain st !! i = Some p /\ block_previousHash b = block_hash p.
Proof.
  intros Hreach Hb.
  destruct (reachable_invariant utc_offset st Hreach) as [(g & rest & Hchain & Hsealed) _ _].
  rewrite Hchain in *.
  destruct (sealed_chain_lookup g rest i b Hsealed Hb) as (Hz & _ & Hp).
  split; assumption.
Qed.

Lemma C3_sealed_blocks_witness :
  leading_zeros difficulty (block_hash Scenario.block1) = true
  /\ exists p, chain (Scenario.ledger_of Scenario.seal_batch1) !! 0%nat = Some p
               /\ block_previousHash Scenario.block1 = block_hash p.
Proof.
  apply (C3_sealed_blocks_mined_and_linked Scenario.ist
           (Scenario.ledger_of Scenario.seal_batch1) 0 Scenario.block1).
  - exact reachable_seal_batch1.
  - vm_compute. reflexivity.
Defined.

(** ** C4: sealing drains the pool into one new block *)

(** On a ledger with a chain and a non-empty pool, sealing never throws:
    it returns, or the search is still running when the fuel ends. *)
Lemma mineBlock_nonempty_outcomes (utc_offset : Z -> Z) now fuel minerId st :
  reachable utc_offset st ->
  pendingTransactions st <> [] ->
  (exists blk, fst (mineBlock now fuel minerId st) = Returned blk)
  \/ fst (mineBlock now fuel minerId st) = OutOfFuel.
Proof.
  intros Hreach Hpool. rewrite mineBlock_cases.
  destruct (pendingTransactions st) as [|tx pool]; [congruence|].
  destruct (reachable_invariant utc_offset st Hreach) as [(g & rest & Hchain & _) _ _].
  unfold getLatestBlock. rewrite Hchain.
  destruct (last_cons_some g rest) as [latest ->].
  destruct (proof_of_work _ _ _ _) as [mined|e| |] eqn:Hpow.
  - left. eexists. reflexivity.
  - now apply proof_of_work_never_throws in Hpow.
  - now apply proof_of_work_modelled in Hpow.
  - right. reflexivity.
Qed.

(** A block found with some fuel is found, the same, with more. *)
Lemma mineBlock_more_fuel now fuel fuel' minerId st blk st' :
  mineBlock now fuel minerId st = (Returned blk, st') ->
  fuel <= fuel' ->
  mineBlock now fuel' minerId st = (Returned blk, st').
Proof.
  rewrite !mineBlock_cases.
  destruct (pendingTransactions st) as [|tx pool]; [discriminate|].
  destruct (getLatestBlock st) as [latest|]; [|discriminate].
  destruct (proof_of_work fuel _ _ _) as [mined| | |] eqn:Hpow; try discriminate.
  intros Hrun Hle.
  rewrite (proof_of_work_more_fuel _ _ _ _ _ _ Hpow Hle). exact Hrun.
Qed.

(** C4: when a seal of a non-empty pool succeeds, the pool is empty, the
    new block holds exactly the events that were pooled, in their order,
    the chain is the old chain followed by that one block (so the drained
    events are nowhere else), the block's index is the old chain length
    and its previous digest is the digest of the old last block. *)
Theorem C4_seal_drains_pool_into_new_block (now : Z) (fuel : nat) (minerId : string)
    (st : Ledger) (blk : Block) (st' : Ledger) :
  pendingTransactions st <> [] ->
  mineBlock now fuel minerId st = (Returned blk, st') ->
  pendingTransactions st' = []
  /\ block_transactions blk = pendingTransactions st
  /\ chain st' = (chain st ++ [blk])%list
  /\ nodes st' = nodes st
  /\ block_index blk = Z.of_nat (List.length (chain st))
  /\ exists latest, getLatestBlock st = Some latest
                    /\ block_previousHash blk = block_hash latest.
Proof.
  intros _. rewrite mineBlock_cases.
  destruct (pendingTransactions st) as [|tx pool]; [discriminate|].
  destruct (getLatestBlock st) as [latest|]; [|discriminate].
  destruct (proof_of_work _ _ _ _) as [mined| | |]; try discriminate.
  intros Hrun. inversion Hrun; subst. cbn.
  repeat split; try reflexivity. exists latest. split; reflexivity.
Qed.

Lemma C4_seal_witness :
  pendingTransactions (Scenario.ledger_of Scenario.seal_batch1) = []
  /\ block_transactions Scenario.block1
     = pendingTransactions (Scenario.ledger_of Scenario.submit_batch1)
  /\ chain (Scenario.ledger_of Scenario.seal_batch1)
     = (chain (Scenario.ledger_of Scenario.submit_batch1) ++ [Scenario.block1])%list
  /\ nodes (Scenario.ledger_of Scenario.seal_batch1)
     = nodes (Scenario.ledger_of Scenario.submit_batch1)
  /\ block_index Scenario.block1
     = Z.of_nat (List.length (chain (Scenario.ledger_of Scenario.submit_batch1)))
  /\ exists latest, getLatestBlock (Scenario.ledger_of Scenario.submit_batch1) = Some latest
                    /\ block_previousHash Scenario.block1 = block_hash latest.
Proof.
  apply (C4_seal_drains_pool_into_new_block 1793600005022 4 "SYSTEM_MINER").
  - vm_compute. discriminate.
  - vm_compute. reflexivity.
Defined.

(** ** C5: registering an identifier twice *)

(** C5, as stated, fails: FARMER001 is registered as a farmer, then
    registered again as a lab.  The second call returns success and the
    stored node now has the lab role and the lab capabilities. *)
Lemma C5_second_registration_overwrites :
  (exists node, nodes Scenario.with_farmer !! "FARMER001" = Some node
                /\ node_type node = "farmer"
                /\ node_permissions node
                   = PermArray ["create_collection_event"; "read_own_data"])
  /\ Scenario.outcome_of
       (registerNode 1793600003000 1793600003001 "FARMER001" "lab" (JStr "pk-lab") (JObj [])
          Scenario.with_farmer)
     = Returned (mkRegistered true "FARMER001" 1793600003001)
  /\ nodes (Scenario.ledger_of
              (registerNode 1793600003000 1793600003001 "FARMER001" "lab" (JStr "pk-lab")
                 (JObj []) Scenario.with_farmer)) !! "FARMER001"
     = Some (mkNode "FARMER001" "lab" (JStr "pk-lab") (JObj []) 1793600003000 true
               (PermArray ["create_quality_test"; "read_test_data"])).
Proof.
  split; [|split].
  - eexists. vm_compute. repeat split; reflexivity.
  - vm_compute. reflexivity.
  - vm_compute. reflexivity.
Qed.

(** C5, amended: registering an identifier that is already present, with
    a role of the fixed set, does not fail.  The call returns success and
    the registry maps the identifier to a fresh node built from the
    arguments of this call (its role, the capability set of that role,
    active); every other node, the pool and the chain are unchanged. *)
Theorem C5_registration_replaces_existing_node (registeredAt returnedAt : Z)
    (nodeId nodeType : string) (publicKey metadata : JsVal) (st : Ledger) :
  is_Some (nodes st !! nodeId) ->
  existsb (String.eqb nodeType) allowedTypes = true ->
  let run := registerNode registeredAt returnedAt nodeId nodeType publicKey metadata st in
  fst run = Returned (mkRegistered true nodeId returnedAt)
  /\ nodes (snd run) !! nodeId
     = Some (mkNode nodeId nodeType publicKey metadata registeredAt true
               (getNodePermissions nodeType))
  /\ (forall other, other <> nodeId -> nodes (snd run) !! other = nodes st !! other)
  /\ chain (snd run) = chain st
  /\ pendingTransactions (snd run) = pendingTransactions st.
Proof.
  intros _ Hallowed run. subst run. rewrite registerNode_cases, Hallowed.
  cbn [fst snd nodes chain pendingTransactions]. repeat split.
  - apply lookup_insert_eq.
  - intros other Hother. apply lookup_insert_ne. congruence.
Qed.

Lemma C5_registration_witness :
  let run := registerNode 1793600003000 1793600003001 "FARMER001" "lab" (JStr "pk-lab")
               (JObj []) Scenario.with_farmer in
  fst run = Returned (mkRegistered true "FARMER001" 1793600003001)
  /\ nodes (snd run) !! "FARMER001"
     = Some (mkNode "FARMER001" "lab" (JStr "pk-lab") (JObj []) 1793600003000 true
               (getNodePermissions "lab"))
  /\ (forall other, other <> "FARMER001" ->
        nodes (snd run) !! other = nodes Scenario.with_farmer !! other)
  /\ chain (snd run) = chain Scenario.with_farmer
  /\ pendingTransactions (snd run) = pendingTransactions Scenario.with_farmer.
Proof.
  apply (C5_registration_replaces_existing_node 1793600003000 1793600003001
           "FARMER001" "lab" (JStr "pk-lab") (JObj []) Scenario.with_farmer).
  - vm_compute. eexists. reflexivity.
  - vm_compute. reflexivity.
Defined.

(** An invalid role is refused and nothing is stored. *)
Lemma registerNode_invalid_type registeredAt returnedAt nodeId nodeType publicKey metadata st :
  existsb (String.eqb nodeType) allowedTypes = false ->
  registerNode registeredAt returnedAt nodeId nodeType publicKey metadata st
  = (Thrown (InvalidNodeType nodeType), st).
Proof. intros H. rewrite registerNode_cases, H. reflexivity. Qed.

(** ** C6: a failed call changes nothing *)

Lemma find_none_of_fresh (uuid : string) (txs : list Transaction) :
  (forall tx, In tx txs -> tx_id tx <> uuid) ->
  List.find (fun tx => String.eqb (tx_id tx) uuid) txs = None.
Proof.
  intros Hfresh. destruct (List.find _ txs) as [tx|] eqn:Hfind; [|reflexivity].
  apply List.find_some in Hfind. destruct Hfind as [Hin Heq].
  apply String.eqb_eq in Heq. now destruct (Hfresh tx Hin).
Qed.

(** C6: when a submission throws, for whatever reason, the ledger after
    the call is the ledger before it (same pool, same chain, same
    registry), and the identifier drawn for the rejected event, fresh as
    it was, is carried by no event of the pool or of the chain, so that
    the look-up by identifier finds nothing; when a seal throws, and it
    does on an empty pool, the ledger is unchanged too. *)
Theorem C6_failed_calls_leave_ledger_unchanged (utc_offset : Z -> Z) (st : Ledger) :
  (forall uuid timestamp now nodeId type data e st',
      createTransaction utc_offset uuid timestamp now nodeId type data st = (Thrown e, st') ->
      st' = st
      /\ ((forall tx, In tx (getAllTransactions st ++ pendingTransactions st)%list ->
                      tx_id tx <> uuid) ->
          getTransactionById st' uuid = None
          /\ forall tx, In tx (pendingTransactions st') -> tx_id tx <> uuid))
  /\ (forall now fuel minerId e st',
         mineBlock now fuel minerId st = (Thrown e, st') -> st' = st)
  /\ (forall now fuel minerId,
         pendingTransactions st = [] ->
         mineBlock now fuel minerId st = (Thrown NoPendingTransactions, st)).
Proof.
  split; [|split].
  - intros uuid timestamp now nodeId type data e st' Hrun.
    assert (st' = st) as ->.
    { apply (createTransaction_failure utc_offset _ _ _ _ _ _ _ _ _ Hrun). discriminate. }
    split; [reflexivity|]. intros Hfresh. split.
    + apply find_none_of_fresh. intros tx Hin. apply Hfresh, in_or_app. now left.
    + intros tx Hin. apply Hfresh, in_or_app. now right.
  - intros now fuel minerId e st'. rewrite mineBlock_cases.
    destruct (pendingTransactions st); [congruence|].
    destruct (getLatestBlock st); [|congruence].
    destruct (proof_of_work _ _ _ _); congruence.
  - intros now fuel minerId Hpool. rewrite mineBlock_cases, Hpool. reflexivity.
Qed.

(** The four ways a submission is turned down in the runs: an unknown
    node, a kind the node may not submit, a rule of the contract, and a
    seal with nothing to seal. *)
Lemma C6_failed_calls_witness :
  (createTransaction Scenario.ist "5e0c3b71-9f24-4d86-a1b3-7c6d2e8f0a94" 1793600002000
     1793600002001 "NOBODY" "CollectionEvent" (Scenario.harvest 30) Scenario.with_farmer
   = (Thrown (NodeNotFoundOrInactive "NOBODY"), Scenario.with_farmer))
  /\ (createTransaction Scenario.ist "5e0c3b71-9f24-4d86-a1b3-7c6d2e8f0a94" 1793600002000
        1793600002001 "FARMER001" "QualityTest" [] Scenario.with_farmer
      = (Thrown (PermissionDenied "FARMER001" "QualityTest"), Scenario.with_farmer))
  /\ (createTransaction Scenario.ist "5e0c3b71-9f24-4d86-a1b3-7c6d2e8f0a94" 1793600002000
        1793600002001 "FARMER001" "CollectionEvent" (Scenario.harvest 51) Scenario.with_farmer
      = (Thrown (ContractValidationFailed DailyLimitExceeded), Scenario.with_farmer))
  /\ getTransactionById Scenario.with_farmer "5e0c3b71-9f24-4d86-a1b3-7c6d2e8f0a94" = None
  /\ (mineBlock 1793600005000 4 "SYSTEM_MINER" Scenario.with_farmer
      = (Thrown NoPendingTransactions, Scenario.with_farmer)).
Proof.
  destruct (C6_failed_calls_leave_ledger_unchanged Scenario.ist Scenario.with_farmer)
    as (Hsubmit & _ & Hseal).
  assert (forall tx,
             In tx (getAllTransactions Scenario.with_farmer
                    ++ pendingTransactions Scenario.with_farmer)%list ->
             tx_id tx <> "5e0c3b71-9f24-4d86-a1b3-7c6d2e8f0a94") as Hfresh.
  { vm_compute. intros tx [<-|[]]. discriminate. }
  assert (createTransaction Scenario.ist "5e0c3b71-9f24-4d86-a1b3-7c6d2e8f0a94" 1793600002000
            1793600002001 "FARMER001" "CollectionEvent" (Scenario.harvest 51)
            Scenario.with_farmer
          = (Thrown (ContractValidationFailed DailyLimitExceeded),
             snd (createTransaction Scenario.ist "5e0c3b71-9f24-4d86-a1b3-7c6d2e8f0a94"
                    1793600002000 1793600002001 "FARMER001" "CollectionEvent"
                    (Scenario.harvest 51) Scenario.with_farmer))) as Hrule.
  { vm_compute. reflexivity. }
  destruct (Hsubmit _ _ _ _ _ _ _ _ Hrule) as [Hsame Hgone].
  rewrite Hsame in Hrule. rewrite Hsame in Hgone.
  split; [|split; [|split; [|split]]].
  - vm_compute. reflexivity.
  - vm_compute. reflexivity.
  - exact Hrule.
  - apply (Hgone Hfresh).
  - apply Hseal. vm_compute. reflexivity.
Defined.

(** ** C7: the quality thresholds *)

(** The code follows the claim on every reading whose withanolide
    content is not the number zero. *)
Lemma validateQuality_as_claimed_off_zero moisture withanolide pesticide heavyMetals :
  is_zero withanolide = false ->
  SmartContract.validateQuality (JStr "ashwagandha")
    (quality_metrics moisture withanolide pesticide heavyMetals)
  = Returned (quality_rule_as_claimed moisture withanolide pesticide heavyMetals).
Proof.
  intros Hzero. unfold quality_rule_as_claimed.
  destruct moisture as [m|], withanolide as [w|], pesticide as [p|], heavyMetals as [h|];
    cbn -[num_ltb] in *; try rewrite Hzero; cbn -[num_ltb];
    repeat match goal with
           | |- context [num_ltb ?a ?b] => destruct (num_ltb a b); cbn -[num_ltb]
           end;
    reflexivity.
Qed.

(** A species without a threshold table of its own fails the rule. *)
Lemma validateQuality_without_table species key qualityMetrics :
  to_key species = Returned key ->
  literal_get SmartContract.qualityThresholds key = Missing ->
  SmartContract.validateQuality species qualityMetrics
  = Returned (SmartContract.mkQualityCheck false (Some "No quality rules defined for species")).
Proof.
  intros Hkey Htable. unfold SmartContract.validateQuality. rewrite Hkey. cbn [obind].
  rewrite Htable. reflexivity.
Qed.

(** C7 at the failing input: a reading with a withanolide content of 0
    is present and below the minimum of 0.3, yet the rule passes, because
    the guard [qualityMetrics.withanolide && ...] takes the number 0 for
    an absent metric; the event is admitted with its quality marked as
    passed.  A content of 0.2 is refused with the reason the claim
    expects. *)
Theorem C7_zero_withanolide_skips_the_minimum :
  js_lt (JInt 0) (mkNum 3 1) = Returned true
  /\ quality_rule_as_claimed (Some (mkNum 85 1)) (Some (num_of_Z 0)) None None
     = SmartContract.mkQualityCheck false (Some "Withanolide content below minimum required")
  /\ SmartContract.validateQuality (JStr "ashwagandha")
       (quality_metrics (Some (mkNum 85 1)) (Some (num_of_Z 0)) None None)
     = Returned (SmartContract.mkQualityCheck true None)
  /\ (exists tx,
         Scenario.outcome_of
           (createTransaction Scenario.ist "0b8e6d42-7a15-4c93-b1f8-5e2a9c7d3046" 1793600002000
              1793600002001 "FARMER001" "CollectionEvent"
              (harvest_with_quality
                 (JObj [("moisture", JNum (mkNum 85 1)); ("withanolide", JInt 0)]))
              Scenario.with_farmer)
         = Returned tx
         /\ exists contractHash,
              tx_contractValidation tx
              = Some (JObj [ ("valid", JBool true); ("contractHash", contractHash);
                             ("validationRules",
                              JObj [ ("geoFencing", JStr "PASSED");
                                     ("seasonalRestriction", JStr "PASSED");
                                     ("dailyLimit", JStr "PASSED");
                                     ("quality", JStr "PASSED") ]) ]))
  /\ Scenario.outcome_of
       (createTransaction Scenario.ist "0b8e6d42-7a15-4c93-b1f8-5e2a9c7d3046" 1793600002000
          1793600002001 "FARMER001" "CollectionEvent"
          (harvest_with_quality
             (JObj [("moisture", JNum (mkNum 85 1)); ("withanolide", JNum (mkNum 2 1))]))
          Scenario.with_farmer)
     = Thrown (ContractValidationFailed
                 (QualityFailed "Withanolide content below minimum required")).
Proof.
  split; [vm_compute; reflexivity|]. split; [vm_compute; reflexivity|].
  split; [vm_compute; reflexivity|]. split.
  - eexists. split; [vm_compute; reflexivity|]. eexists. reflexivity.
  - vm_compute. reflexivity.
Qed.

(** ** C8: kinds without rules *)

(** The default branch of the switch in [createTransaction]. *)
Lemma createTransaction_without_rules (utc_offset : Z -> Z) (uuid : string)
    (timestamp now : Z) (nodeId type : string) (data : Fields) (st : Ledger) (node : Node) :
  nodes st !! nodeId = Some node ->
  node_active node = true ->
  permissions_include (node_permissions node) (getRequiredPermission type) = Returned true ->
  type <> "CollectionEvent" -> type <> "ProcessingStep" -> type <> "QualityTest" ->
  exists tx,
    createTransaction utc_offset uuid timestamp now nodeId type data st
    = (Returned tx, with_pool st (pendingTransactions st ++ [tx]))
    /\ tx_contractValidation tx = Some system_approved
    /\ tx_id tx = uuid /\ tx_type tx = type /\ tx_nodeId tx = nodeId.
Proof.
  intros Hnode Hactive Hperm Hc Hp Hq.
  apply String.eqb_neq in Hc, Hp, Hq.
  unfold createTransaction, bind, get, put, ret, throw, lift, try_contract, with_pool.
  rewrite Hnode, Hactive. cbn [negb]. rewrite Hperm. cbn [negb].
  rewrite Hc, Hp, Hq. eexists. split; [reflexivity|]. cbn. auto.
Qed.

(** C8: for a kind other than CollectionEvent, ProcessingStep and
    QualityTest, the submission of an active node that holds the
    capability required for the kind returns the event, approved without
    any rule, and the pool is the old pool followed by that event. *)
Theorem C8_kinds_without_rules_are_admitted (utc_offset : Z -> Z) (uuid : string)
    (timestamp now : Z) (nodeId type : string) (data : Fields) (st : Ledger) (node : Node) :
  nodes st !! nodeId = Some node ->
  node_active node = true ->
  permissions_include (node_permissions node) (getRequiredPermission type) = Returned true ->
  type <> "CollectionEvent" -> type <> "ProcessingStep" -> type <> "QualityTest" ->
  exists tx,
    createTransaction utc_offset uuid timestamp now nodeId type data st
    = (Returned tx, with_pool st (pendingTransactions st ++ [tx]))
    /\ tx_contractValidation tx = Some system_approved
    /\ tx_id tx = uuid /\ tx_type tx = type /\ tx_nodeId tx = nodeId.
Proof. apply createTransaction_without_rules. Qed.

Lemma C8_kinds_without_rules_witness :
  exists tx,
    createTransaction Scenario.ist "a3d94c1e-52b7-4f0a-8e66-1c9b7d2f4a05" 1793600002000
      1793600002000 "MFR001" "ManufacturingRecord" [("batchId", JStr "B1")] Scenario.with_maker
    = (Returned tx,
       with_pool Scenario.with_maker (pendingTransactions Scenario.with_maker ++ [tx]))
    /\ tx_contractValidation tx = Some system_approved
    /\ tx_id tx = "a3d94c1e-52b7-4f0a-8e66-1c9b7d2f4a05"
    /\ tx_type tx = "ManufacturingRecord" /\ tx_nodeId tx = "MFR001".
Proof.
  apply (C8_kinds_without_rules_are_admitted Scenario.ist
           "a3d94c1e-52b7-4f0a-8e66-1c9b7d2f4a05" 1793600002000 1793600002000 "MFR001"
           "ManufacturingRecord" [("batchId", JStr "B1")] Scenario.with_maker
           (mkNode "MFR001" "manufacturer" (JStr "pk-mfr-001") (JObj []) 1793600001000 true
              (PermArray ["create_manufacturing_record"; "generate_qr"]))).
  - vm_compute. reflexivity.
  - reflexivity.
  - vm_compute. reflexivity.
  - discriminate.
  - discriminate.
  - discriminate.
Defined.

(** ** C9: the capability required for an unlisted kind *)

(** Away from the five listed kinds and from the names every object
    inherits, the look-up falls back to [read_own_data]. *)
Lemma getRequiredPermission_fallback (type : string) :
  assoc type permissionMap = None ->
  existsb (String.eqb type) object_prototype_keys = false ->
  getRequiredPermission type = PermissionName "read_own_data".
Proof.
  intros Hlisted Hinherited. unfold getRequiredPermission, literal_get.
  rewrite Hlisted, Hinherited. reflexivity.
Qed.

(** An active farmer is then allowed, and the event is admitted without
    any rule. *)
Lemma farmer_submits_unlisted_kind (utc_offset : Z -> Z) (uuid : string)
    (timestamp now : Z) (nodeId type : string) (data : Fields) (st : Ledger) (node : Node) :
  nodes st !! nodeId = Some node ->
  node_active node = true ->
  node_permissions node = getNodePermissions "farmer" ->
  assoc type permissionMap = None ->
  existsb (String.eqb type) object_prototype_keys = false ->
  exists tx,
    createTransaction utc_offset uuid timestamp now nodeId type data st
    = (Returned tx, with_pool st (pendingTransactions st ++ [tx]))
    /\ tx_contractValidation tx = Some system_approved.
Proof.
  intros Hnode Hactive Hperm Hlisted Hinherited.
  destruct (createTransaction_without_rules utc_offset uuid timestamp now nodeId type
              data st node Hnode Hactive)
    as (tx & Hrun & Hcv & _).
  - rewrite Hperm, (getRequiredPermission_fallback type Hlisted Hinherited). reflexivity.
  - intros ->. discriminate.
  - intros ->. discriminate.
  - intros ->. discriminate.
  - exists tx. split; assumption.
Qed.

(** C9 at the failing input: the kind [constructor] is none of the five
    listed kinds, yet [permissionMap["constructor"]] is the function every
    object inherits; the fallback to [read_own_data] does not apply, no
    capability array contains that function, and the submission of an
    active farmer is refused. *)
Theorem C9_inherited_name_defeats_fallback :
  assoc "constructor" permissionMap = None
  /\ getRequiredPermission "constructor" = InheritedMember "constructor"
  /\ (exists node, nodes Scenario.with_farmer !! "FARMER001" = Some node
                   /\ node_active node = true
                   /\ node_permissions node
                      = PermArray ["create_collection_event"; "read_own_data"])
  /\ createTransaction Scenario.ist "5e0c3b71-9f24-4d86-a1b3-7c6d2e8f0a94" 1793600002000
       1793600002001 "FARMER001" "constructor" [] Scenario.with_farmer
     = (Thrown (PermissionDenied "FARMER001" "constructor"), Scenario.with_farmer).
Proof.
  split; [reflexivity|]. split; [reflexivity|]. split.
  - eexists. vm_compute. repeat split; reflexivity.
  - vm_compute. reflexivity.
Qed.

(** ** C10: pooled events and the two look-ups *)

Lemma getAllTransactions_with_pool st pool :
  getAllTransactions (with_pool st pool) = getAllTransactions st.
Proof. reflexivity. Qed.

Lemma getAllTransactions_snoc blocks pool nodes0 blk :
  getAllTransactions (mkLedger (blocks ++ [blk]) pool nodes0)
  = (getAllTransactions (mkLedger blocks pool nodes0) ++ block_transactions blk)%list.
Proof.
  unfold getAllTransactions. cbn [chain].
  rewrite List.map_app, List.concat_app. cbn. rewrite List.app_nil_r. reflexivity.
Qed.

Lemma mentions_own_id tx : mentions_batch (JStr (tx_id tx)) tx = true.
Proof.
  unfold mentions_batch. cbn [strict_eq]. rewrite String.eqb_refl. apply orb_true_r.
Qed.

(** C10: admitting an event changes the answer of neither look-up, for
    any identifier and any batch, because both read the sealed blocks
    only; so the event, whose identifier no sealed event carries, is not
    found by identifier and is in no batch answer while it is pooled.
    Once a seal has succeeded it is in the batch answer for its
    identifier and the look-up by identifier finds an event with that
    identifier. *)
Theorem C10_pooled_events_are_not_retrievable (utc_offset : Z -> Z) (uuid : string)
    (timestamp now : Z) (nodeId type : string) (data : Fields) (st : Ledger)
    (tx : Transaction) (st' : Ledger) :
  createTransaction utc_offset uuid timestamp now nodeId type data st = (Returned tx, st') ->
  (forall sealed, In sealed (getAllTransactions st) -> tx_id sealed <> uuid) ->
  In tx (pendingTransactions st')
  /\ (forall id, getTransactionById st' id = getTransactionById st id)
  /\ (forall batchId, getTransactionsByBatchId st' batchId = getTransactionsByBatchId st batchId)
  /\ getTransactionById st' (tx_id tx) = None
  /\ (forall batchId, ~ In tx (getTransactionsByBatchId st' batchId))
  /\ (forall now' fuel minerId blk st'',
         mineBlock now' fuel minerId st' = (Returned blk, st'') ->
         In tx (getTransactionsByBatchId st'' (JStr (tx_id tx)))
         /\ exists found, getTransactionById st'' (tx_id tx) = Some found
                          /\ tx_id found = tx_id tx).
Proof.
  intros Hrun Hfresh.
  apply createTransaction_success in Hrun. destruct Hrun as [-> Hid].
  split; [|split; [|split; [|split; [|split]]]].
  - cbn. apply in_or_app. right. now left.
  - reflexivity.
  - reflexivity.
  - unfold getTransactionById. rewrite getAllTransactions_with_pool, Hid.
    now apply find_none_of_fresh.
  - intros batchId Hin. unfold getTransactionsByBatchId in Hin.
    rewrite getAllTransactions_with_pool in Hin. apply List.filter_In in Hin.
    destruct Hin as [Hin _]. now apply (Hfresh tx Hin).
  - intros now' fuel minerId blk st'' Hmine.
    rewrite mineBlock_cases in Hmine. cbn [pendingTransactions with_pool] in Hmine.
    destruct (pendingTransactions st ++ [tx])%list as [|tx0 pool] eqn:Hpool;
      [discriminate|].
    destruct (getLatestBlock _) as [latest|]; [|discriminate].
    destruct (proof_of_work _ _ _ _) as [mined| | |]; try discriminate.
    inversion Hmine; subst blk st''. clear Hmine.
    assert (In tx (getAllTransactions
                     (mkLedger
                        (chain (with_pool st (tx0 :: pool)) ++
                         [mkBlock (Z.of_nat (List.length (chain (with_pool st (tx0 :: pool)))))
                            now' (tx0 :: pool) (block_hash latest) (snd mined)
                            (Some minerId) (fst mined)])%list
                        [] (nodes (with_pool st (tx0 :: pool)))))) as Hin.
    { rewrite getAllTransactions_snoc. apply in_or_app. right. cbn [block_transactions].
      rewrite <- Hpool. apply in_or_app. right. now left. }
    split.
    + unfold getTransactionsByBatchId. apply List.filter_In. split; [exact Hin|].
      apply mentions_own_id.
    + unfold getTransactionById.
      destruct (List.find _ _) as [found|] eqn:Hfind.
      * exists found. split; [reflexivity|].
        apply List.find_some in Hfind. now apply String.eqb_eq.
      * apply (List.find_none _ _ Hfind) in Hin. rewrite String.eqb_refl in Hin.
        discriminate.
Qed.

Lemma C10_pooled_events_witness :
  In Scenario.batch1 (pendingTransactions (Scenario.ledger_of Scenario.submit_batch1))
  /\ getTransactionById (Scenario.ledger_of Scenario.submit_batch1) (tx_id Scenario.batch1)
     = None
  /\ getTransactionsByBatchId (Scenario.ledger_of Scenario.submit_batch1) (JStr "B1") = []
  /\ In Scenario.batch1
       (getTransactionsByBatchId (Scenario.ledger_of Scenario.seal_batch1)
          (JStr (tx_id Scenario.batch1)))
  /\ exists found,
       getTransactionById (Scenario.ledger_of Scenario.seal_batch1) (tx_id Scenario.batch1)
       = Some found
       /\ tx_id found = tx_id Scenario.batch1.
Proof.
  assert (createTransaction Scenario.ist "a3d94c1e-52b7-4f0a-8e66-1c9b7d2f4a05" 1793600002000
            1793600002000 "MFR001" "ManufacturingRecord" [("batchId", JStr "B1")]
            Scenario.with_maker
          = (Returned Scenario.batch1, Scenario.ledger_of Scenario.submit_batch1)) as Hrun.
  { vm_compute. reflexivity. }
  assert (forall sealed, In sealed (getAllTransactions Scenario.with_maker) ->
                         tx_id sealed <> "a3d94c1e-52b7-4f0a-8e66-1c9b7d2f4a05") as Hfresh.
  { vm_compute. intros sealed [<-|[]]. discriminate. }
  destruct (C10_pooled_events_are_not_retrievable _ _ _ _ _ _ _ _ _ _ Hrun Hfresh)
    as (Hpooled & _ & Hbatch & Hnone & _ & Hsealed).
  assert (mineBlock 1793600005022 4 "SYSTEM_MINER" (Scenario.ledger_of Scenario.submit_batch1)
          = (Returned Scenario.block1, Scenario.ledger_of Scenario.seal_batch1)) as Hmine.
  { vm_compute. reflexivity. }
  destruct (Hsealed _ _ _ _ _ Hmine) as [Hin Hfound].
  split; [exact Hpooled|]. split; [exact Hnone|]. split.
  - rewrite Hbatch. vm_compute. reflexivity.
  - split; [exact Hin|exact Hfound].
Defined.

(** * Further properties of the code *)

(** ** Reading a computation backwards *)

Lemma obind_returned {E A B : Type} (c : Outcome E A) (k : A -> Outcome E B) (b : B) :
  obind c k = Returned b -> exists a, c = Returned a /\ k a = Returned b.
Proof. destruct c; cbn; try discriminate. intros H. eauto. Qed.

Ltac invert_run H :=
  repeat match type of H with
         | obind ?c ?k = Returned _ =>
             let a := fresh "a" in
             let Hc := fresh "Hc" in
             apply obind_returned in H; destruct H as (a & Hc & H); cbn beta in H
         | (if ?b then _ else _) = Returned _ =>
             let Hb := fresh "Hb" in destruct b eqn:Hb
         | Thrown _ = Returned _ => discriminate H
         | Unmodelled = Returned _ => discriminate H
         | OutOfFuel = Returned _ => discriminate H
         end.

(** ** Properties of own-property look-up and update *)

Lemma field_set_field_eq k v fs : field k (set_field k v fs) = v.
Proof.
  unfold field. induction fs as [|[k' v'] fs IH]; cbn.
  - now rewrite String.eqb_refl.
  - destruct (String.eqb k k') eqn:Hk; cbn; [now rewrite String.eqb_refl|].
    rewrite Hk. exact IH.
Qed.

Lemma field_set_field_ne k k' v fs : k <> k' -> field k (set_field k' v fs) = field k fs.
Proof.
  intros Hne. unfold field. induction fs as [|[k0 v0] fs IH]; cbn.
  - apply String.eqb_neq in Hne. now rewrite Hne.
  - destruct (String.eqb k' k0) eqn:Hk0; cbn.
    + apply String.eqb_eq in Hk0. subst k0. apply String.eqb_neq in Hne. now rewrite Hne.
    + destruct (String.eqb k k0); [reflexivity|exact IH].
Qed.

(** ** What the contract returns *)

Lemma executeCollectionEvent_approves utc_offset now tx existing cv :
  SmartContract.executeCollectionEvent utc_offset now tx existing = Returned cv -> approves cv.
Proof.
  unfold SmartContract.executeCollectionEvent. intros H. invert_run H.
  inversion H; subst. eexists. split; reflexivity.
Qed.

Lemma executeProcessingStep_approves tx existing cv :
  SmartContract.executeProcessingStep tx existing = Returned cv -> approves cv.
Proof.
  unfold SmartContract.executeProcessingStep. intros H. invert_run H.
  inversion H; subst. eexists. split; reflexivity.
Qed.

Lemma executeQualityTest_approves tx existing cv :
  SmartContract.executeQualityTest tx existing = Returned cv -> approves cv.
Proof.
  unfold SmartContract.executeQualityTest. intros H. invert_run H.
  inversion H; subst. eexists. split; reflexivity.
Qed.

(** ** What a returned submission looks like *)
Section Submission.
Variable utc_offset : Z -> Z.

Lemma createTransaction_returned uuid timestamp now nodeId type data st tx st' :
  createTransaction utc_offset uuid timestamp now nodeId type data st = (Returned tx, st') ->
  exists node cv,
    nodes st !! nodeId = Some node
    /\ node_active node = true
    /\ permissions_include (node_permissions node) (getRequiredPermission type) = Returned true
    /\ approves cv
    /\ tx = mkTransaction uuid type (stamped nodeId node data) nodeId timestamp
              (signTransaction uuid type (stamped nodeId node data) timestamp nodeId) (Some cv)
    /\ st' = with_pool st (pendingTransactions st ++ [tx]).
Proof.
  unfold createTransaction, bind, get, put, ret, throw, lift, try_contract, with_pool.
  destruct (nodes st !! nodeId) as [node|]; [|discriminate].
  destruct (node_active node) eqn:Hactive; cbn [negb]; [|discriminate].
  destruct (permissions_include _ _) as [[|]| | |] eqn:Hperm; cbn [negb]; try discriminate.
  fold (stamped nodeId node data).
  match goal with
  | |- context [match ?c with Returned _ => _ | Thrown _ => _ | Unmodelled => _ | OutOfFuel => _ end] =>
      destruct c as [cv| | |] eqn:Hcontract
  end; try discriminate.
  intros Hrun. inversion Hrun; subst. exists node, cv.
  repeat (split; [reflexivity || assumption|]). split; [|split; reflexivity].
  destruct (String.eqb type "CollectionEvent");
    [now apply executeCollectionEvent_approves in Hcontract|].
  destruct (String.eqb type "ProcessingStep");
    [now apply executeProcessingStep_approves in Hcontract|].
  destruct (String.eqb type "QualityTest");
    [now apply executeQualityTest_approves in Hcontract|].
  inversion Hcontract; subst. eexists. split; reflexivity.
Qed.

End Submission.

(** ** One call at a time *)
Section Calls.
Variable utc_offset : Z -> Z.

Lemma proof_of_work_from fuel hash_at nonce h0 n h :
  proof_of_work fuel hash_at nonce (Some h0) = Returned (n, h) ->
  (nonce <= n)%Z
  /\ (n = nonce -> h = h0)
  /\ ((nonce < n)%Z -> h = hash_at n /\ needs_more_work (Some h0) = true)
  /\ needs_more_work (Some h) = false
  /\ forall k, (nonce < k < n)%Z -> needs_more_work (Some (hash_at k)) = true.
Proof.
  revert nonce h0. induction fuel as [|fuel IH]; intros nonce h0; cbn [proof_of_work].
  - discriminate.
  - destruct (needs_more_work (Some h0)) eqn:Hwork.
    + intros Hrun. destruct (IH _ _ Hrun) as (Hle & Hsame & Hlater & Hdone & Hbefore).
      split; [lia|]. split; [lia|]. split; [|split; [exact Hdone|]].
      * intros _. split; [|reflexivity].
        assert (n = nonce + 1 \/ nonce + 1 < n)%Z as [Hn|Hn] by lia.
        -- rewrite (Hsame Hn). now subst n.
        -- apply (Hlater Hn).
      * intros k Hk. assert (k = nonce + 1 \/ nonce + 1 < k)%Z as [->|Hk'] by lia.
        -- apply Hlater. lia.
        -- apply Hbefore. lia.
    + intros Hrun. inversion Hrun; subst. split; [lia|]. split; [reflexivity|].
      split; [lia|]. split; [exact Hwork|]. intros k Hk. lia.
Qed.

(** The search returns the first nonce, counted from 1, whose digest
    passes the test. *)
Lemma proof_of_work_first fuel hash_at n h :
  proof_of_work fuel hash_at 0 None = Returned (n, h) ->
  (1 <= n)%Z
  /\ h = hash_at n
  /\ needs_more_work (Some h) = false
  /\ forall k, (1 <= k < n)%Z -> needs_more_work (Some (hash_at k)) = true.
Proof.
  destruct fuel as [|fuel]; cbn [proof_of_work]; [discriminate|].
  change (0 + 1)%Z with 1%Z. intros Hrun.
  destruct (proof_of_work_from _ _ _ _ _ _ Hrun) as (Hle & Hsame & Hlater & Hdone & Hbefore).
  split; [exact Hle|]. split; [|split; [exact Hdone|]].
  - assert (n = 1 \/ 1 < n)%Z as [Hn|Hn] by lia.
    + rewrite (Hsame Hn). now subst n.
    + apply (Hlater Hn).
  - intros k Hk. assert (k = 1 \/ 1 < k)%Z as [->|Hk'] by lia.
    + apply Hlater. lia.
    + apply Hbefore. lia.
Qed.

Lemma registerNode_effect registeredAt returnedAt nodeId nodeType publicKey metadata st :
  let st' := snd (registerNode registeredAt returnedAt nodeId nodeType publicKey metadata st) in
  chain st' = chain st /\ pendingTransactions st' = pendingTransactions st
  /\ registry_kept st st'.
Proof.
  cbn zeta. rewrite registerNode_cases.
  unfold registry_kept.
  destruct (existsb _ allowedTypes); cbn [snd chain pendingTransactions nodes];
    repeat split; try (intros k Hk; exact Hk).
  intros k Hk. rewrite lookup_insert. case_decide; [eexists; reflexivity|exact Hk].
Qed.

Lemma createTransaction_effect uuid timestamp now nodeId type data st :
  let st' := snd (createTransaction utc_offset uuid timestamp now nodeId type data st) in
  chain st' = chain st /\ nodes st' = nodes st.
Proof.
  cbn zeta.
  destruct (createTransaction_cases utc_offset uuid timestamp now nodeId type data st)
    as [(tx & Heq & _) | (Hst & _)].
  - rewrite Heq. split; reflexivity.
  - rewrite Hst. split; reflexivity.
Qed.

Lemma mineBlock_effect now fuel minerId st :
  let st' := snd (mineBlock now fuel minerId st) in
  (st' = st \/ exists blk, fst (mineBlock now fuel minerId st) = Returned blk
                           /\ chain st' = (chain st ++ [blk])%list
                           /\ pendingTransactions st' = [])
  /\ nodes st' = nodes st.
Proof.
  cbn zeta. rewrite mineBlock_cases.
  destruct (pendingTransactions st); [split; [now left|reflexivity]|].
  destruct (getLatestBlock st); [|split; [now left|reflexivity]].
  destruct (proof_of_work _ _ _ _); try (split; [now left|reflexivity]).
  split; [|reflexivity]. right. eexists. repeat split.
Qed.

Lemma step_effect st st' :
  step utc_offset st st' ->
  (exists more, chain st' = (chain st ++ more)%list) /\ registry_kept st st'.
Proof.
  intros [st0 registeredAt returnedAt nodeId nodeType publicKey metadata
         | st0 uuid timestamp now nodeId type data
         | st0 now fuel minerId].
  - destruct (registerNode_effect registeredAt returnedAt nodeId nodeType publicKey metadata st0)
      as (Hchain & _ & Hkept).
    split; [exists []; now rewrite Hchain, List.app_nil_r|exact Hkept].
  - destruct (createTransaction_effect uuid timestamp now nodeId type data st0)
      as (Hchain & Hnodes).
    split; [exists []; now rewrite Hchain, List.app_nil_r|].
    intros k Hk. now rewrite Hnodes.
  - destruct (mineBlock_effect now fuel minerId st0) as ([Hsame|(blk & _ & Hchain & _)] & Hnodes).
    + rewrite Hsame. split; [exists []; now rewrite List.app_nil_r|]. intros k Hk. exact Hk.
    + split; [exists [blk]; exact Hchain|]. intros k Hk. now rewrite Hnodes.
Qed.

Lemma later_effect st st' :
  later utc_offset st st' ->
  (exists more, chain st' = (chain st ++ more)%list) /\ registry_kept st st'.
Proof.
  induction 1 as [st|st st' st'' _ [[more Hchain] Hkept] Hstep].
  - split; [exists []; now rewrite List.app_nil_r|]. intros k Hk. exact Hk.
  - destruct (step_effect _ _ Hstep) as [[more' Hchain'] Hkept'].
    split.
    + exists (more ++ more')%list. now rewrite Hchain', Hchain, List.app_assoc.
    + intros k Hk. apply Hkept', Hkept, Hk.
Qed.

(** *** The second invariant *)

Lemma admitted_kept st st' tx : registry_kept st st' -> admitted st tx -> admitted st' tx.
Proof. intros Hkept (Hnode & Hid & Hcv). split; [apply Hkept, Hnode|]. split; assumption. Qed.

Lemma sealed_block_kept st st' b :
  registry_kept st st' -> sealed_block st b -> sealed_block st' b.
Proof.
  intros Hkept (Hne & Hnonce & Hminer & Hall). repeat split; try assumption.
  eapply Forall_impl; [exact Hall|]. intros tx. now apply admitted_kept.
Qed.

Lemma registry_kept_refl st st' : nodes st' = nodes st -> registry_kept st st'.
Proof. intros Heq k Hk. now rewrite Heq. Qed.

Lemma well_formed_new uuid blockTime txTime : well_formed (new_ledger uuid blockTime txTime).
Proof.
  split.
  - exists uuid, blockTime, txTime, []. split; [reflexivity|constructor].
  - constructor.
  - intros nodeId node Hn. cbn in Hn. rewrite lookup_empty in Hn. discriminate.
Qed.

Lemma well_formed_register st registeredAt returnedAt nodeId nodeType publicKey metadata :
  well_formed st ->
  well_formed (snd (registerNode registeredAt returnedAt nodeId nodeType publicKey metadata st)).
Proof.
  intros [(uuid & blockTime & txTime & rest & Hchain & Hrest) Hpool Hnodes].
  destruct (registerNode_effect registeredAt returnedAt nodeId nodeType publicKey metadata st)
    as (Hc & Hp & Hkept).
  split.
  - exists uuid, blockTime, txTime, rest. split; [now rewrite Hc|].
    eapply Forall_impl; [exact Hrest|]. intros b. now apply sealed_block_kept.
  - rewrite Hp. eapply Forall_impl; [exact Hpool|]. intros tx. now apply admitted_kept.
  - rewrite registerNode_cases.
    destruct (existsb _ allowedTypes) eqn:Hallowed; cbn [snd nodes]; [|exact Hnodes].
    intros k node. rewrite lookup_insert. case_decide; [|apply Hnodes].
    intros Hnode. inversion Hnode; subst. repeat split.
    apply List.existsb_exists in Hallowed. destruct Hallowed as (t0 & Hin & Heq).
    apply String.eqb_eq in Heq. now subst.
Qed.

Lemma well_formed_submit st uuid timestamp now nodeId type data :
  well_formed st ->
  well_formed (snd (createTransaction utc_offset uuid timestamp now nodeId type data st)).
Proof.
  intros Hwf.
  destruct (createTransaction utc_offset uuid timestamp now nodeId type data st)
    as [[tx| | |] st'] eqn:Hrun;
    try (rewrite (createTransaction_failure utc_offset _ _ _ _ _ _ _ _ _ Hrun);
         [exact Hwf|discriminate]).
  destruct (createTransaction_returned utc_offset _ _ _ _ _ _ _ _ _ Hrun)
    as (node & cv & Hnode & _ & _ & Hcv & Htx & Hst).
  destruct Hwf as [(uuid0 & blockTime & txTime & rest & Hchain & Hrest) Hpool Hnodes].
  cbn [snd]. subst st'. split; cbn [chain pendingTransactions nodes with_pool].
  - exists uuid0, blockTime, txTime, rest. split; [exact Hchain|].
    eapply Forall_impl; [exact Hrest|]. intros b. apply sealed_block_kept. now intros k Hk.
  - apply Forall_app. split.
    + eapply Forall_impl; [exact Hpool|]. intros tx0. apply admitted_kept. now intros k Hk.
    + constructor; [|constructor]. subst tx. split; cbn.
      * rewrite Hnode. eexists. reflexivity.
      * split; [|exists cv; split; [reflexivity|exact Hcv]].
        unfold stamped. rewrite field_set_field_ne by discriminate.
        apply field_set_field_eq.
  - exact Hnodes.
Qed.

Lemma well_formed_mine st now fuel minerId :
  well_formed st -> well_formed (snd (mineBlock now fuel minerId st)).
Proof.
  intros Hwf. rewrite mineBlock_cases.
  destruct (pendingTransactions st) as [|tx pool] eqn:Hpooled; [exact Hwf|].
  destruct (getLatestBlock st) as [latest|]; [|exact Hwf].
  destruct (proof_of_work _ _ _ _) as [[nonce h]| | |] eqn:Hpow; try exact Hwf.
  destruct Hwf as [(uuid0 & blockTime & txTime & rest & Hchain & Hrest) Hpool Hnodes].
  apply proof_of_work_first in Hpow. destruct Hpow as (Hnonce & _).
  cbn [snd fst]. split; cbn [chain pendingTransactions nodes].
  - exists uuid0, blockTime, txTime,
      (rest ++ [mkBlock (Z.of_nat (List.length (chain st))) now (tx :: pool)
                  (block_hash latest) h (Some minerId) nonce])%list.
    split; [now rewrite Hchain|].
    apply Forall_app. split.
    + eapply Forall_impl; [exact Hrest|]. intros b. apply sealed_block_kept. now intros k Hk.
    + constructor; [|constructor]. repeat split; cbn.
      * discriminate.
      * exact Hnonce.
      * eexists. reflexivity.
      * rewrite Hpooled in Hpool. eapply Forall_impl; [exact Hpool|].
        intros tx0. apply admitted_kept. now intros k Hk.
  - constructor.
  - exact Hnodes.
Qed.

Lemma reachable_well_formed st : reachable utc_offset st -> well_formed st.
Proof.
  induction 1.
  - apply well_formed_new.
  - now apply well_formed_register.
  - now apply well_formed_submit.
  - now apply well_formed_mine.
Qed.

Lemma reachable_later st st' :
  reachable utc_offset st -> later utc_offset st st' -> reachable utc_offset st'.
Proof.
  intros Hreach. induction 1 as [|st st' st'' _ IH Hstep]; [exact Hreach|].
  specialize (IH Hreach). destruct Hstep.
  - now apply reach_register.
  - now apply reach_submit.
  - now apply reach_mine.
Qed.

End Calls.

(** ** The chain only grows *)

Lemma later_seal_batch1 :
  later Scenario.ist Scenario.fresh (Scenario.ledger_of Scenario.seal_batch1).
Proof.
  unfold Scenario.seal_batch1, Scenario.submit_batch1, Scenario.with_maker, Scenario.ledger_of.
  eapply later_step; [|apply step_mine].
  eapply later_step; [|apply step_submit].
  eapply later_step; [|apply step_register].
  apply later_now.
Qed.

Lemma later_seal_batch2 :
  later Scenario.ist (Scenario.ledger_of Scenario.seal_batch1)
    (Scenario.ledger_of Scenario.seal_batch2).
Proof.
  unfold Scenario.seal_batch2, Scenario.submit_batch2, Scenario.ledger_of.
  eapply later_step; [|apply step_mine].
  eapply later_step; [|apply step_submit].
  apply later_now.
Qed.

(** X1: whatever calls of [registerNode], [createTransaction] and
    [mineBlock] are made, the chain afterwards is the chain before
    followed by new blocks: the block read at an index stays the block
    read at that index, the chain never gets shorter, and a registered
    identifier stays registered. *)
Theorem X1_chain_is_append_only (utc_offset : Z -> Z) (st st' : Ledger) :
  later utc_offset st st' ->
  (exists more, chain st' = (chain st ++ more)%list)
  /\ (forall i b, chain st !! i = Some b -> chain st' !! i = Some b)
  /\ List.length (chain st) <= List.length (chain st')
  /\ registry_kept st st'.
Proof.
  intros Hlater. destruct (later_effect utc_offset st st' Hlater) as [[more Hchain] Hkept].
  split; [exists more; exact Hchain|]. split; [|split; [|exact Hkept]].
  - intros i b Hb. rewrite Hchain. apply lookup_app_l_Some. exact Hb.
  - rewrite Hchain, List.length_app. lia.
Qed.

Lemma X1_chain_is_append_only_witness :
  (exists more, chain (Scenario.ledger_of Scenario.seal_batch2)
                = (chain (Scenario.ledger_of Scenario.seal_batch1) ++ more)%list)
  /\ (forall i b, chain (Scenario.ledger_of Scenario.seal_batch1) !! i = Some b ->
                  chain (Scenario.ledger_of Scenario.seal_batch2) !! i = Some b)
  /\ List.length (chain (Scenario.ledger_of Scenario.seal_batch1))
     <= List.length (chain (Scenario.ledger_of Scenario.seal_batch2))
  /\ registry_kept (Scenario.ledger_of Scenario.seal_batch1)
       (Scenario.ledger_of Scenario.seal_batch2).
Proof.
  apply (X1_chain_is_append_only Scenario.ist). exact later_seal_batch2.
Defined.

(** ** The shape of every chain *)

(** X2: the first block of every ledger the methods produce is the
    genesis block as the constructor built it: index 0, previous digest
    "0", nonce 0, no miner, the digest of an empty block, and one event
    of kind Genesis from SYSTEM. *)
Theorem X2_genesis_block_stays_first (utc_offset : Z -> Z) (st : Ledger) :
  reachable utc_offset st ->
  exists uuid blockTime txTime,
    chain st !! 0%nat = Some (genesisBlock uuid blockTime txTime)
    /\ getTransactionById st uuid
       = Some (mkTransaction uuid "Genesis"
                 [("message", JStr "Ayurvedic Herb Traceability Blockchain Genesis")]
                 "SYSTEM" txTime "GENESIS_SIGNATURE" None).
Proof.
  intros Hreach.
  destruct (reachable_well_formed utc_offset st Hreach)
    as [(uuid & blockTime & txTime & rest & Hchain & _) _ _].
  exists uuid, blockTime, txTime. split; [now rewrite Hchain|].
  unfold getTransactionById, getAllTransactions. rewrite Hchain. cbn.
  now rewrite String.eqb_refl.
Qed.

Lemma X2_genesis_block_witness :
  exists uuid blockTime txTime,
    chain (Scenario.ledger_of Scenario.seal_batch2) !! 0%nat
    = Some (genesisBlock uuid blockTime txTime)
    /\ getTransactionById (Scenario.ledger_of Scenario.seal_batch2) uuid
       = Some (mkTransaction uuid "Genesis"
                 [("message", JStr "Ayurvedic Herb Traceability Blockchain Genesis")]
                 "SYSTEM" txTime "GENESIS_SIGNATURE" None).
Proof.
  apply (X2_genesis_block_stays_first Scenario.ist). exact reachable_seal_batch2.
Defined.

(** X3: in every ledger the methods produce, the index stored in a block
    is its position in the chain, and so is smaller than the block
    count. *)
Theorem X3_block_index_is_position (utc_offset : Z -> Z) (st : Ledger) (i : nat) (b : Block) :
  reachable utc_offset st ->
  chain st !! i = Some b ->
  block_index b = Z.of_nat i /\ (block_index b < Z.of_nat (List.length (chain st)))%Z.
Proof.
  intros Hreach Hb. destruct (reachable_invariant utc_offset st Hreach) as [_ Hidx _].
  rewrite (Hidx i b Hb). split; [reflexivity|].
  apply lookup_lt_Some in Hb. lia.
Qed.

Lemma X3_block_index_witness :
  block_index Scenario.block2 = Z.of_nat 2
  /\ (block_index Scenario.block2
      < Z.of_nat (List.length (chain (Scenario.ledger_of Scenario.seal_batch2))))%Z.
Proof.
  apply (X3_block_index_is_position Scenario.ist (Scenario.ledger_of Scenario.seal_batch2)).
  - exact reachable_seal_batch2.
  - vm_compute. reflexivity.
Defined.

Lemma sealed_chain_hash g rest i b :
  sealed_chain g rest -> (g :: rest) !! S i = Some b -> block_hash b = calculateHash b.
Proof. intros Hs Hb. now destruct (sealed_chain_lookup g rest i b Hs Hb) as (_ & Hh & _). Qed.

(** X4: every block after genesis, in every ledger the methods produce,
    holds at least one event, has a miner, a nonce of at least 1, and
    stores exactly the digest that [calculateHash] recomputes from it. *)
Theorem X4_sealed_blocks_are_complete (utc_offset : Z -> Z) (st : Ledger) (i : nat)
    (b : Block) :
  reachable utc_offset st ->
  chain st !! S i = Some b ->
  block_transactions b <> []
  /\ (1 <= block_nonce b)%Z
  /\ is_Some (block_minerId b)
  /\ block_hash b = calculateHash b.
Proof.
  intros Hreach Hb.
  destruct (reachable_well_formed utc_offset st Hreach)
    as [(uuid & blockTime & txTime & rest & Hchain & Hrest) _ _].
  destruct (reachable_invariant utc_offset st Hreach) as [(g & rest' & Hchain' & Hsealed) _ _].
  assert (Hb' := Hb). rewrite Hchain in Hb'. cbn in Hb'.
  rewrite Forall_lookup in Hrest. destruct (Hrest i b Hb') as (Hne & Hnonce & Hminer & _).
  repeat split; try assumption.
  rewrite Hchain' in Hb. apply (sealed_chain_hash g rest' i b Hsealed Hb).
Qed.

Lemma X4_sealed_blocks_witness :
  block_transactions Scenario.block2 <> []
  /\ (1 <= block_nonce Scenario.block2)%Z
  /\ is_Some (block_minerId Scenario.block2)
  /\ block_hash Scenario.block2 = calculateHash Scenario.block2.
Proof.
  apply (X4_sealed_blocks_are_complete Scenario.ist
           (Scenario.ledger_of Scenario.seal_batch2) 1).
  - exact reachable_seal_batch2.
  - vm_compute. reflexivity.
Defined.

(** X5: every event in the pool or in a block after genesis, in every
    ledger the methods produce, names a registered node as its
    submitter, carries that node's identifier in its payload, and has a
    validation record that says [valid: true]. *)
Theorem X5_every_event_was_admitted (utc_offset : Z -> Z) (st : Ledger) (tx : Transaction) :
  reachable utc_offset st ->
  (In tx (pendingTransactions st)
   \/ exists i b, chain st !! S i = Some b /\ In tx (block_transactions b)) ->
  is_Some (nodes st !! tx_nodeId tx)
  /\ field "nodeId" (tx_data tx) = JStr (tx_nodeId tx)
  /\ exists cv, tx_contractValidation tx = Some cv /\ approves cv.
Proof.
  intros Hreach Hwhere.
  destruct (reachable_well_formed utc_offset st Hreach)
    as [(uuid & blockTime & txTime & rest & Hchain & Hrest) Hpool _].
  destruct Hwhere as [Hin|(i & b & Hb & Hin)].
  - rewrite List.Forall_forall in Hpool. apply (Hpool tx Hin).
  - rewrite Hchain in Hb. cbn in Hb. rewrite Forall_lookup in Hrest.
    destruct (Hrest i b Hb) as (_ & _ & _ & Hall).
    rewrite List.Forall_forall in Hall. apply (Hall tx Hin).
Qed.

Lemma X5_every_event_witness :
  is_Some (nodes (Scenario.ledger_of Scenario.seal_batch2) !! tx_nodeId Scenario.batch2)
  /\ field "nodeId" (tx_data Scenario.batch2) = JStr (tx_nodeId Scenario.batch2)
  /\ exists cv, tx_contractValidation Scenario.batch2 = Some cv /\ approves cv.
Proof.
  apply (X5_every_event_was_admitted Scenario.ist (Scenario.ledger_of Scenario.seal_batch2)).
  - exact reachable_seal_batch2.
  - right. exists 1%nat, Scenario.block2. split; [vm_compute; reflexivity|].
    vm_compute. left. reflexivity.
Defined.

(** ** Who may submit what *)

(** The capability check, for a node whose capabilities are those of its
    role. *)
Lemma permissions_of_role role type :
  In role allowedTypes ->
  permissions_include (getNodePermissions role) (getRequiredPermission type)
  = Returned (match role_for_kind type with
              | Some r => String.eqb r role
              | None => false
              end).
Proof.
  intros Hrole.
  unfold role_for_kind, getRequiredPermission, literal_get, permissionMap, assoc.
  destruct (String.eqb type "CollectionEvent");
    [cbn in Hrole; intuition (subst; reflexivity)|].
  destruct (String.eqb type "ProcessingStep");
    [cbn in Hrole; intuition (subst; reflexivity)|].
  destruct (String.eqb type "QualityTest");
    [cbn in Hrole; intuition (subst; reflexivity)|].
  destruct (String.eqb type "ManufacturingRecord");
    [cbn in Hrole; intuition (subst; reflexivity)|].
  destruct (String.eqb type "ComplianceReport");
    [cbn in Hrole; intuition (subst; reflexivity)|].
  destruct (existsb (String.eqb type) object_prototype_keys);
    cbn in Hrole; intuition (subst; reflexivity).
Qed.

Section Admission.
Variable utc_offset : Z -> Z.

(** What [createTransaction] does once the node is found active. *)
Lemma createTransaction_of_registered uuid timestamp now nodeId type data st node names :
  nodes st !! nodeId = Some node ->
  node_active node = true ->
  node_permissions node = PermArray names ->
  forall allowed,
    permissions_include (PermArray names) (getRequiredPermission type) = Returned allowed ->
    (allowed = false ->
     createTransaction utc_offset uuid timestamp now nodeId type data st
     = (Thrown (PermissionDenied nodeId type), st))
    /\ (allowed = true ->
        forall e,
          fst (createTransaction utc_offset uuid timestamp now nodeId type data st) = Thrown e ->
          exists cause, e = ContractValidationFailed cause).
Proof.
  intros Hnode Hactive Hperm allowed Hallowed.
  unfold createTransaction, bind, get, put, ret, throw, lift, try_contract.
  rewrite Hnode, Hactive, Hperm, Hallowed. cbn [negb]. split.
  - intros ->. reflexivity.
  - intros ->. cbn [negb].
    match goal with
    | |- context [match ?c with Returned _ => _ | Thrown _ => _ | Unmodelled => _ | OutOfFuel => _ end] =>
        destruct c as [cv|cause| |]
    end; cbn [fst]; intros e He; try discriminate.
    inversion He. eexists. reflexivity.
Qed.

End Admission.

(** X6: on every ledger the methods produce, a submission is turned down
    with "not found or inactive" exactly when the identifier was never
    registered: no registered node is ever inactive. *)
Theorem X6_not_found_means_unregistered (utc_offset : Z -> Z) (uuid : string)
    (timestamp now : Z) (nodeId type : string) (data : Fields) (st : Ledger) :
  reachable utc_offset st ->
  (fst (createTransaction utc_offset uuid timestamp now nodeId type data st)
   = Thrown (NodeNotFoundOrInactive nodeId)
   <-> nodes st !! nodeId = None).
Proof.
  intros Hreach. destruct (reachable_well_formed utc_offset st Hreach) as [_ _ Hnodes].
  split.
  - intros Hrun. destruct (nodes st !! nodeId) as [node|] eqn:Hnode; [exfalso|reflexivity].
    destruct (Hnodes nodeId node Hnode) as (_ & Hactive & Hrole & Hperm).
    destruct (getNodePermissions_array _ (proj2 (List.existsb_exists _ _)
                (ex_intro _ (node_type node) (conj Hrole (String.eqb_refl _)))))
      as [names Hnames].
    rewrite Hnames in Hperm.
    destruct (permissions_include (PermArray names) (getRequiredPermission type))
      as [allowed| | |] eqn:Hallowed; try (cbn in Hallowed; destruct (getRequiredPermission type); discriminate).
    destruct (createTransaction_of_registered utc_offset uuid timestamp now nodeId type data st node names
                Hnode Hactive Hperm allowed Hallowed) as [Hdenied Hpassed].
    destruct allowed.
    + destruct (Hpassed eq_refl _ Hrun) as [cause Hcause]. discriminate.
    + rewrite (Hdenied eq_refl) in Hrun. discriminate.
  - intros Hnone. unfold createTransaction, bind, get, throw. now rewrite Hnone.
Qed.

(** X7: on every ledger the methods produce, the submission of a
    registered node is turned down for lack of permission exactly when
    the node's role is not the role of the kind: farmer for
    CollectionEvent, processor for ProcessingStep, lab for QualityTest,
    manufacturer for ManufacturingRecord, regulator for
    ComplianceReport, nobody for a kind named like a member of
    Object.prototype, and farmer for every other kind. *)
Theorem X7_one_role_per_kind (utc_offset : Z -> Z) (uuid : string)
    (timestamp now : Z) (nodeId type : string) (data : Fields) (st : Ledger) (node : Node) :
  reachable utc_offset st ->
  nodes st !! nodeId = Some node ->
  (fst (createTransaction utc_offset uuid timestamp now nodeId type data st)
   = Thrown (PermissionDenied nodeId type)
   <-> role_for_kind type <> Some (node_type node)).
Proof.
  intros Hreach Hnode. destruct (reachable_well_formed utc_offset st Hreach) as [_ _ Hnodes].
  destruct (Hnodes nodeId node Hnode) as (_ & Hactive & Hrole & Hperm).
  destruct (getNodePermissions_array _ (proj2 (List.existsb_exists _ _)
              (ex_intro _ (node_type node) (conj Hrole (String.eqb_refl _)))))
    as [names Hnames].
  assert (Hcheck := permissions_of_role (node_type node) type Hrole).
  rewrite Hnames in Hcheck. rewrite Hnames in Hperm.
  destruct (createTransaction_of_registered utc_offset uuid timestamp now nodeId type data st node names
              Hnode Hactive Hperm _ Hcheck) as [Hdenied Hpassed].
  destruct (role_for_kind type) as [r|].
  - destruct (String.eqb r (node_type node)) eqn:Hr.
    + apply String.eqb_eq in Hr. subst r. split; [|congruence].
      intros Hrun. destruct (Hpassed eq_refl _ Hrun) as [cause Hcause]. discriminate.
    + apply String.eqb_neq in Hr. split; [congruence|].
      intros _. now rewrite (Hdenied eq_refl).
  - split; [discriminate|]. intros _. now rewrite (Hdenied eq_refl).
Qed.

Lemma X6_not_found_witness :
  fst (createTransaction Scenario.ist "5e0c3b71-9f24-4d86-a1b3-7c6d2e8f0a94" 1793600002000
         1793600002001 "NOBODY" "CollectionEvent" (Scenario.harvest 30)
         (Scenario.ledger_of Scenario.seal_batch2))
  = Thrown (NodeNotFoundOrInactive "NOBODY")
  <-> nodes (Scenario.ledger_of Scenario.seal_batch2) !! "NOBODY" = None.
Proof.
  apply (X6_not_found_means_unregistered Scenario.ist).
  exact reachable_seal_batch2.
Defined.

Lemma X7_one_role_witness :
  fst (createTransaction Scenario.ist "5e0c3b71-9f24-4d86-a1b3-7c6d2e8f0a94" 1793600002000
         1793600002001 "MFR001" "ComplianceReport" [] (Scenario.ledger_of Scenario.seal_batch2))
  = Thrown (PermissionDenied "MFR001" "ComplianceReport")
  <-> role_for_kind "ComplianceReport"
      <> Some (node_type
                 (mkNode "MFR001" "manufacturer" (JStr "pk-mfr-001") (JObj []) 1793600001000
                    true (PermArray ["create_manufacturing_record"; "generate_qr"]))).
Proof.
  apply (X7_one_role_per_kind Scenario.ist).
  - exact reachable_seal_batch2.
  - vm_compute. reflexivity.
Defined.

(** ** Registration, then submission *)

(** X8: a node can submit as soon as it is registered.  On any ledger,
    after [registerNode] with a role of the fixed set, a submission by
    that identifier of a kind of that role, other than the three kinds
    with rules, returns the event and adds it to the pool. *)
Theorem X8_registered_node_submits_at_once (utc_offset : Z -> Z)
    (registeredAt returnedAt : Z) (nodeId role : string) (publicKey metadata : JsVal)
    (uuid : string) (timestamp now : Z) (type : string) (data : Fields) (st : Ledger) :
  In role allowedTypes ->
  role_for_kind type = Some role ->
  type <> "CollectionEvent" -> type <> "ProcessingStep" -> type <> "QualityTest" ->
  let st1 := snd (registerNode registeredAt returnedAt nodeId role publicKey metadata st) in
  exists tx,
    createTransaction utc_offset uuid timestamp now nodeId type data st1
    = (Returned tx, with_pool st1 (pendingTransactions st ++ [tx]))
    /\ tx_contractValidation tx = Some system_approved
    /\ tx_nodeId tx = nodeId.
Proof.
  intros Hrole Hkind Hc Hp Hq st1.
  assert (existsb (String.eqb role) allowedTypes = true) as Hallowed.
  { apply List.existsb_exists. exists role. split; [exact Hrole|apply String.eqb_refl]. }
  assert (nodes st1 !! nodeId
          = Some (mkNode nodeId role publicKey metadata registeredAt true
                    (getNodePermissions role))) as Hnode.
  { subst st1. rewrite registerNode_cases, Hallowed. cbn [snd nodes]. apply lookup_insert_eq. }
  assert (pendingTransactions st1 = pendingTransactions st) as Hpool.
  { subst st1. rewrite registerNode_cases, Hallowed. reflexivity. }
  destruct (createTransaction_without_rules utc_offset uuid timestamp now nodeId type data st1
              _ Hnode eq_refl) as (tx & Hrun & Hcv & _ & _ & Hid); try assumption.
  - cbn [node_permissions]. rewrite (permissions_of_role role type Hrole), Hkind.
    now rewrite String.eqb_refl.
  - exists tx. rewrite <- Hpool. repeat split; assumption.
Qed.

Lemma X8_registered_node_witness :
  let st1 := snd (registerNode 1793600010000 1793600010001 "REG001" "regulator"
                    (JStr "pk-reg-001") (JObj []) Scenario.fresh) in
  exists tx,
    createTransaction Scenario.ist "7b2d9e10-4c3a-4f85-b6e1-8a0c5d3f2e47" 1793600011000
      1793600011001 "REG001" "ComplianceReport" [("finding", JStr "none")] st1
    = (Returned tx, with_pool st1 (pendingTransactions Scenario.fresh ++ [tx]))
    /\ tx_contractValidation tx = Some system_approved
    /\ tx_nodeId tx = "REG001".
Proof.
  apply (X8_registered_node_submits_at_once Scenario.ist 1793600010000 1793600010001
           "REG001" "regulator" (JStr "pk-reg-001") (JObj [])).
  - cbn. tauto.
  - reflexivity.
  - discriminate.
  - discriminate.
  - discriminate.
Defined.

(** ** What is written into an event *)

(** X9: the event that [createTransaction] returns carries, in its
    payload, the submitter's identifier under [nodeId] and the
    submitter's registered role under [nodeType], whatever the caller's
    payload held under those names; every other property of the payload
    is the caller's; and its signature is the digest of its own
    identifier, kind, payload, timestamp and submitter. *)
Theorem X9_payload_is_stamped_with_the_submitter (utc_offset : Z -> Z) (uuid : string)
    (timestamp now : Z) (nodeId type : string) (data : Fields) (st : Ledger)
    (tx : Transaction) (st' : Ledger) :
  createTransaction utc_offset uuid timestamp now nodeId type data st = (Returned tx, st') ->
  exists node,
    nodes st !! nodeId = Some node
    /\ field "nodeId" (tx_data tx) = JStr nodeId
    /\ field "nodeType" (tx_data tx) = JStr (node_type node)
    /\ (forall k, k <> "nodeId" -> k <> "nodeType" -> field k (tx_data tx) = field k data)
    /\ tx_nodeId tx = nodeId
    /\ tx_signature tx
       = signTransaction (tx_id tx) (tx_type tx) (tx_data tx) (tx_timestamp tx) (tx_nodeId tx).
Proof.
  intros Hrun.
  destruct (createTransaction_returned utc_offset _ _ _ _ _ _ _ _ _ Hrun)
    as (node & cv & Hnode & _ & _ & _ & -> & _).
  exists node. cbn [tx_data tx_nodeId tx_signature tx_id tx_type tx_timestamp]. unfold stamped.
  split; [exact Hnode|]. split; [|split; [|split; [|split; reflexivity]]].
  - rewrite field_set_field_ne by discriminate. apply field_set_field_eq.
  - apply field_set_field_eq.
  - intros k Hid Htype. now rewrite !field_set_field_ne.
Qed.

Lemma X9_payload_witness :
  exists node,
    nodes Scenario.with_farmer !! "FARMER001" = Some node
    /\ field "nodeId" (tx_data delivery_30kg)
       = JStr "FARMER001"
    /\ field "nodeType" (tx_data delivery_30kg)
       = JStr (node_type node)
    /\ (forall k, k <> "nodeId" -> k <> "nodeType" ->
          field k (tx_data delivery_30kg)
          = field k (Scenario.harvest 30))
    /\ tx_nodeId delivery_30kg = "FARMER001"
    /\ tx_signature delivery_30kg
       = signTransaction
           (tx_id delivery_30kg)
           (tx_type delivery_30kg)
           (tx_data delivery_30kg)
           (tx_timestamp delivery_30kg)
           (tx_nodeId delivery_30kg).
Proof.
  apply (X9_payload_is_stamped_with_the_submitter Scenario.ist
           "0b8e6d42-7a15-4c93-b1f8-5e2a9c7d3046" 1793600002000 1793600002001 "FARMER001"
           "CollectionEvent" (Scenario.harvest 30) Scenario.with_farmer _
           (Scenario.ledger_of Scenario.submit_30kg)).
  vm_compute. reflexivity.
Defined.

(** ** Reading the chain *)

Lemma getAllTransactions_app st st' more :
  chain st' = (chain st ++ more)%list ->
  getAllTransactions st'
  = (getAllTransactions st ++ List.concat (List.map block_transactions more))%list.
Proof.
  intros Hchain. unfold getAllTransactions.
  now rewrite Hchain, List.map_app, List.concat_app.
Qed.

Lemma find_app_some {A : Type} (f : A -> bool) (l l' : list A) (x : A) :
  List.find f l = Some x -> List.find f (l ++ l') = Some x.
Proof.
  induction l as [|y l IH]; cbn; [discriminate|].
  destruct (f y); [trivial|exact IH].
Qed.

(** X10: what the look-ups have returned they keep returning.  After
    any further calls of the three methods, the look-up by identifier
    returns the same event for an identifier it already found, and the
    batch look-up returns its earlier answer followed by newer events. *)
Theorem X10_sealed_events_stay_retrievable (utc_offset : Z -> Z) (st st' : Ledger) :
  later utc_offset st st' ->
  (forall id tx, getTransactionById st id = Some tx -> getTransactionById st' id = Some tx)
  /\ (forall batchId, exists newer,
         getTransactionsByBatchId st' batchId
         = (getTransactionsByBatchId st batchId ++ newer)%list).
Proof.
  intros Hlater. destruct (later_effect utc_offset st st' Hlater) as [[more Hchain] _].
  pose proof (getAllTransactions_app st st' more Hchain) as Hall. split.
  - intros id tx Hfound. unfold getTransactionById in *. rewrite Hall.
    now apply find_app_some.
  - intros batchId. unfold getTransactionsByBatchId. rewrite Hall, List.filter_app.
    eexists. reflexivity.
Qed.

Lemma X10_sealed_events_witness :
  (forall id tx,
      getTransactionById (Scenario.ledger_of Scenario.seal_batch1) id = Some tx ->
      getTransactionById (Scenario.ledger_of Scenario.seal_batch2) id = Some tx)
  /\ (forall batchId, exists newer,
         getTransactionsByBatchId (Scenario.ledger_of Scenario.seal_batch2) batchId
         = (getTransactionsByBatchId (Scenario.ledger_of Scenario.seal_batch1) batchId
            ++ newer)%list).
Proof.
  apply (X10_sealed_events_stay_retrievable Scenario.ist). exact later_seal_batch2.
Defined.

(** ** Counting *)

Lemma getLatestBlock_snoc st blocks blk :
  chain st = (blocks ++ [blk])%list -> getLatestBlock st = Some blk.
Proof. intros Hchain. unfold getLatestBlock. rewrite Hchain. apply last_snoc. Qed.

(** X11: a seal loses and invents no event.  When [mineBlock] returns,
    the statistics after the call show one more block, as many more
    sealed events as there were pending events, no pending event, the
    same number of nodes, and the time of the seal as the last block
    time. *)
Theorem X11_seal_moves_pending_events_to_the_chain (now : Z) (fuel : nat)
    (minerId : string) (st : Ledger) (blk : Block) (st' : Ledger) :
  mineBlock now fuel minerId st = (Returned blk, st') ->
  exists before after,
    getStats st = Returned before
    /\ getStats st' = Returned after
    /\ totalBlocks after = S (totalBlocks before)
    /\ totalTransactions after
       = totalTransactions before + stats_pendingTransactions before
    /\ 0 < stats_pendingTransactions before
    /\ stats_pendingTransactions after = 0
    /\ totalNodes after = totalNodes before
    /\ lastBlockTime after = now.
Proof.
  rewrite mineBlock_cases.
  destruct (pendingTransactions st) as [|tx pool] eqn:Hpool; [discriminate|].
  destruct (getLatestBlock st) as [latest|] eqn:Hlatest; [|discriminate].
  destruct (proof_of_work _ _ _ _) as [mined| | |]; try discriminate.
  intros Hrun. inversion Hrun; subst blk st'. clear Hrun.
  unfold getStats at 1. rewrite Hlatest.
  unfold getStats.
  erewrite getLatestBlock_snoc by reflexivity.
  eexists _, _. split; [reflexivity|]. split; [reflexivity|].
  cbn [totalBlocks totalTransactions totalNodes stats_pendingTransactions lastBlockTime
       chain pendingTransactions nodes block_timestamp].
  rewrite getAllTransactions_snoc, !List.length_app, Hpool.
  cbn [block_transactions List.length].
  unfold getAllTransactions. cbn [chain].
  repeat split; lia.
Qed.

Lemma X11_seal_witness :
  exists before after,
    getStats (Scenario.ledger_of Scenario.submit_batch1) = Returned before
    /\ getStats (Scenario.ledger_of Scenario.seal_batch1) = Returned after
    /\ totalBlocks after = S (totalBlocks before)
    /\ totalTransactions after
       = totalTransactions before + stats_pendingTransactions before
    /\ 0 < stats_pendingTransactions before
    /\ stats_pendingTransactions after = 0
    /\ totalNodes after = totalNodes before
    /\ lastBlockTime after = 1793600005022%Z.
Proof.
  apply (X11_seal_moves_pending_events_to_the_chain 1793600005022 4 "SYSTEM_MINER"
           (Scenario.ledger_of Scenario.submit_batch1) Scenario.block1
           (Scenario.ledger_of Scenario.seal_batch1)).
  vm_compute. reflexivity.
Defined.

Lemma at_least_one_event_per_block (blocks : list Block) :
  Forall (fun b => block_transactions b <> []) blocks ->
  List.length blocks <= List.length (List.concat (List.map block_transactions blocks)).
Proof.
  induction 1 as [|b blocks Hb _ IH]; cbn; [lia|].
  rewrite List.length_app. destruct (block_transactions b); [congruence|]. cbn. lia.
Qed.

(** X12: on every ledger the methods produce, [getStats] returns (it
    does not throw), reports the chain as valid, counts at least the
    genesis block, and counts at least one sealed event per block. *)
Theorem X12_statistics_of_a_produced_ledger (utc_offset : Z -> Z) (st : Ledger) :
  reachable utc_offset st ->
  exists stats,
    getStats st = Returned stats
    /\ isValid stats = true
    /\ totalBlocks stats = List.length (chain st)
    /\ 1 <= totalBlocks stats <= totalTransactions stats
    /\ stats_pendingTransactions stats = List.length (pendingTransactions st)
    /\ totalNodes stats = size (nodes st).
Proof.
  intros Hreach.
  destruct (reachable_well_formed utc_offset st Hreach)
    as [(uuid & blockTime & txTime & rest & Hchain & Hrest) _ _].
  destruct (reachable_invariant utc_offset st Hreach) as [(g & rest' & Hchain' & Hsealed) _ _].
  unfold getStats, getLatestBlock.
  destruct (last_cons_some g rest') as [latest Hlatest]. rewrite Hchain', Hlatest.
  eexists. split; [reflexivity|].
  cbn [isValid totalBlocks totalTransactions stats_pendingTransactions totalNodes].
  split; [unfold isChainValid; rewrite Hchain'; now apply sealed_chain_valid|].
  rewrite <- Hchain'. split; [reflexivity|]. split; [|split; reflexivity].
  split; [rewrite Hchain; cbn; lia|].
  unfold getAllTransactions. apply at_least_one_event_per_block.
  rewrite Hchain. constructor; [discriminate|].
  eapply Forall_impl; [exact Hrest|]. intros b Hb. apply Hb.
Qed.

Lemma X12_statistics_witness :
  exists stats,
    getStats (Scenario.ledger_of Scenario.seal_batch2) = Returned stats
    /\ isValid stats = true
    /\ totalBlocks stats = List.length (chain (Scenario.ledger_of Scenario.seal_batch2))
    /\ 1 <= totalBlocks stats <= totalTransactions stats
    /\ stats_pendingTransactions stats
       = List.length (pendingTransactions (Scenario.ledger_of Scenario.seal_batch2))
    /\ totalNodes stats = size (nodes (Scenario.ledger_of Scenario.seal_batch2)).
Proof.
  apply (X12_statistics_of_a_produced_ledger Scenario.ist). exact reachable_seal_batch2.
Defined.

(** ** The proof of work *)

(** X13: the block that [mineBlock] returns carries the smallest nonce,
    counted from 1, for which the digest of the block starts with the
    required zeros: its stored digest is the digest recomputed from it,
    it starts with [difficulty] zeros, and with any smaller nonce of at
    least 1 the digest of the same block does not. *)
Theorem X13_seal_finds_the_first_nonce (now : Z) (fuel : nat) (minerId : string)
    (st : Ledger) (blk : Block) (st' : Ledger) :
  mineBlock now fuel minerId st = (Returned blk, st') ->
  (1 <= block_nonce blk)%Z
  /\ block_hash blk = calculateHash blk
  /\ leading_zeros difficulty (block_hash blk) = true
  /\ forall k, (1 <= k < block_nonce blk)%Z ->
       leading_zeros difficulty (calculateHash (set_nonce blk k)) = false.
Proof.
  rewrite mineBlock_cases.
  destruct (pendingTransactions st) as [|tx pool]; [discriminate|].
  destruct (getLatestBlock st) as [latest|]; [|discriminate].
  destruct (proof_of_work _ _ _ _) as [[nonce h]| | |] eqn:Hpow; try discriminate.
  intros Hrun. inversion Hrun; subst blk st'. clear Hrun.
  apply proof_of_work_first in Hpow. destruct Hpow as (Hnonce & Hhash & Hdone & Hbefore).
  cbn [fst snd block_nonce block_hash]. split; [exact Hnonce|]. split; [exact Hhash|].
  split.
  - unfold needs_more_work in Hdone. unfold leading_zeros. now destruct (String.eqb _ _).
  - intros k Hk. specialize (Hbefore k Hk). unfold needs_more_work in Hbefore.
    unfold leading_zeros, calculateHash. cbn.
    now destruct (String.eqb _ _).
Qed.

Lemma X13_seal_witness :
  (1 <= block_nonce block1_late)%Z
  /\ block_hash block1_late = calculateHash block1_late
  /\ leading_zeros difficulty (block_hash block1_late) = true
  /\ forall k, (1 <= k < block_nonce block1_late)%Z ->
       leading_zeros difficulty (calculateHash (set_nonce block1_late k)) = false.
Proof.
  apply (X13_seal_finds_the_first_nonce 1793600005378 6 "SYSTEM_MINER"
           (Scenario.ledger_of Scenario.submit_batch1) block1_late
           (snd seal_batch1_late)).
  vm_compute. reflexivity.
Defined.

(** Sealed at that time, the block needs three nonces. *)
Example first_nonce_of_the_late_seal :
  block_nonce block1_late = 3%Z
  /\ block_hash block1_late
     = "006981db449ac9aee5bc29b3e88564276b026d6bd08b1dd82f4539c3d2e42dd5".
Proof. vm_compute. split; reflexivity. Qed.

(** ** What validation does not look at *)

Lemma link_ok_view p c p' c' :
  validated_view p = validated_view p' -> validated_view c = validated_view c' ->
  link_ok p c = link_ok p' c'.
Proof.
  unfold validated_view, link_ok. intros Hp Hc. inversion Hp. inversion Hc. congruence.
Qed.

Lemma links_valid_view g g' rest rest' :
  validated_view g = validated_view g' ->
  List.map validated_view rest = List.map validated_view rest' ->
  links_valid g rest = links_valid g' rest'.
Proof.
  revert g g' rest'. induction rest as [|c rest IH]; intros g g' [|c' rest'] Hg Hrest;
    try discriminate; [reflexivity|].
  cbn [List.map] in Hrest.
  pose proof (f_equal (List.hd (validated_view c)) Hrest) as Hc.
  pose proof (f_equal (@List.tl _) Hrest) as Hrest'. cbn [List.hd List.tl] in Hc, Hrest'.
  rewrite !links_valid_cons, (link_ok_view g c g' c' Hg Hc), (IH c c' rest' Hc Hrest').
  reflexivity.
Qed.

(** [isChainValid] is a function of the stored digest, the stored
    previous digest and the recomputed digest of each block. *)
Lemma isChainValid_view st st' :
  List.map validated_view (chain st) = List.map validated_view (chain st') ->
  isChainValid st = isChainValid st'.
Proof.
  unfold isChainValid. destruct (chain st) as [|g rest], (chain st') as [|g' rest'];
    try discriminate; [reflexivity|].
  cbn [List.map]. intros Hview.
  pose proof (f_equal (List.hd (validated_view g)) Hview) as Hg.
  pose proof (f_equal (@List.tl _) Hview) as Hrest. cbn [List.hd List.tl] in Hg, Hrest.
  now apply links_valid_view.
Qed.

Lemma tamper_same_view st i b b' :
  chain st !! i = Some b -> validated_view b' = validated_view b ->
  isChainValid (tamper st i b') = isChainValid st.
Proof.
  intros Hb Hview. apply isChainValid_view. cbn [tamper with_chain chain].
  rewrite list_fmap_insert, Hview. apply list_insert_id.
  now rewrite list_lookup_fmap, Hb.
Qed.

(** X14: validation does not cover the miner.  Replacing the [minerId]
    of any block of any chain by any other value leaves the answer of
    [isChainValid] as it was. *)
Theorem X14_validation_ignores_the_miner (st : Ledger) (i : nat) (b : Block)
    (minerId : option string) :
  chain st !! i = Some b ->
  isChainValid (tamper st i (set_minerId b minerId)) = isChainValid st.
Proof. intros Hb. now apply (tamper_same_view st i b). Qed.

Lemma X14_validation_ignores_the_miner_witness :
  isChainValid
    (tamper (Scenario.ledger_of Scenario.seal_batch1) 1
       (set_minerId Scenario.block1 (Some "SOMEONE_ELSE")))
  = isChainValid (Scenario.ledger_of Scenario.seal_batch1).
Proof.
  apply (X14_validation_ignores_the_miner (Scenario.ledger_of Scenario.seal_batch1) 1
           Scenario.block1 (Some "SOMEONE_ELSE")).
  vm_compute. reflexivity.
Defined.




Lemma links_valid_first_hash g g' rest :
  block_hash g' = block_hash g -> links_valid g' rest = links_valid g rest.
Proof.
  intros Hhash. destruct rest as [|c rest]; [reflexivity|].
  rewrite !links_valid_cons. unfold link_ok. now rewrite Hhash.
Qed.

(** X16: validation never recomputes the first block.  Replacing the
    first block of any chain by any block with the same stored digest
    (other events, another timestamp, another previous digest) leaves
    the answer of [isChainValid] as it was. *)
Theorem X16_validation_skips_the_first_block (st : Ledger) (first first' : Block) :
  chain st !! 0%nat = Some first ->
  block_hash first' = block_hash first ->
  isChainValid (tamper st 0 first') = isChainValid st.
Proof.
  intros Hfirst Hhash. unfold isChainValid, tamper, with_chain. cbn [chain].
  destruct (chain st) as [|g rest]; [discriminate|].
  cbn in Hfirst. inversion Hfirst; subst g. cbn. now apply links_valid_first_hash.
Qed.

Lemma X16_validation_witness :
  isChainValid
    (tamper (Scenario.ledger_of Scenario.seal_batch1) 0
       (set_previousHash
          (set_transactions
             (genesisBlock "6f1c2a9e-3b7d-4c58-9a41-0d2e8b5f7c13" 1793600000000 1793600000000)
             [])
          "ffff"))
  = isChainValid (Scenario.ledger_of Scenario.seal_batch1).
Proof.
  apply (X16_validation_skips_the_first_block (Scenario.ledger_of Scenario.seal_batch1)
           (genesisBlock "6f1c2a9e-3b7d-4c58-9a41-0d2e8b5f7c13" 1793600000000 1793600000000)).
  - vm_compute. reflexivity.
  - reflexivity.
Defined.

(** ** The rules of a collection event *)

Lemma geoFencing_own key rules :
  literal_get SmartContract.geoFencing key = Own rules -> key = "ashwagandha".
Proof.
  unfold literal_get, SmartContract.geoFencing, assoc.
  destruct (String.eqb key "ashwagandha") eqn:Hkey; [intros _; now apply String.eqb_eq|].
  destruct (existsb _ _); discriminate.
Qed.

Lemma validateGeoFencing_true species gps :
  SmartContract.validateGeoFencing species gps = Returned true ->
  to_key species = Returned "ashwagandha".
Proof.
  unfold SmartContract.validateGeoFencing. intros H.
  apply obind_returned in H. destruct H as (key & Hkey & H).
  destruct (literal_get SmartContract.geoFencing key) as [rules| |] eqn:Hget;
    try discriminate.
  now rewrite (geoFencing_own key rules Hget) in Hkey.
Qed.

Lemma validateDailyLimit_undefined utc_offset now farmerId species existing :
  SmartContract.validateDailyLimit utc_offset now farmerId species JUndefined existing
  <> Returned true.
Proof.
  unfold SmartContract.validateDailyLimit. intros H.
  apply obind_returned in H. destruct H as (key & _ & H).
  destruct (literal_get SmartContract.dailyLimits key) as [[[|d|d] p]|k|]; try discriminate;
    apply obind_returned in H; destruct H as (total & _ & H); cbn in H;
    destruct total; discriminate.
Qed.

Lemma executeCollectionEvent_returned utc_offset now tx existing cv :
  SmartContract.executeCollectionEvent utc_offset now tx existing = Returned cv ->
  to_key (field "species" (tx_data tx)) = Returned "ashwagandha"
  /\ field "quantity" (tx_data tx) <> JUndefined.
Proof.
  unfold SmartContract.executeCollectionEvent. intros H.
  apply obind_returned in H. destruct H as ([|] & Hgeo & H); cbn [negb] in H;
    [|invert_run H].
  split; [now apply validateGeoFencing_true in Hgeo|].
  apply obind_returned in H. destruct H as ([|] & _ & H); cbn [negb] in H; [|discriminate].
  apply obind_returned in H. destruct H as ([|] & Hlimit & H); cbn [negb] in H;
    [|discriminate].
  intros Hquantity. rewrite Hquantity in Hlimit.
  now apply validateDailyLimit_undefined in Hlimit.
Qed.

(** X17: only ashwagandha is ever collected, and never without a
    quantity.  When a CollectionEvent is admitted, the species of the
    payload is the property key "ashwagandha" (tulsi and neem have
    seasons and daily limits but no zone, so they are always refused)
    and the payload has a quantity. *)
Theorem X17_admitted_collections_are_ashwagandha (utc_offset : Z -> Z) (uuid : string)
    (timestamp now : Z) (nodeId : string) (data : Fields) (st : Ledger)
    (tx : Transaction) (st' : Ledger) :
  createTransaction utc_offset uuid timestamp now nodeId "CollectionEvent" data st
  = (Returned tx, st') ->
  to_key (field "species" data) = Returned "ashwagandha"
  /\ field "quantity" data <> JUndefined.
Proof.
  unfold createTransaction, bind, get, put, ret, throw, lift, try_contract.
  destruct (nodes st !! nodeId) as [node|]; [|discriminate].
  destruct (node_active node); cbn [negb]; [|discriminate].
  destruct (permissions_include _ _) as [[|]| | |]; cbn [negb]; try discriminate.
  change (String.eqb "CollectionEvent" "CollectionEvent") with true. cbv iota.
  destruct (SmartContract.executeCollectionEvent _ _ _ _) as [cv| | |] eqn:Hrun;
    try discriminate.
  intros _. apply executeCollectionEvent_returned in Hrun.
  cbn [tx_data] in Hrun. fold (stamped nodeId node data) in Hrun. unfold stamped in Hrun.
  now rewrite !field_set_field_ne in Hrun by discriminate.
Qed.

Lemma X17_admitted_collections_witness :
  to_key (field "species" (Scenario.harvest 30)) = Returned "ashwagandha"
  /\ field "quantity" (Scenario.harvest 30) <> JUndefined.
Proof.
  apply (X17_admitted_collections_are_ashwagandha Scenario.ist
           "0b8e6d42-7a15-4c93-b1f8-5e2a9c7d3046" 1793600002000 1793600002001 "FARMER001"
           (Scenario.harvest 30) Scenario.with_farmer delivery_30kg
           (Scenario.ledger_of Scenario.submit_30kg)).
  vm_compute. reflexivity.
Defined.

(** X18: for coordinates that are numbers, the zone check of
    ashwagandha passes exactly when the point lies in the box of
    Rajasthan, of Madhya Pradesh or of Gujarat, bounds included. *)
Theorem X18_zone_check_is_the_union_of_the_boxes (gps : Fields) (lat lng : Num) :
  field "latitude" gps = JNum lat ->
  field "longitude" gps = JNum lng ->
  SmartContract.validateGeoFencing (JStr "ashwagandha") (JObj gps)
  = Returned
      (inside_box lat lng
         (SmartContract.mkGeoRule "Rajasthan" (num_of_Z 24) (num_of_Z 30) (num_of_Z 69)
            (num_of_Z 78))
       || inside_box lat lng
            (SmartContract.mkGeoRule "Madhya Pradesh" (num_of_Z 21) (num_of_Z 26)
               (num_of_Z 74) (num_of_Z 82))
       || inside_box lat lng
            (SmartContract.mkGeoRule "Gujarat" (num_of_Z 20) (num_of_Z 25) (num_of_Z 68)
               (num_of_Z 75))).
Proof.
  intros Hlat Hlng.
  unfold SmartContract.validateGeoFencing, SmartContract.in_bounds, SmartContract.and_then,
    inside_box, js_ge, js_le.
  cbn -[num_leb]. rewrite Hlat, Hlng. cbn -[num_leb].
  repeat match goal with
         | |- context [num_leb ?a ?b] => destruct (num_leb a b); cbn -[num_leb]
         end; reflexivity.
Qed.

Lemma X18_zone_check_witness :
  SmartContract.validateGeoFencing (JStr "ashwagandha")
    (JObj [("latitude", JNum (mkNum 286139 4)); ("longitude", JNum (mkNum 772090 4));
           ("accuracy", JInt 5)])
  = Returned
      (inside_box (mkNum 286139 4) (mkNum 772090 4)
         (SmartContract.mkGeoRule "Rajasthan" (num_of_Z 24) (num_of_Z 30) (num_of_Z 69)
            (num_of_Z 78))
       || inside_box (mkNum 286139 4) (mkNum 772090 4)
            (SmartContract.mkGeoRule "Madhya Pradesh" (num_of_Z 21) (num_of_Z 26)
               (num_of_Z 74) (num_of_Z 82))
       || inside_box (mkNum 286139 4) (mkNum 772090 4)
            (SmartContract.mkGeoRule "Gujarat" (num_of_Z 20) (num_of_Z 25) (num_of_Z 68)
               (num_of_Z 75))).
Proof.
  apply (X18_zone_check_is_the_union_of_the_boxes
           [("latitude", JNum (mkNum 286139 4)); ("longitude", JNum (mkNum 772090 4));
            ("accuracy", JInt 5)]);
    reflexivity.
Defined.

(** The point that the demonstration labels "Delhi - outside geo-fence"
    (28.6139 N, 77.2090 E) lies in the box registered for Rajasthan. *)
Example delhi_is_inside_the_rajasthan_box :
  SmartContract.validateGeoFencing (JStr "ashwagandha")
    (JObj [("latitude", JNum (mkNum 286139 4)); ("longitude", JNum (mkNum 772090 4));
           ("accuracy", JInt 5)])
  = Returned true.
Proof. vm_compute. reflexivity. Qed.

(** X19: the daily limit counts only the same farmer's collections of
    the same species on the same local day.  An event of the history
    that the filter rejects (another kind, farmer, species or day) can be
    removed from the history without changing the answer. *)
Theorem X19_daily_limit_ignores_unrelated_events (utc_offset : Z -> Z) (now : Z)
    (farmerId species quantity : JsVal) (before after : list Transaction)
    (tx : Transaction) :
  SmartContract.same_day_collection utc_offset (JsDate.toDateString utc_offset now)
    farmerId species tx = false ->
  SmartContract.validateDailyLimit utc_offset now farmerId species quantity
    (before ++ tx :: after)
  = SmartContract.validateDailyLimit utc_offset now farmerId species quantity
      (before ++ after).
Proof.
  intros Hother. unfold SmartContract.validateDailyLimit.
  rewrite !List.filter_app. cbn [List.filter]. rewrite Hother. reflexivity.
Qed.

Lemma X19_daily_limit_witness :
  SmartContract.validateDailyLimit Scenario.ist 1793600009001 (JStr "FARMER001")
    (JStr "ashwagandha") (JInt 25) ([delivery_30kg] ++ Scenario.batch1 :: [])
  = SmartContract.validateDailyLimit Scenario.ist 1793600009001 (JStr "FARMER001")
      (JStr "ashwagandha") (JInt 25) ([delivery_30kg] ++ []).
Proof.
  apply (X19_daily_limit_ignores_unrelated_events Scenario.ist 1793600009001
           (JStr "FARMER001") (JStr "ashwagandha") (JInt 25) [delivery_30kg] []
           Scenario.batch1).
  vm_compute. reflexivity.
Defined.

(** ** The batch a step refers to *)

Lemma genesis_mentions_undefined st uuid blockTime txTime rest :
  chain st = genesisBlock uuid blockTime txTime :: rest ->
  existsb (mentions_batch JUndefined) (getAllTransactions st) = true.
Proof. intros Hchain. unfold getAllTransactions. rewrite Hchain. reflexivity. Qed.

(** X20: a step that names no batch passes the batch check.  On every
    ledger the methods produce, a ProcessingStep or a QualityTest whose
    payload has no [batchId] is not refused for an unknown batch: the
    genesis event has no [batchId] either, and undefined equals
    undefined. *)
Theorem X20_missing_batch_id_passes_the_batch_check (utc_offset : Z -> Z) (st : Ledger)
    (tx : Transaction) :
  reachable utc_offset st ->
  field "batchId" (tx_data tx) = JUndefined ->
  SmartContract.executeProcessingStep tx (getAllTransactions st)
  <> Thrown ProcessingBatchNotFound
  /\ SmartContract.executeQualityTest tx (getAllTransactions st)
     <> Thrown QualityBatchNotFound.
Proof.
  intros Hreach Hbatch.
  destruct (reachable_well_formed utc_offset st Hreach)
    as [(uuid & blockTime & txTime & rest & Hchain & _) _ _].
  pose proof (genesis_mentions_undefined st uuid blockTime txTime rest Hchain) as Hexists.
  unfold SmartContract.executeProcessingStep, SmartContract.executeQualityTest.
  rewrite Hbatch, Hexists. cbn [negb]. split.
  - unfold SmartContract.and_then, get_prop, js_gt, js_lt, to_numv. cbn [obind].
    destruct (strict_eq (field "processingType" (tx_data tx)) (JStr "drying"));
      destruct (strict_eq (field "processingType" (tx_data tx)) (JStr "grinding"));
      destruct (field "conditions" (tx_data tx)) as [| | | | | |conditions];
      cbn [obind]; try discriminate;
      try (destruct (field "temperature" conditions) as [| |[|]| | | |]);
      try (destruct (field "meshSize" conditions) as [| |[|]| | | |]);
      cbn [obind]; try discriminate;
      repeat match goal with
             | |- context [if ?b then _ else _] => destruct b; cbn [obind]
             end; discriminate.
  - destruct (negb _); discriminate.
Qed.

Lemma X20_missing_batch_id_witness :
  SmartContract.executeProcessingStep
    (mkTransaction "u" "ProcessingStep" [("processingType", JStr "washing")] "P1" 0 "" None)
    (getAllTransactions Scenario.fresh)
  <> Thrown ProcessingBatchNotFound
  /\ SmartContract.executeQualityTest
       (mkTransaction "u" "ProcessingStep" [("processingType", JStr "washing")] "P1" 0 ""
          None)
       (getAllTransactions Scenario.fresh)
     <> Thrown QualityBatchNotFound.
Proof.
  apply (X20_missing_batch_id_passes_the_batch_check Scenario.ist Scenario.fresh).
  - apply reach_new.
  - reflexivity.
Defined.

(** X21: once the batch is known, a processing step is refused only for
    drying above 60 degrees or grinding below mesh 80.  With numeric
    readings, drying throws exactly when the temperature exceeds 60 and
    grinding exactly when the mesh size is under 80; a step of any other
    processing type returns, whatever its conditions, even none. *)
Theorem X21_processing_conditions (tx : Transaction) (existing : list Transaction) :
  existsb (mentions_batch (field "batchId" (tx_data tx))) existing = true ->
  (forall conditions temperature,
      field "processingType" (tx_data tx) = JStr "drying" ->
      field "conditions" (tx_data tx) = JObj conditions ->
      field "temperature" conditions = JNum temperature ->
      (SmartContract.executeProcessingStep tx existing = Thrown DryingTooHot
       <-> num_ltb (num_of_Z 60) temperature = true)
      /\ (is_returned_pure (SmartContract.executeProcessingStep tx existing) = true
          <-> num_ltb (num_of_Z 60) temperature = false))
  /\ (forall conditions meshSize,
         field "processingType" (tx_data tx) = JStr "grinding" ->
         field "conditions" (tx_data tx) = JObj conditions ->
         field "meshSize" conditions = JNum meshSize ->
         (SmartContract.executeProcessingStep tx existing = Thrown MeshTooCoarse
          <-> num_ltb meshSize (num_of_Z 80) = true)
         /\ (is_returned_pure (SmartContract.executeProcessingStep tx existing) = true
             <-> num_ltb meshSize (num_of_Z 80) = false))
  /\ (strict_eq (field "processingType" (tx_data tx)) (JStr "drying") = false ->
      strict_eq (field "processingType" (tx_data tx)) (JStr "grinding") = false ->
      is_returned_pure (SmartContract.executeProcessingStep tx existing) = true).
Proof.
  intros Hbatch. unfold SmartContract.executeProcessingStep, SmartContract.and_then.
  rewrite Hbatch. cbn [negb]. split; [|split].
  - intros conditions temperature Htype Hcond Htemp. rewrite Htype, Hcond.
    cbn -[num_ltb field]. rewrite Htemp. cbn -[num_ltb].
    destruct (num_ltb (num_of_Z 60) temperature); cbn; split; split;
      congruence || discriminate || reflexivity.
  - intros conditions meshSize Htype Hcond Hmesh. rewrite Htype, Hcond.
    cbn -[num_ltb field]. rewrite Hmesh. cbn -[num_ltb].
    destruct (num_ltb meshSize (num_of_Z 80)); cbn; split; split;
      congruence || discriminate || reflexivity.
  - intros -> ->. reflexivity.
Qed.

Lemma X21_processing_conditions_witness :
  is_returned_pure
    (SmartContract.executeProcessingStep
       (mkTransaction "u" "ProcessingStep"
          [("batchId", JStr "a3d94c1e-52b7-4f0a-8e66-1c9b7d2f4a05");
           ("processingType", JStr "washing")] "P1" 0 "" None)
       (getAllTransactions (Scenario.ledger_of Scenario.seal_batch1))) = true.
Proof.
  apply (X21_processing_conditions
           (mkTransaction "u" "ProcessingStep"
              [("batchId", JStr "a3d94c1e-52b7-4f0a-8e66-1c9b7d2f4a05");
               ("processingType", JStr "washing")] "P1" 0 "" None)
           (getAllTransactions (Scenario.ledger_of Scenario.seal_batch1))).
  - vm_compute. reflexivity.
  - reflexivity.
  - reflexivity.
Defined.

(** X22: a quality test is admitted by the contract exactly when some
    recorded event mentions its batch and the [labId] of its payload is
    one of LAB001, LAB002 and LAB003; the node that submits the test
    plays no part in the decision. *)
Theorem X22_quality_test_decision (tx : Transaction) (existing : list Transaction) :
  is_returned_pure (SmartContract.executeQualityTest tx existing) = true
  <-> existsb (mentions_batch (field "batchId" (tx_data tx))) existing = true
      /\ exists lab, In lab SmartContract.certifiedLabs
                     /\ field "labId" (tx_data tx) = JStr lab.
Proof.
  unfold SmartContract.executeQualityTest.
  destruct (existsb (mentions_batch _) existing); cbn [negb];
    [|cbn; split; [discriminate|intros [H _]; discriminate]].
  destruct (existsb _ SmartContract.certifiedLabs) eqn:Hlab; cbn [negb is_returned_pure].
  - split; [|reflexivity]. intros _. split; [reflexivity|].
    apply List.existsb_exists in Hlab. destruct Hlab as (lab & Hin & Heq).
    exists lab. split; [exact Hin|].
    destruct (field "labId" (tx_data tx)); cbn in Heq; try discriminate.
    apply String.eqb_eq in Heq. now subst.
  - split; [discriminate|]. intros (_ & lab & Hin & Hfield). exfalso.
    assert (existsb (fun lab0 => strict_eq (JStr lab0) (field "labId" (tx_data tx)))
              SmartContract.certifiedLabs = true) as Hyes.
    { apply List.existsb_exists. exists lab. split; [exact Hin|].
      rewrite Hfield. cbn. apply String.eqb_refl. }
    congruence.
Qed.

(** ** The rate limiter *)
Section Limiter.
Import RateLimit.
Variables maxRequests windowMs : Z.

Lemma requests_of_insert limits key key' requests :
  requests_of (<[key := requests]> limits) key'
  = if String.eqb key key' then requests else requests_of limits key'.
Proof.
  unfold requests_of. rewrite lookup_insert. case_decide as Hkey.
  - subst. now rewrite String.eqb_refl.
  - apply String.eqb_neq in Hkey. now rewrite Hkey.
Qed.

(** One request: the verdict, and the array of every key afterwards. *)
Lemma rateLimit_spec req limits key :
  let valid := still_valid windowMs (req_now req) (requests_of limits (key_of req)) in
  let full := (maxRequests <=? Z.of_nat (List.length valid))%Z in
  fst (rateLimit maxRequests windowMs req limits) = (if full then TooManyRequests else Next)
  /\ requests_of (snd (rateLimit maxRequests windowMs req limits)) key
     = if String.eqb (key_of req) key
       then (if full then valid else valid ++ [req_now req])%list
       else requests_of limits key.
Proof.
  cbn zeta. unfold rateLimit, still_valid.
  assert (forall k,
             requests_of (match limits !! key_of req with
                          | Some _ => limits
                          | None => <[key_of req := []]> limits
                          end) k = requests_of limits k) as Hsame.
  { intros k. destruct (limits !! key_of req) eqn:Hfound; [reflexivity|].
    rewrite requests_of_insert. destruct (String.eqb (key_of req) k) eqn:Hk; [|reflexivity].
    apply String.eqb_eq in Hk. subst k. unfold requests_of. now rewrite Hfound. }
  rewrite Hsame.
  destruct (maxRequests <=? _)%Z; cbn [fst snd]; (split; [reflexivity|]);
    rewrite !requests_of_insert, ?Hsame; destruct (String.eqb (key_of req) key); reflexivity.
Qed.

Lemma filter_after_filter (c now : Z) (l : list Z) :
  (now - windowMs <= c)%Z ->
  List.filter (fun t => (c <? t)%Z) (still_valid windowMs now l) = List.filter (fun t => (c <? t)%Z) l.
Proof.
  intros Hc. unfold still_valid. induction l as [|t l IH]; [reflexivity|]. cbn.
  destruct (now - windowMs <? t)%Z eqn:Hvalid; cbn; [now rewrite IH|].
  destruct (c <? t)%Z eqn:Hct; [lia|exact IH].
Qed.

Lemma admitted_times_app key log log' :
  admitted_times key (log ++ log') = (admitted_times key log ++ admitted_times key log')%list.
Proof. unfold admitted_times. now rewrite List.filter_app, List.map_app. Qed.

Lemma length_still_valid now l : List.length (still_valid windowMs now l) <= List.length l.
Proof. unfold still_valid. apply List.filter_length_le. Qed.

Lemma tracks_request limits log clock req :
  tracks maxRequests windowMs limits log clock ->
  (clock <= req_now req)%Z ->
  tracks maxRequests windowMs (snd (rateLimit maxRequests windowMs req limits))
    (log ++ [(req, fst (rateLimit maxRequests windowMs req limits))]) (req_now req).
Proof.
  intros Htracks Hclock key. destruct (Htracks key) as [Hlen Hsame].
  destruct (rateLimit_spec req limits key) as [Hverdict Hstored].
  rewrite Hstored, Hverdict, admitted_times_app. unfold admitted_times at 2.
  cbn [List.filter List.map fst snd].
  destruct (String.eqb (key_of req) key) eqn:Hkey.
  - apply String.eqb_eq in Hkey. subst key.
    pose proof (length_still_valid (req_now req) (requests_of limits (key_of req))) as Hle.
    destruct (maxRequests <=? _)%Z eqn:Hfull; cbn [andb List.filter List.map].
    + split; [lia|]. intros c Hc. rewrite List.app_nil_r, filter_after_filter by exact Hc.
      apply Hsame. lia.
    + split; [rewrite List.length_app; cbn; lia|]. intros c Hc.
      rewrite !List.filter_app, filter_after_filter by exact Hc.
      f_equal. apply Hsame. lia.
  - cbn [andb List.filter List.map]. rewrite List.app_nil_r. split; [exact Hlen|].
    intros c Hc. apply Hsame. lia.
Qed.

Lemma tracks_serve reqs : forall limits log clock served limits',
  tracks maxRequests windowMs limits log clock ->
  clock_ordered clock reqs ->
  serve maxRequests windowMs reqs limits = (served, limits') ->
  tracks maxRequests windowMs limits' (log ++ served) (last_clock clock reqs).
Proof.
  induction reqs as [|req rest IH]; intros limits log clock served limits' Htracks Hclock Hrun.
  - cbn in Hrun. inversion Hrun; subst. now rewrite List.app_nil_r.
  - cbn [serve] in Hrun. destruct Hclock as [Hnow Hrest].
    pose proof (tracks_request limits log clock req Htracks Hnow) as Hstep.
    destruct (rateLimit maxRequests windowMs req limits) as [verdict limits1].
    destruct (serve maxRequests windowMs rest limits1) as [served' limits2] eqn:Hserve.
    inversion Hrun; subst served limits'. clear Hrun. cbn [fst snd] in Hstep.
    pose proof (IH _ _ _ _ _ Hstep Hrest Hserve) as Hend.
    rewrite <- List.app_assoc in Hend. exact Hend.
Qed.

Lemma last_clock_snoc clock earlier last :
  last_clock clock (earlier ++ [last]) = req_now last.
Proof. revert clock. induction earlier as [|r earlier IH]; intros clock; cbn; auto. Qed.

Lemma tracks_empty clock : tracks maxRequests windowMs ∅ [] clock.
Proof.
  intros key. unfold requests_of. rewrite lookup_empty. cbn. split; [lia|reflexivity].
Qed.

End Limiter.

(** X23: with a clock that never goes back, the limiter lets through
    at most [maxRequests] requests of a key per window.  After any run
    of requests from an empty table, the requests of any one key that
    were let through later than [windowMs] before the last request
    number at most [maxRequests] (none when [maxRequests] is negative);
    the bound holds at every moment, a prefix of a run being a run. *)
Theorem X23_rate_limit_bounds_every_window (maxRequests windowMs start : Z)
    (earlier : list RateLimit.Request) (last : RateLimit.Request)
    (log : list (RateLimit.Request * RateLimit.Verdict)) (limits : RateLimit.Limits)
    (key : string) :
  RateLimit.clock_ordered start (earlier ++ [last]) ->
  RateLimit.serve maxRequests windowMs (earlier ++ [last]) ∅ = (log, limits) ->
  (Z.of_nat
     (List.length
        (List.filter (fun t => (RateLimit.req_now last - windowMs <? t)%Z)
           (RateLimit.admitted_times key log)))
   <= Z.max 0 maxRequests)%Z.
Proof.
  intros Hclock Hrun.
  pose proof (tracks_serve maxRequests windowMs _ _ _ _ _ _
                (tracks_empty maxRequests windowMs start) Hclock Hrun) as Htracks.
  rewrite last_clock_snoc in Htracks. cbn [List.app] in Htracks.
  destruct (Htracks key) as [Hlen Hsame].
  rewrite <- (Hsame (RateLimit.req_now last - windowMs)%Z) by lia.
  pose proof (List.filter_length_le
                (fun t => (RateLimit.req_now last - windowMs <? t)%Z)
                (RateLimit.requests_of limits key)).
  lia.
Qed.

Lemma X23_rate_limit_witness :
  (Z.of_nat
     (List.length
        (List.filter (fun t => (1300 - 1000 <? t)%Z)
           (RateLimit.admitted_times "10.0.0.7anonymous"
              (fst (RateLimit.serve 2 1000
                      ([RateLimit.mkRequest "10.0.0.7" None 100;
                        RateLimit.mkRequest "10.0.0.7" None 400;
                        RateLimit.mkRequest "10.0.0.7" None 900]
                       ++ [RateLimit.mkRequest "10.0.0.7" None 1300]) ∅)))))
   <= Z.max 0 2)%Z.
Proof.
  apply (X23_rate_limit_bounds_every_window 2 1000 0
           [RateLimit.mkRequest "10.0.0.7" None 100;
            RateLimit.mkRequest "10.0.0.7" None 400;
            RateLimit.mkRequest "10.0.0.7" None 900]
           (RateLimit.mkRequest "10.0.0.7" None 1300) _
           (snd (RateLimit.serve 2 1000
                   ([RateLimit.mkRequest "10.0.0.7" None 100;
                     RateLimit.mkRequest "10.0.0.7" None 400;
                     RateLimit.mkRequest "10.0.0.7" None 900]
                    ++ [RateLimit.mkRequest "10.0.0.7" None 1300]) ∅))).
  - cbn. lia.
  - vm_compute. reflexivity.
Defined.

(** In the run of the witness the third request is turned down and the
    fourth, made after the first has left the window, is let through. *)
Example rate_limit_run :
  List.map snd
    (fst (RateLimit.serve 2 1000
            [RateLimit.mkRequest "10.0.0.7" None 100;
             RateLimit.mkRequest "10.0.0.7" None 400;
             RateLimit.mkRequest "10.0.0.7" None 900;
             RateLimit.mkRequest "10.0.0.7" None 1300] ∅))
  = [RateLimit.Next; RateLimit.Next; RateLimit.TooManyRequests; RateLimit.Next].
Proof. vm_compute. reflexivity. Qed.

Lemma serve_same_key maxRequests windowMs key reqs : forall limits limits',
  RateLimit.requests_of limits key = RateLimit.requests_of limits' key ->
  List.filter (fun entry => String.eqb (RateLimit.key_of (fst entry)) key)
    (fst (RateLimit.serve maxRequests windowMs reqs limits))
  = fst (RateLimit.serve maxRequests windowMs
           (List.filter (fun req => String.eqb (RateLimit.key_of req) key) reqs) limits').
Proof.
  induction reqs as [|req rest IH]; intros limits limits' Hsame; [reflexivity|].
  cbn [RateLimit.serve List.filter].
  destruct (rateLimit_spec maxRequests windowMs req limits key) as [Hverdict Hstored].
  destruct (RateLimit.rateLimit maxRequests windowMs req limits) as [verdict limits1].
  destruct (RateLimit.serve maxRequests windowMs rest limits1) as [served limits2] eqn:Hrest.
  cbn [fst snd List.filter] in *.
  destruct (String.eqb (RateLimit.key_of req) key) eqn:Hkey.
  - cbn [RateLimit.serve].
    destruct (rateLimit_spec maxRequests windowMs req limits' key) as [Hverdict' Hstored'].
    destruct (RateLimit.rateLimit maxRequests windowMs req limits') as [verdict' limits1'].
    destruct (RateLimit.serve maxRequests windowMs _ limits1') as [served' limits2'] eqn:Hrest'.
    cbn [fst snd] in *. rewrite Hkey in Hstored'.
    apply String.eqb_eq in Hkey. subst key.
    rewrite <- Hsame in Hverdict', Hstored'.
    assert (verdict' = verdict) as -> by congruence.
    f_equal.
    specialize (IH limits1 limits1' ltac:(congruence)).
    rewrite Hrest, Hrest' in IH. exact IH.
  - specialize (IH limits1 limits' ltac:(congruence)). rewrite Hrest in IH. exact IH.
Qed.

(** X24: clients do not use up each other's allowance.  The verdicts
    given to the requests of one key are the verdicts those requests
    would get if no request of any other key had been made. *)
Theorem X24_rate_limit_keys_are_independent (maxRequests windowMs : Z) (key : string)
    (reqs : list RateLimit.Request) :
  List.filter (fun entry => String.eqb (RateLimit.key_of (fst entry)) key)
    (fst (RateLimit.serve maxRequests windowMs reqs ∅))
  = fst (RateLimit.serve maxRequests windowMs
           (List.filter (fun req => String.eqb (RateLimit.key_of req) key) reqs) ∅).
Proof. now apply serve_same_key. Qed.

(** ** Reading a block by its index *)

(** X25: on every ledger the methods produce, the route that reads a
    block by index answers an integer index from 0 up to the last block
    with the block at that position, whose stored index is the one asked
    for, answers 404 for any other integer, and answers an index that is
    not a number with success and no block. *)
Theorem X25_block_by_index (utc_offset : Z -> Z) (st : Ledger) (i : Z) :
  reachable utc_offset st ->
  ((0 <= i < Z.of_nat (List.length (chain st)))%Z ->
   exists b, get_block_by_index (Some i) st = SendBlock (Some b) /\ block_index b = i)
  /\ ((i < 0 \/ Z.of_nat (List.length (chain st)) <= i)%Z ->
      get_block_by_index (Some i) st = BlockNotFound)
  /\ get_block_by_index None st = SendBlock None.
Proof.
  intros Hreach. destruct (reachable_invariant utc_offset st Hreach) as [_ Hidx _].
  unfold get_block_by_index. split; [|split; [|reflexivity]].
  - intros Hi.
    destruct (i <? 0)%Z eqn:Hneg; [lia|].
    destruct (Z.of_nat (List.length (chain st)) <=? i)%Z eqn:Hbig; [lia|]. cbn [orb].
    destruct (chain st !! Z.to_nat i) as [b|] eqn:Hb.
    + exists b. split; [reflexivity|]. rewrite (Hidx _ _ Hb). lia.
    + apply lookup_ge_None in Hb. lia.
  - intros Hi. destruct (i <? 0)%Z eqn:Hneg; [reflexivity|].
    destruct (Z.of_nat (List.length (chain st)) <=? i)%Z eqn:Hbig; [reflexivity|]. lia.
Qed.

Lemma X25_block_by_index_witness :
  ((0 <= 2 < Z.of_nat (List.length (chain (Scenario.ledger_of Scenario.seal_batch2))))%Z ->
   exists b, get_block_by_index (Some 2%Z) (Scenario.ledger_of Scenario.seal_batch2)
             = SendBlock (Some b) /\ block_index b = 2%Z)
  /\ ((2 < 0 \/ Z.of_nat (List.length (chain (Scenario.ledger_of Scenario.seal_batch2))) <= 2)%Z
      -> get_block_by_index (Some 2%Z) (Scenario.ledger_of Scenario.seal_batch2)
         = BlockNotFound)
  /\ get_block_by_index None (Scenario.ledger_of Scenario.seal_batch2) = SendBlock None.
Proof.
  apply (X25_block_by_index Scenario.ist). exact reachable_seal_batch2.
Defined.

(** ** Seasons *)




(** ** The daily limit on whole numbers *)






(** ** Referring to a batch *)

(** X28: an event can be referred to as a batch once it is sealed, not
    before.  While an admitted event is pooled, a processing step that
    names the event's identifier as its batch is refused for an unknown
    batch, provided no sealed event mentions that identifier; once a
    seal has succeeded the same step passes the batch check. *)
Theorem X28_batch_is_known_once_sealed (utc_offset : Z -> Z) (uuid : string)
    (timestamp now : Z) (nodeId type : string) (data : Fields) (st : Ledger)
    (tx : Transaction) (st' : Ledger) (step : Transaction) :
  createTransaction utc_offset uuid timestamp now nodeId type data st = (Returned tx, st') ->
  existsb (mentions_batch (JStr uuid)) (getAllTransactions st) = false ->
  field "batchId" (tx_data step) = JStr uuid ->
  SmartContract.executeProcessingStep step (getAllTransactions st')
  = Thrown ProcessingBatchNotFound
  /\ forall now' fuel minerId blk st'',
       mineBlock now' fuel minerId st' = (Returned blk, st'') ->
       SmartContract.executeProcessingStep step (getAllTransactions st'')
       <> Thrown ProcessingBatchNotFound
       /\ existsb (mentions_batch (JStr uuid)) (getAllTransactions st'') = true.
Proof.
  intros Hrun Hunknown Hbatch.
  apply createTransaction_success in Hrun. destruct Hrun as [-> Hid]. split.
  - unfold SmartContract.executeProcessingStep.
    rewrite Hbatch, getAllTransactions_with_pool, Hunknown. reflexivity.
  - intros now' fuel minerId blk st'' Hmine.
    rewrite mineBlock_cases in Hmine. cbn [pendingTransactions with_pool] in Hmine.
    destruct (pendingTransactions st ++ [tx])%list as [|tx0 pool] eqn:Hpool;
      [discriminate|].
    destruct (getLatestBlock _) as [latest|]; [|discriminate].
    destruct (proof_of_work _ _ _ _) as [mined| | |]; try discriminate.
    inversion Hmine; subst blk st''. clear Hmine.
    match goal with
    | |- context [getAllTransactions ?l] =>
        assert (existsb (mentions_batch (JStr uuid)) (getAllTransactions l) = true) as Hknown
    end.
    { rewrite getAllTransactions_snoc. apply List.existsb_exists. exists tx. split.
      - apply in_or_app. right. cbn [block_transactions]. rewrite <- Hpool.
        apply in_or_app. right. now left.
      - rewrite <- Hid. apply mentions_own_id. }
    split; [|exact Hknown].
    unfold SmartContract.executeProcessingStep. rewrite Hbatch, Hknown. cbn [negb].
    unfold SmartContract.and_then, get_prop, js_gt, js_lt, to_numv. cbn [obind].
    destruct (strict_eq (field "processingType" (tx_data step)) (JStr "drying"));
      destruct (strict_eq (field "processingType" (tx_data step)) (JStr "grinding"));
      destruct (field "conditions" (tx_data step)) as [| | | | | |conditions];
      cbn [obind]; try discriminate;
      try (destruct (field "temperature" conditions) as [| |[|]| | | |]);
      try (destruct (field "meshSize" conditions) as [| |[|]| | | |]);
      cbn [obind]; try discriminate;
      repeat match goal with
             | |- context [if ?b then _ else _] => destruct b; cbn [obind]
             end; discriminate.
Qed.

Lemma X28_batch_witness :
  SmartContract.executeProcessingStep (washing_of (JStr "a3d94c1e-52b7-4f0a-8e66-1c9b7d2f4a05"))
    (getAllTransactions (Scenario.ledger_of Scenario.submit_batch1))
  = Thrown ProcessingBatchNotFound
  /\ forall now' fuel minerId blk st'',
       mineBlock now' fuel minerId (Scenario.ledger_of Scenario.submit_batch1)
       = (Returned blk, st'') ->
       SmartContract.executeProcessingStep
         (washing_of (JStr "a3d94c1e-52b7-4f0a-8e66-1c9b7d2f4a05")) (getAllTransactions st'')
       <> Thrown ProcessingBatchNotFound
       /\ existsb (mentions_batch (JStr "a3d94c1e-52b7-4f0a-8e66-1c9b7d2f4a05"))
            (getAllTransactions st'') = true.
Proof.
  apply (X28_batch_is_known_once_sealed Scenario.ist "a3d94c1e-52b7-4f0a-8e66-1c9b7d2f4a05"
           1793600002000 1793600002000 "MFR001" "ManufacturingRecord"
           [("batchId", JStr "B1")] Scenario.with_maker Scenario.batch1).
  - vm_compute. reflexivity.
  - vm_compute. reflexivity.
  - reflexivity.
Defined.

(** ** Events changed in place *)

(** X29: changing the events of a block without touching its stored
    digest is detected on every block after the first, the last
    included.  On any chain, once the events of such a block are
    replaced by events that give another digest than the stored one,
    [isChainValid] returns false. *)
Theorem X29_changed_events_are_detected (st : Ledger) (i : nat) (b : Block)
    (txs : list Transaction) :
  chain st !! S i = Some b ->
  calculateHash (set_transactions b txs) <> block_hash b ->
  isChainValid (tamper st (S i) (set_transactions b txs)) = false.
Proof.
  intros Hb Hchanged.
  destruct (chain st !! i) as [p|] eqn:Hp.
  - apply (replaced_block_detected st i p b _ Hp Hb).
    unfold link_ok. apply andb_false_iff. left. apply String.eqb_neq.
    cbn [block_hash set_transactions]. congruence.
  - apply lookup_ge_None in Hp. apply lookup_lt_Some in Hb. lia.
Qed.

Lemma X29_changed_events_witness :
  isChainValid
    (tamper (Scenario.ledger_of Scenario.seal_batch1) 1
       (set_transactions Scenario.block1
          [set_data Scenario.batch1
             (set_field "batchId" (JStr "B9") (tx_data Scenario.batch1))])) = false.
Proof.
  apply (X29_changed_events_are_detected (Scenario.ledger_of Scenario.seal_batch1) 0
           Scenario.block1).
  - vm_compute. reflexivity.
  - vm_compute. discriminate.
Defined.
